(** * The boss ingest manager ([django/bossingest/ingest_manager.py])

    A shallow embedding of [IngestManager]: job set-up, job deletion and the
    partition of a job's extent into chunks and tiles, one upload task per
    tile.  The manager object, the [IngestJob] table and the upload queue are
    an explicit state; the collaborating libraries (ndingest queues, tile
    bucket and tile index, credentials, the schema validator, the key
    encoders of the ingest client) are the fields of an environment record,
    each free to fail. *)

From Stdlib Require Import ZArith List String Ascii Lia.
From stdpp Require Import base gmap strings list pretty.

Open Scope string_scope.
Open Scope Z_scope.

(** ** Exceptions *)

(** Modelled from the spec: [bosscore.error] is not among the sources.  The
    error kinds of the spec's taxonomy, under the names of the members of
    [ErrorCodes] that the manager raises; distinct members are distinct
    codes. *)
Inductive ErrorCodes :=
| UNABLE_TO_VALIDATE
| RESOURCE_NOT_FOUND
| OBJECT_NOT_FOUND
| SERIALIZATION_ERROR
| BOSS_SYSTEM_ERROR.

(** The Django models whose [DoesNotExist] the manager catches. *)
Inductive Model := CollectionModel | ExperimentModel | ChannelLayerModel | IngestJobModel.

(** Exception values: [BossError(message, error_code)] of bosscore, the
    [DoesNotExist] of a Django model, the validation error of jsonschema,
    and [PyError cls msg] for any other subclass of [Exception] (ValueError,
    AttributeError, a boto error, ...). *)
Inductive exn :=
| BossError (message : string) (error_code : ErrorCodes)
| DoesNotExist (model : Model)
| JsonschemaValidationError (msg : string)
| PyError (cls msg : string).

(** The classes named in the [except] clauses. *)
Inductive ExnClass :=
| Exception
| BossErrorCls
| DoesNotExistCls (model : Model)
| ValidationErrorCls.

Definition Model_eqb (a b : Model) : bool :=
  match a, b with
  | CollectionModel, CollectionModel
  | ExperimentModel, ExperimentModel
  | ChannelLayerModel, ChannelLayerModel
  | IngestJobModel, IngestJobModel => true
  | _, _ => false
  end.

(** [isinstance(e, c)]: every exception is an [Exception]. *)
Definition isinstance (e : exn) (c : ExnClass) : bool :=
  match c, e with
  | Exception, _ => true
  | BossErrorCls, BossError _ _ => true
  | DoesNotExistCls m, DoesNotExist m' => Model_eqb m m'
  | ValidationErrorCls, JsonschemaValidationError _ => true
  | _, _ => false
  end.

Inductive Result (A : Type) :=
| Ok (a : A)
| Raise (e : exn).
Arguments Ok {A} a.
Arguments Raise {A} e.

(** ** Data *)

(** The configuration document, in the shape the schema validation admits:
    [config_data["database"]] and [config_data["ingest_job"]]. *)
Record ConfigData := {
  cfg_collection : string;
  cfg_experiment : string;
  cfg_channel_layer : string;
  cfg_extent_x : Z * Z;
  cfg_extent_y : Z * Z;
  cfg_extent_z : Z * Z;
  cfg_extent_t : Z * Z;
  cfg_tile_size_x : Z;
  cfg_tile_size_y : Z;
  cfg_tile_size_z : Z;
  cfg_tile_size_t : Z
}.

(** [ingest.core.config.Configuration] and its validator object. *)
Record Configuration := { config_data_of : ConfigData; schema : string }.
Record Validator := { validator_name : string; validator_schema : string }.

(** The resource models of bosscore, as far as the manager reads them
    ([name], [base_resolution]). *)
Record Collection := { collection_name : string }.
Record Experiment := { experiment_name : string; experiment_collection : Collection }.
Record ChannelLayer := {
  channel_layer_name : string;
  channel_layer_experiment : Experiment;
  base_resolution : Z
}.

(** Modelled from the spec: [bossingest.models] is not among the sources.  A
    row of [IngestJob] has the fields of the spec's data model, under the
    names the manager reads and writes; the queue references are absent
    ([None]) until provisioning sets them. *)
Record IngestJob := {
  id : Z;
  creator : option string;
  collection : string;
  experiment : string;
  channel_layer : string;
  config_data : string;
  resolution : Z;
  x_start : Z; x_stop : Z;
  y_start : Z; y_stop : Z;
  z_start : Z; z_stop : Z;
  t_start : Z; t_stop : Z;
  tile_size_x : Z; tile_size_y : Z; tile_size_z : Z; tile_size_t : Z;
  status : Z;
  upload_queue : option string;
  ingest_queue : option string
}.

(** The job states the manager writes: [status = 1] and [status = 3]. *)
Definition STATUS_ACTIVE : Z := 1.
Definition STATUS_DELETED : Z := 3.

Definition set_status (v : Z) (j : IngestJob) : IngestJob :=
  {| id := id j; creator := creator j; collection := collection j;
     experiment := experiment j; channel_layer := channel_layer j;
     config_data := config_data j; resolution := resolution j;
     x_start := x_start j; x_stop := x_stop j;
     y_start := y_start j; y_stop := y_stop j;
     z_start := z_start j; z_stop := z_stop j;
     t_start := t_start j; t_stop := t_stop j;
     tile_size_x := tile_size_x j; tile_size_y := tile_size_y j;
     tile_size_z := tile_size_z j; tile_size_t := tile_size_t j;
     status := v;
     upload_queue := upload_queue j; ingest_queue := ingest_queue j |}.

Definition set_upload_queue (v : option string) (j : IngestJob) : IngestJob :=
  {| id := id j; creator := creator j; collection := collection j;
     experiment := experiment j; channel_layer := channel_layer j;
     config_data := config_data j; resolution := resolution j;
     x_start := x_start j; x_stop := x_stop j;
     y_start := y_start j; y_stop := y_stop j;
     z_start := z_start j; z_stop := z_stop j;
     t_start := t_start j; t_stop := t_stop j;
     tile_size_x := tile_size_x j; tile_size_y := tile_size_y j;
     tile_size_z := tile_size_z j; tile_size_t := tile_size_t j;
     status := status j;
     upload_queue := v; ingest_queue := ingest_queue j |}.

Definition set_ingest_queue (v : option string) (j : IngestJob) : IngestJob :=
  {| id := id j; creator := creator j; collection := collection j;
     experiment := experiment j; channel_layer := channel_layer j;
     config_data := config_data j; resolution := resolution j;
     x_start := x_start j; x_stop := x_stop j;
     y_start := y_start j; y_stop := y_stop j;
     z_start := z_start j; z_stop := z_stop j;
     t_start := t_start j; t_stop := t_stop j;
     tile_size_x := tile_size_x j; tile_size_y := tile_size_y j;
     tile_size_z := tile_size_z j; tile_size_t := tile_size_t j;
     status := status j;
     upload_queue := upload_queue j; ingest_queue := v |}.

(** The ndingest project handle:
    [proj_class(collection, experiment, channel_layer, resolution, job.id)]. *)
Record NdProj := {
  proj_collection : string;
  proj_experiment : string;
  proj_channel_layer : string;
  proj_resolution : Z;
  proj_job_id : Z
}.

(** Handles of the collaborators' objects. *)
Record Queue := { url : string }.
Record TileBucket := { bucket_name : string }.
Record TileIndexDB := { index_name : string }.
Record Policy := { arn : string }.

(** An item of [tiledb.getTaskItems]: [chunk['chunk_key']] and the keys of
    [chunk['tile_uploaded_map']] in iteration order. *)
Record ChunkItem := { item_chunk_key : string; tile_uploaded_map : list string }.

(** The values of the task message document. *)
Inductive JValue :=
| JInt (n : Z)
| JStr (s : string)
| JNull.

Definition JOptStr (o : option string) : JValue :=
  match o with
  | Some s => JStr s
  | None => JNull
  end.

(** The fields of [IngestManager.__init__]. *)
Record Manager := {
  self_job : option IngestJob;
  self_owner : option string;
  self_config : option Configuration;
  self_validator : option Validator;
  self_collection : option Collection;
  self_experiment : option Experiment;
  self_channel_layer : option ChannelLayer;
  self_resolution : Z;
  self_nd_proj : option NdProj
}.

Definition IngestManager_init : Manager :=
  {| self_job := None; self_owner := None; self_config := None;
     self_validator := None; self_collection := None;
     self_experiment := None; self_channel_layer := None;
     self_resolution := 0; self_nd_proj := None |}.

Definition CONNECTER : string := "&".

(** ** Pure helpers of the Python runtime *)

(** [s.split(c)] for a one-character separator. *)
Fixpoint split_on (c : ascii) (s : string) : list string :=
  match s with
  | EmptyString => [EmptyString]
  | String a s' =>
      if Ascii.eqb a c then EmptyString :: split_on c s'
      else match split_on c s' with
           | w :: ws => String a w :: ws
           | [] => [String a EmptyString]
           end
  end.

(** The elements of [range(start, stop, step)], produced the way the
    iterator yields them: from [start], adding [step], while short of [stop].
    [range] refuses [step = 0] before any element is produced (see
    [for_range]). *)
Fixpoint range_from (fuel : nat) (cur stop step : Z) : list Z :=
  match fuel with
  | O => []
  | S fuel' =>
      if (if 0 <? step then cur <? stop else stop <? cur)
      then cur :: range_from fuel' (cur + step) stop step
      else []
  end.

Definition py_range (start stop step : Z) : list Z :=
  if step =? 0 then []
  else range_from (Z.to_nat (Z.abs (stop - start))) start stop step.

(** [int(a / b)] on integers.  In Python 3 [a / b] is the float division:
    its value is the double nearest to the exact quotient, ties going to the
    even significand, and [int] drops the fraction of that double.

    [round_half_even n d] is the integer nearest to [n / d], for [0 < d]. *)
Definition round_half_even (n d : Z) : Z :=
  let q := n / d in
  match 2 * (n mod d) ?= d with
  | Lt => q
  | Gt => q + 1
  | Eq => if Z.even q then q else q + 1
  end.

(** The binary exponent [e] of a quotient of positive integers:
    [2^e <= a / b < 2^(e+1)]. *)
Definition quotient_exponent (a b : Z) : Z :=
  let d := Z.log2 a - Z.log2 b in
  if a * 2 ^ Z.max 0 (- d) <? b * 2 ^ Z.max 0 d then d - 1 else d.

(** The quotient of positive integers rounded to 53 significant bits, the
    precision of a double, without its fraction. *)
Definition double_quotient_trunc (a b : Z) : Z :=
  let shift := 52 - quotient_exponent a b in
  if 0 <=? shift then round_half_even (a * 2 ^ shift) b / 2 ^ shift
  else round_half_even a (b * 2 ^ (- shift)) * 2 ^ (- shift).

(** The value of [int(a / b)] when the division does not raise. *)
Definition int_truediv (a b : Z) : Z :=
  Z.sgn a * Z.sgn b * double_quotient_trunc (Z.abs a) (Z.abs b).

(** The first power of 2 that is not a double: a quotient that rounds to it
    or beyond makes the division raise [OverflowError]. *)
Definition DBL_OVERFLOW : Z := 2 ^ 1024.

(** ** State and effects *)

(** The state a call runs in: the manager object ([self]), the [IngestJob]
    table, the messages the upload queue has accepted (with the queue handle
    they were sent through), and the collaborators' own state. *)
Record State (E : Type) := {
  self : Manager;
  ingest_jobs : gmap Z IngestJob;
  upload_messages : list (Queue * string);
  ext : E
}.
Arguments self {E} _.
Arguments ingest_jobs {E} _.
Arguments upload_messages {E} _.
Arguments ext {E} _.

Definition with_self {E} (m : Manager) (s : State E) : State E :=
  {| self := m; ingest_jobs := ingest_jobs s;
     upload_messages := upload_messages s; ext := ext s |}.
Definition with_ingest_jobs {E} (t : gmap Z IngestJob) (s : State E) : State E :=
  {| self := self s; ingest_jobs := t;
     upload_messages := upload_messages s; ext := ext s |}.
Definition with_upload_messages {E} (l : list (Queue * string)) (s : State E) : State E :=
  {| self := self s; ingest_jobs := ingest_jobs s;
     upload_messages := l; ext := ext s |}.
Definition with_ext {E} (e : E) (s : State E) : State E :=
  {| self := self s; ingest_jobs := ingest_jobs s;
     upload_messages := upload_messages s; ext := e |}.

(** The message strings on the upload queue, oldest first. *)
Definition published {E} (s : State E) : list string := map snd (upload_messages s).

(** A collaborator's operation: it may raise, and it changes only the
    collaborators' state. *)
Definition Ext (E A : Type) : Type := E → Result A * E.

(** A method of the manager: a result or an exception, and the state left
    behind (mutations made before a [raise] stay). *)
Definition M (E A : Type) : Type := State E → Result A * State E.

Definition ret {E A} (a : A) : M E A := λ s, (Ok a, s).
Definition raise {E A} (e : exn) : M E A := λ s, (Raise e, s).
Definition bind {E A B} (c : M E A) (k : A → M E B) : M E B :=
  λ s, match c s with
       | (Ok a, s') => k a s'
       | (Raise e, s') => (Raise e, s')
       end.

Declare Scope py_scope.
Delimit Scope py_scope with py.
Notation "x <- c1 ;; c2" := (bind c1 (λ x, c2))
  (at level 100, c1 at next level, right associativity) : py_scope.
Notation "c1 ;; c2" := (bind c1 (λ _, c2))
  (at level 100, right associativity) : py_scope.
Open Scope py_scope.

Definition call {E A} (op : Ext E A) : M E A :=
  λ s, let (r, e') := op (ext s) in (r, with_ext e' s).

Definition get_self {E} : M E Manager := λ s, (Ok (self s), s).
Definition put_self {E} (m : Manager) : M E unit := λ s, (Ok tt, with_self m s).

(** The expression [int(a / b)]: the division raises [ZeroDivisionError]
    for [b = 0] and [OverflowError] for a quotient beyond the doubles. *)
Definition int_of_truediv {E} (a b : Z) : M E Z :=
  if b =? 0 then raise (PyError "ZeroDivisionError" "division by zero")
  else if DBL_OVERFLOW <=? Z.abs (int_truediv a b) then
    raise (PyError "OverflowError" "integer division result too large for a float")
  else ret (int_truediv a b).

(** [o.attr] on a possibly-[None] object. *)
Definition attr {E A} (o : option A) : M E A :=
  match o with
  | Some a => ret a
  | None => raise (PyError "AttributeError" "'NoneType' object has no attribute")
  end.

(** [try: body except C1 as e: h1 except C2 as e: h2 ...]: the first clause
    whose class the exception is an instance of handles it. *)
Definition try_except {E A} (body : M E A) (handlers : list (ExnClass * (exn → M E A))) : M E A :=
  λ s, match body s with
       | (Ok a, s') => (Ok a, s')
       | (Raise e, s') =>
           match find (λ h, isinstance e (fst h)) handlers with
           | Some h => snd h e s'
           | None => (Raise e, s')
           end
       end.

(** [for x in l: body]. *)
Fixpoint for_ {E A} (l : list A) (body : A → M E unit) : M E unit :=
  match l with
  | [] => ret tt
  | x :: l' => body x ;; for_ l' body
  end.

(** [for x in range(start, stop, step): body]. *)
Definition for_range {E} (start stop step : Z) (body : Z → M E unit) : M E unit :=
  if step =? 0 then raise (PyError "ValueError" "range() arg 3 must not be zero")
  else for_ (py_range start stop step) body.

(** Assignments to the fields of [self]. *)
Definition set_job {E} (v : option IngestJob) : M E unit :=
  m <- get_self ;;
  put_self {| self_job := v; self_owner := self_owner m; self_config := self_config m;
              self_validator := self_validator m; self_collection := self_collection m;
              self_experiment := self_experiment m; self_channel_layer := self_channel_layer m;
              self_resolution := self_resolution m; self_nd_proj := self_nd_proj m |}.
Definition set_owner {E} (v : option string) : M E unit :=
  m <- get_self ;;
  put_self {| self_job := self_job m; self_owner := v; self_config := self_config m;
              self_validator := self_validator m; self_collection := self_collection m;
              self_experiment := self_experiment m; self_channel_layer := self_channel_layer m;
              self_resolution := self_resolution m; self_nd_proj := self_nd_proj m |}.
Definition set_config {E} (v : option Configuration) : M E unit :=
  m <- get_self ;;
  put_self {| self_job := self_job m; self_owner := self_owner m; self_config := v;
              self_validator := self_validator m; self_collection := self_collection m;
              self_experiment := self_experiment m; self_channel_layer := self_channel_layer m;
              self_resolution := self_resolution m; self_nd_proj := self_nd_proj m |}.
Definition set_validator {E} (v : option Validator) : M E unit :=
  m <- get_self ;;
  put_self {| self_job := self_job m; self_owner := self_owner m; self_config := self_config m;
              self_validator := v; self_collection := self_collection m;
              self_experiment := self_experiment m; self_channel_layer := self_channel_layer m;
              self_resolution := self_resolution m; self_nd_proj := self_nd_proj m |}.
Definition set_collection {E} (v : option Collection) : M E unit :=
  m <- get_self ;;
  put_self {| self_job := self_job m; self_owner := self_owner m; self_config := self_config m;
              self_validator := self_validator m; self_collection := v;
              self_experiment := self_experiment m; self_channel_layer := self_channel_layer m;
              self_resolution := self_resolution m; self_nd_proj := self_nd_proj m |}.
Definition set_experiment {E} (v : option Experiment) : M E unit :=
  m <- get_self ;;
  put_self {| self_job := self_job m; self_owner := self_owner m; self_config := self_config m;
              self_validator := self_validator m; self_collection := self_collection m;
              self_experiment := v; self_channel_layer := self_channel_layer m;
              self_resolution := self_resolution m; self_nd_proj := self_nd_proj m |}.
Definition set_channel_layer {E} (v : option ChannelLayer) : M E unit :=
  m <- get_self ;;
  put_self {| self_job := self_job m; self_owner := self_owner m; self_config := self_config m;
              self_validator := self_validator m; self_collection := self_collection m;
              self_experiment := self_experiment m; self_channel_layer := v;
              self_resolution := self_resolution m; self_nd_proj := self_nd_proj m |}.
Definition set_resolution {E} (v : Z) : M E unit :=
  m <- get_self ;;
  put_self {| self_job := self_job m; self_owner := self_owner m; self_config := self_config m;
              self_validator := self_validator m; self_collection := self_collection m;
              self_experiment := self_experiment m; self_channel_layer := self_channel_layer m;
              self_resolution := v; self_nd_proj := self_nd_proj m |}.
Definition set_nd_proj {E} (v : option NdProj) : M E unit :=
  m <- get_self ;;
  put_self {| self_job := self_job m; self_owner := self_owner m; self_config := self_config m;
              self_validator := self_validator m; self_collection := self_collection m;
              self_experiment := self_experiment m; self_channel_layer := self_channel_layer m;
              self_resolution := self_resolution m; self_nd_proj := v |}.

(** [self.job.<field> = v]. *)
Definition update_job {E} (f : IngestJob → IngestJob) : M E unit :=
  m <- get_self ;;
  j <- attr (self_job m) ;;
  set_job (Some (f j)).

(** [IngestJob.objects.get(id=job_id)]. *)
Definition IngestJob_objects_get {E} (job_id : Z) : M E IngestJob :=
  λ s, match ingest_jobs s !! job_id with
       | Some j => (Ok j, s)
       | None => (Raise (DoesNotExist IngestJobModel), s)
       end.

(** ** The collaborators *)

(** The data handed to [IngestJobCreateSerializer]. *)
Record IngestJobData := {
  d_creator : option string;
  d_collection : string;
  d_experiment : string;
  d_channel_layer : string;
  d_config_data : string;
  d_resolution : Z;
  d_x_start : Z; d_x_stop : Z;
  d_y_start : Z; d_y_stop : Z;
  d_z_start : Z; d_z_stop : Z;
  d_t_start : Z; d_t_stop : Z;
  d_tile_size_x : Z; d_tile_size_y : Z; d_tile_size_z : Z; d_tile_size_t : Z
}.

(** Everything the manager imports: the ingest client ([Configuration],
    [BossBackend]), the resource models of bosscore, the serializer of
    bossingest, ndingest (queues, tile bucket, tile index, policies),
    bossutils (credentials) and the formatting and [json] functions of the
    runtime.  Operations of type [Ext] may raise. *)
Record Env (E : Type) := {
  Configuration_new : ConfigData → Ext E Configuration;
  Configuration_get_validator : Configuration → Ext E Validator;
  Validator_validate_schema : Validator → Ext E unit;
  Collection_objects_get : string → Ext E Collection;
  Experiment_objects_get : string → option Collection → Ext E Experiment;
  ChannelLayer_objects_get : string → option Experiment → Ext E ChannelLayer;
  serializer_is_valid : IngestJobData → Ext E bool;
  serializer_errors : IngestJobData → string;
  (* the database insert of [serializer.save()]: the new row's primary key *)
  IngestJob_insert : IngestJobData → Ext E Z;
  (* the model's default for a column the serializer data does not give *)
  status_default : Z;
  (* the database write of [job.save()] *)
  IngestJob_update : IngestJob → Ext E unit;
  BossIngestProj_load : Ext E unit;
  UploadQueue_createQueue : option NdProj → Ext E unit;
  UploadQueue_new : option NdProj → Ext E Queue;
  UploadQueue_deleteQueue : option NdProj → Ext E unit;
  UploadQueue_sendMessage : Queue → string → Ext E unit;
  IngestQueue_createQueue : option NdProj → Ext E unit;
  IngestQueue_new : option NdProj → Ext E Queue;
  IngestQueue_deleteQueue : option NdProj → Ext E unit;
  TileBucket_getBucketName : Ext E string;
  TileBucket_new : string → Ext E TileBucket;
  TileBucket_deleteObject : TileBucket → string → Ext E unit;
  BossTileIndexDB_new : string → Ext E TileIndexDB;
  BossTileIndexDB_getTaskItems : TileIndexDB → Z → Ext E (list ChunkItem);
  BossTileIndexDB_deleteCuboid : TileIndexDB → string → Ext E unit;
  (* [LookUpKey.get_lookup_key(bosskey).lookup_key] *)
  LookUpKey_get_lookup_key : string → Ext E string;
  IngestCredentials_new : Ext E unit;
  generate_credentials : Z → string → Ext E unit;
  remove_credentials : Z → Ext E unit;
  BossUtil_generate_ingest_policy : Z → Queue → TileBucket → Ext E Policy;
  BossUtil_delete_ingest_policy : Z → Ext E bool;
  (* [BossBackend(self.config).encode_chunk_key(num_of_tiles, project_info,
     resolution, chunk_x, chunk_y, chunk_z, time_step)] *)
  encode_chunk_key : option Configuration → Z → list string → Z → Z → Z → Z → Z → string;
  (* [BossBackend(self.config).encode_tile_key(project_info, resolution,
     x_index, y_index, z_index, t_index)] *)
  encode_tile_key : option Configuration → list string → Z → Z → Z → Z → Z → string;
  json_dumps : gmap string JValue → string;
  json_dumps_config : ConfigData → string;
  str_exn : exn → string;
  str_collection : option Collection → string;
  str_experiment : option Experiment → string;
  str_channel_layer : option ChannelLayer → string
}.
Arguments Configuration_new {E} _.
Arguments Configuration_get_validator {E} _.
Arguments Validator_validate_schema {E} _.
Arguments Collection_objects_get {E} _.
Arguments Experiment_objects_get {E} _.
Arguments ChannelLayer_objects_get {E} _.
Arguments serializer_is_valid {E} _.
Arguments serializer_errors {E} _.
Arguments IngestJob_insert {E} _.
Arguments status_default {E} _.
Arguments IngestJob_update {E} _.
Arguments BossIngestProj_load {E} _.
Arguments UploadQueue_createQueue {E} _.
Arguments UploadQueue_new {E} _.
Arguments UploadQueue_deleteQueue {E} _.
Arguments UploadQueue_sendMessage {E} _.
Arguments IngestQueue_createQueue {E} _.
Arguments IngestQueue_new {E} _.
Arguments IngestQueue_deleteQueue {E} _.
Arguments TileBucket_getBucketName {E} _.
Arguments TileBucket_new {E} _.
Arguments TileBucket_deleteObject {E} _.
Arguments BossTileIndexDB_new {E} _.
Arguments BossTileIndexDB_getTaskItems {E} _.
Arguments BossTileIndexDB_deleteCuboid {E} _.
Arguments LookUpKey_get_lookup_key {E} _.
Arguments IngestCredentials_new {E} _.
Arguments generate_credentials {E} _.
Arguments remove_credentials {E} _.
Arguments BossUtil_generate_ingest_policy {E} _.
Arguments BossUtil_delete_ingest_policy {E} _.
Arguments encode_chunk_key {E} _.
Arguments encode_tile_key {E} _.
Arguments json_dumps {E} _.
Arguments json_dumps_config {E} _.
Arguments str_exn {E} _.
Arguments str_collection {E} _.
Arguments str_experiment {E} _.
Arguments str_channel_layer {E} _.

(** The argument tuple of [create_upload_task_message]: one TileTask. *)
Record TileTask := {
  task_job_id : Z;
  task_chunk_key : string;
  task_tile_key : string;
  task_upload_queue_arn : option string;
  task_ingest_queue_arn : option string
}.

(** One pass through the body of the x-loop of [generate_upload_tasks]: the
    loop variables, the chunk indices, the tile count, the chunk key and the
    tasks of the tile loop. *)
Record Chunk := {
  chunk_t : Z;
  chunk_z_pos : Z;
  chunk_y_pos : Z;
  chunk_x_pos : Z;
  chunk_x : Z;
  chunk_y : Z;
  chunk_z : Z;
  num_of_tiles : Z;
  chunk_key : string;
  chunk_tasks : list TileTask
}.

(** ** The ingest manager *)

Section IngestManager.

Context {E : Type} (env : Env E).

(** The queue side of [queue.sendMessage(msg)]: a send that does not raise
    has put the message on the upload queue. *)
Definition UploadQueue_send (queue : Queue) (msg : string) : M E unit :=
  call (UploadQueue_sendMessage env queue msg) ;;
  λ s, (Ok tt, with_upload_messages (upload_messages s ++ [(queue, msg)]) s).

(** [job.save()]: the database write, then the row holds the object. *)
Definition IngestJob_save (job : IngestJob) : M E unit :=
  call (IngestJob_update env job) ;;
  λ s, (Ok tt, with_ingest_jobs (<[id job := job]> (ingest_jobs s)) s).

Definition row_of_data (pk : Z) (data : IngestJobData) : IngestJob :=
  {| id := pk; creator := d_creator data; collection := d_collection data;
     experiment := d_experiment data; channel_layer := d_channel_layer data;
     config_data := d_config_data data; resolution := d_resolution data;
     x_start := d_x_start data; x_stop := d_x_stop data;
     y_start := d_y_start data; y_stop := d_y_stop data;
     z_start := d_z_start data; z_stop := d_z_stop data;
     t_start := d_t_start data; t_stop := d_t_stop data;
     tile_size_x := d_tile_size_x data; tile_size_y := d_tile_size_y data;
     tile_size_z := d_tile_size_z data; tile_size_t := d_tile_size_t data;
     status := status_default env;
     upload_queue := None; ingest_queue := None |}.

(** Modelled from the spec: [bossingest.serializers] and
    [bossingest.models] are not among the sources.  [serializer.save()]
    persists a new row holding the serializer data, under the key the
    database gives it, in the model's initial state and with no queue
    reference ("absent before" provisioning), and returns the row's object. *)
Definition serializer_save (data : IngestJobData) : M E IngestJob :=
  pk <- call (IngestJob_insert env data) ;;
  let job := row_of_data pk data in
  λ s, (Ok job, with_ingest_jobs (<[pk := job]> (ingest_jobs s)) s).

Definition validate_config_file (config_data : ConfigData) : M E bool :=
  try_except
    (config <- call (Configuration_new env config_data) ;;
     set_config (Some config) ;;
     validator <- call (Configuration_get_validator env config) ;;
     set_validator (Some validator) ;;
     let validator := {| validator_name := validator_name validator;
                         validator_schema := schema config |} in
     set_validator (Some validator) ;;
     call (Validator_validate_schema env validator))
    [ (ValidationErrorCls, λ e,
        raise (BossError ("Schema validation failed! " +:+ str_exn env e) UNABLE_TO_VALIDATE));
      (Exception, λ e,
        raise (BossError (" Could not validate the schema file." +:+ str_exn env e)
                         UNABLE_TO_VALIDATE)) ] ;;
  ret true.

Definition validate_properties : M E bool :=
  try_except
    (m <- get_self ;;
     config <- attr (self_config m) ;;
     c <- call (Collection_objects_get env (cfg_collection (config_data_of config))) ;;
     set_collection (Some c) ;;
     m <- get_self ;;
     e <- call (Experiment_objects_get env (cfg_experiment (config_data_of config))
                  (self_collection m)) ;;
     set_experiment (Some e) ;;
     m <- get_self ;;
     cl <- call (ChannelLayer_objects_get env (cfg_channel_layer (config_data_of config))
                   (self_experiment m)) ;;
     set_channel_layer (Some cl) ;;
     set_resolution (base_resolution cl))
    [ (DoesNotExistCls CollectionModel, λ _,
        m <- get_self ;;
        raise (BossError ("Collection " +:+ str_collection env (self_collection m)
                            +:+ " not found") RESOURCE_NOT_FOUND));
      (DoesNotExistCls ExperimentModel, λ _,
        m <- get_self ;;
        raise (BossError ("Experiment " +:+ str_experiment env (self_experiment m)
                            +:+ " not found") RESOURCE_NOT_FOUND));
      (DoesNotExistCls ChannelLayerModel, λ _,
        m <- get_self ;;
        raise (BossError ("Channel or Layer " +:+ str_channel_layer env (self_channel_layer m)
                            +:+ " not found") RESOURCE_NOT_FOUND)) ] ;;
  ret true.

Definition create_ingest_job : M E IngestJob :=
  m <- get_self ;;
  c <- attr (self_collection m) ;;
  e <- attr (self_experiment m) ;;
  cl <- attr (self_channel_layer m) ;;
  config <- attr (self_config m) ;;
  let cd := config_data_of config in
  let ingest_job_serializer_data :=
    {| d_creator := self_owner m;
       d_collection := collection_name c;
       d_experiment := experiment_name e;
       d_channel_layer := channel_layer_name cl;
       d_config_data := json_dumps_config env cd;
       d_resolution := self_resolution m;
       d_x_start := fst (cfg_extent_x cd); d_x_stop := snd (cfg_extent_x cd);
       d_y_start := fst (cfg_extent_y cd); d_y_stop := snd (cfg_extent_y cd);
       d_z_start := fst (cfg_extent_z cd); d_z_stop := snd (cfg_extent_z cd);
       d_t_start := fst (cfg_extent_t cd); d_t_stop := snd (cfg_extent_t cd);
       d_tile_size_x := cfg_tile_size_x cd;
       d_tile_size_y := cfg_tile_size_y cd;
       d_tile_size_z := cfg_tile_size_z cd;
       d_tile_size_t := cfg_tile_size_t cd |} in
  valid <- call (serializer_is_valid env ingest_job_serializer_data) ;;
  if valid : bool then serializer_save ingest_job_serializer_data
  else raise (BossError (serializer_errors env ingest_job_serializer_data) SERIALIZATION_ERROR).

Definition get_ingest_job (ingest_job_id : Z) : M E IngestJob :=
  try_except (IngestJob_objects_get ingest_job_id)
    [ (DoesNotExistCls IngestJobModel, λ _,
        raise (BossError ("The ingest job with id " +:+ pretty ingest_job_id
                            +:+ " does not exist") OBJECT_NOT_FOUND)) ].

Definition create_upload_queue : M E Queue :=
  m <- get_self ;;
  call (UploadQueue_createQueue env (self_nd_proj m)) ;;
  call (UploadQueue_new env (self_nd_proj m)).

Definition create_ingest_queue : M E Queue :=
  m <- get_self ;;
  call (IngestQueue_createQueue env (self_nd_proj m)) ;;
  call (IngestQueue_new env (self_nd_proj m)).

Definition delete_upload_queue : M E unit :=
  m <- get_self ;;
  call (UploadQueue_deleteQueue env (self_nd_proj m)).

Definition delete_ingest_queue : M E unit :=
  m <- get_self ;;
  call (IngestQueue_deleteQueue env (self_nd_proj m)).

Definition get_tile_bucket : M E string :=
  call (TileBucket_getBucketName env).

(** The dictionary [msg] that [create_upload_task_message] fills in. *)
Definition upload_task_message_dict (job_id : Z) (chunk_key tile_key : string)
    (upload_queue_arn ingest_queue_arn : option string) : gmap string JValue :=
  let msg : gmap string JValue := ∅ in
  let msg := <["job_id" := JInt job_id]> msg in
  let msg := <["chunk_key" := JStr chunk_key]> msg in
  let msg := <["tile_key" := JStr tile_key]> msg in
  let msg := <["upload_queue_arn" := JOptStr upload_queue_arn]> msg in
  let msg := <["ingest_queue_arn" := JOptStr ingest_queue_arn]> msg in
  msg.

Definition create_upload_task_message (job_id : Z) (chunk_key tile_key : string)
    (upload_queue_arn ingest_queue_arn : option string) : string :=
  json_dumps env
    (upload_task_message_dict job_id chunk_key tile_key upload_queue_arn ingest_queue_arn).

Definition send_upload_task_message (msg : string) : M E unit :=
  m <- get_self ;;
  queue <- call (UploadQueue_new env (self_nd_proj m)) ;;
  UploadQueue_send queue msg.

(** [if job_id:] on an optional integer. *)
Definition truthy (job_id : option Z) : bool :=
  match job_id with
  | Some n => negb (n =? 0)
  | None => false
  end.

(** [[col_id, exp_id, ch_id] = l]. *)
Definition unpack3 (l : list string) : M E (list string) :=
  match l with
  | [col_id; exp_id; ch_id] => ret [col_id; exp_id; ch_id]
  | _ => raise (PyError "ValueError" "wrong number of values to unpack")
  end.

Definition generate_upload_tasks (job_id : option Z) : M E unit :=
  m <- get_self ;;
  ingest_job <-
    (if bool_decide (job_id = None) && bool_decide (self_job m = None) then
       raise (BossError
                "Unable to generate upload tasks for the ingest service. Please specify a ingest job"
                UNABLE_TO_VALIDATE)
     else if truthy job_id then
       j <- try_except (IngestJob_objects_get (default 0 job_id))
              [ (DoesNotExistCls IngestJobModel, λ _,
                  raise (BossError ("Ingest job with id " +:+ pretty (default 0 job_id)
                                      +:+ " does not exist") RESOURCE_NOT_FOUND)) ] ;;
       ret (Some j)
     else ret (self_job m)) ;;
  ingest_job <- attr ingest_job ;;
  let bosskey := collection ingest_job +:+ CONNECTER +:+ experiment ingest_job
                   +:+ CONNECTER +:+ channel_layer ingest_job in
  lookup_key <- call (LookUpKey_get_lookup_key env bosskey) ;;
  project_info <- unpack3 (split_on "&" lookup_key) ;;
  for_range (t_start ingest_job) (t_stop ingest_job) 1 (λ time_step,
    for_range (z_start ingest_job) (z_stop ingest_job) 16 (λ z,
      for_range (y_start ingest_job) (y_stop ingest_job) (tile_size_y ingest_job) (λ y,
        for_range (x_start ingest_job) (x_stop ingest_job) (tile_size_x ingest_job) (λ x,
          chunk_x <- int_of_truediv x (tile_size_x ingest_job) ;;
          chunk_y <- int_of_truediv y (tile_size_y ingest_job) ;;
          chunk_z <- int_of_truediv z 16 ;;
          let num_of_tiles :=
            if z_stop ingest_job - z >=? 16 then 16 else z_stop ingest_job - z in
          m <- get_self ;;
          let chunk_key :=
            encode_chunk_key env (self_config m) num_of_tiles project_info
              (resolution ingest_job) chunk_x chunk_y chunk_z time_step in
          for_range 0 num_of_tiles 1 (λ tile,
            m <- get_self ;;
            let tile_key :=
              encode_tile_key env (self_config m) project_info (resolution ingest_job)
                chunk_x chunk_y tile time_step in
            let msg :=
              create_upload_task_message (id ingest_job) chunk_key tile_key
                (upload_queue ingest_job) (ingest_queue ingest_job) in
            send_upload_task_message msg))))).

Definition delete_tiles (ingest_job : IngestJob) : M E unit :=
  try_except
    (tiledb <- call (BossTileIndexDB_new env (collection ingest_job +:+ "&" +:+ experiment ingest_job)) ;;
     tilebucket <- call (TileBucket_new env (collection ingest_job +:+ "&" +:+ experiment ingest_job)) ;;
     chunks <- call (BossTileIndexDB_getTaskItems env tiledb (id ingest_job)) ;;
     for_ chunks (λ chunk,
       for_ (tile_uploaded_map chunk) (λ key,
         call (TileBucket_deleteObject env tilebucket key)) ;;
       call (BossTileIndexDB_deleteCuboid env tiledb (item_chunk_key chunk))))
    [ (Exception, λ e,
        raise (BossError ("Exception while deleteing tiles for the ingest job "
                            +:+ pretty (id ingest_job) +:+ ". " +:+ str_exn env e)
                         BOSS_SYSTEM_ERROR)) ].

Definition create_ingest_credentials (upload_queue : Queue) (tile_bucket : TileBucket) : M E unit :=
  call (IngestCredentials_new env) ;;
  m <- get_self ;;
  job <- attr (self_job m) ;;
  policy <- call (BossUtil_generate_ingest_policy env (id job) upload_queue tile_bucket) ;;
  call (generate_credentials env (id job) (arn policy)).

Definition remove_ingest_credentials (job_id : Z) : M E bool :=
  call (IngestCredentials_new env) ;;
  call (remove_credentials env job_id) ;;
  status <- call (BossUtil_delete_ingest_policy env job_id) ;;
  ret status.

Definition setup_ingest (creator : string) (config_data : ConfigData) : M E (option IngestJob) :=
  set_owner (Some creator) ;;
  try_except
    (valid_schema <- validate_config_file config_data ;;
     valid_prop <- validate_properties ;;
     if valid_schema && valid_prop then
       job <- create_ingest_job ;;
       set_job (Some job) ;;
       call (BossIngestProj_load env) ;;
       m <- get_self ;;
       c <- attr (self_collection m) ;;
       e <- attr (self_experiment m) ;;
       cl <- attr (self_channel_layer m) ;;
       job <- attr (self_job m) ;;
       set_nd_proj (Some {| proj_collection := collection_name c;
                            proj_experiment := experiment_name e;
                            proj_channel_layer := channel_layer_name cl;
                            proj_resolution := self_resolution m;
                            proj_job_id := id job |}) ;;
       upload_queue <- create_upload_queue ;;
       update_job (set_upload_queue (Some (url upload_queue))) ;;
       ingest_queue <- create_ingest_queue ;;
       update_job (set_ingest_queue (Some (url ingest_queue))) ;;
       generate_upload_tasks None ;;
       m <- get_self ;;
       job <- attr (self_job m) ;;
       tile_bucket <- call (TileBucket_new env (collection job +:+ "&" +:+ experiment job)) ;;
       create_ingest_credentials upload_queue tile_bucket ;;
       update_job (set_status 1) ;;
       m <- get_self ;;
       job <- attr (self_job m) ;;
       IngestJob_save job
     else ret tt)
    [ (BossErrorCls, λ err,
        match err with
        | BossError message error_code => raise (BossError message error_code)
        | _ => raise err
        end);
      (Exception, λ e,
        raise (BossError ("Unable to create the upload and ingest queue." +:+ str_exn env e)
                         BOSS_SYSTEM_ERROR)) ] ;;
  m <- get_self ;;
  ret (self_job m).

Definition delete_ingest_job (ingest_job_id : Z) : M E Z :=
  try_except
    (ingest_job <- IngestJob_objects_get ingest_job_id ;;
     call (BossIngestProj_load env) ;;
     set_nd_proj (Some {| proj_collection := collection ingest_job;
                          proj_experiment := experiment ingest_job;
                          proj_channel_layer := channel_layer ingest_job;
                          proj_resolution := resolution ingest_job;
                          proj_job_id := id ingest_job |}) ;;
     delete_upload_queue ;;
     delete_ingest_queue ;;
     delete_tiles ingest_job ;;
     let ingest_job := set_status 3 ingest_job in
     IngestJob_save ingest_job ;;
     remove_ingest_credentials ingest_job_id ;;
     ret tt)
    [ (Exception, λ e,
        raise (BossError ("Unable to delete the upload queue." +:+ str_exn env e)
                         BOSS_SYSTEM_ERROR));
      (DoesNotExistCls IngestJobModel, λ _,
        raise (BossError ("Ingest job with id " +:+ pretty ingest_job_id
                            +:+ " does not exist") OBJECT_NOT_FOUND)) ] ;;
  ret ingest_job_id.

End IngestManager.

(** ** The partition as a list

    The loop nest of [generate_upload_tasks] read as a list: one [Chunk] per
    pass through the body of the x-loop, in iteration order, with the tasks
    of its tile loop.  [generate_upload_tasks_sends] below shows that the
    method sends exactly the messages of these tasks. *)

Section Partition.

Context {E : Type} (env : Env E).
Variables (config : option Configuration) (job : IngestJob) (project_info : list string).

Definition tile_count (z : Z) : Z :=
  if z_stop job - z >=? 16 then 16 else z_stop job - z.

Definition chunk_at (time_step z y x : Z) : Chunk :=
  let cx := int_truediv x (tile_size_x job) in
  let cy := int_truediv y (tile_size_y job) in
  let cz := int_truediv z 16 in
  let n := tile_count z in
  let key := encode_chunk_key env config n project_info (resolution job) cx cy cz time_step in
  {| chunk_t := time_step; chunk_z_pos := z; chunk_y_pos := y; chunk_x_pos := x;
     chunk_x := cx; chunk_y := cy; chunk_z := cz;
     num_of_tiles := n;
     chunk_key := key;
     chunk_tasks :=
       map (λ tile,
              {| task_job_id := id job;
                 task_chunk_key := key;
                 task_tile_key :=
                   encode_tile_key env config project_info (resolution job) cx cy tile time_step;
                 task_upload_queue_arn := upload_queue job;
                 task_ingest_queue_arn := ingest_queue job |})
           (py_range 0 n 1) |}.

Definition upload_chunks : list Chunk :=
  flat_map (λ time_step,
    flat_map (λ z,
      flat_map (λ y,
        map (λ x, chunk_at time_step z y x)
            (py_range (x_start job) (x_stop job) (tile_size_x job)))
        (py_range (y_start job) (y_stop job) (tile_size_y job)))
      (py_range (z_start job) (z_stop job) 16))
    (py_range (t_start job) (t_stop job) 1).

Definition upload_tasks : list TileTask := flat_map chunk_tasks upload_chunks.

Definition task_message (t : TileTask) : string :=
  create_upload_task_message env (task_job_id t) (task_chunk_key t) (task_tile_key t)
    (task_upload_queue_arn t) (task_ingest_queue_arn t).

End Partition.

(** ** The partition as the specification words it

    Half-open ranges in closed form, floor division, [min]. *)

Definition ceil_div (a b : Z) : Z := (a + b - 1) / b.

(** The values [start, start + step, ...] below [stop]:
    [ceil((stop - start) / step)] of them. *)
Definition spec_range (start stop step : Z) : list Z :=
  map (λ k, start + Z.of_nat k * step) (seq 0 (Z.to_nat (ceil_div (stop - start) step))).

Section SpecPartition.

Context {E : Type} (env : Env E).
Variables (config : option Configuration) (job : IngestJob) (project_info : list string).

Definition spec_tasks : list TileTask :=
  flat_map (λ time_step,
    flat_map (λ z,
      let chunk_z := z / 16 in
      flat_map (λ y,
        let chunk_y := y / tile_size_y job in
        flat_map (λ x,
          let chunk_x := x / tile_size_x job in
          let tiles_in_chunk := Z.min 16 (z_stop job - z) in
          let chunk_key :=
            encode_chunk_key env config tiles_in_chunk project_info (resolution job)
              chunk_x chunk_y chunk_z time_step in
          map (λ tile_index,
                 {| task_job_id := id job;
                    task_chunk_key := chunk_key;
                    task_tile_key :=
                      encode_tile_key env config project_info (resolution job)
                        chunk_x chunk_y tile_index time_step;
                    task_upload_queue_arn := upload_queue job;
                    task_ingest_queue_arn := ingest_queue job |})
              (spec_range 0 tiles_in_chunk 1))
          (spec_range (x_start job) (x_stop job) (tile_size_x job)))
        (spec_range (y_start job) (y_stop job) (tile_size_y job)))
      (spec_range (z_start job) (z_stop job) 16))
    (spec_range (t_start job) (t_stop job) 1).

End SpecPartition.

(** ** Statements about runs

    [wp c s Q]: the run of [c] from [s] ends in a result and a state that
    satisfy [Q].  Every method is a total function of the state, so [wp]
    speaks of the one run there is. *)

Definition wp {E A} (c : M E A) (s : State E) (Q : Result A → State E → Prop) : Prop :=
  Q (fst (c s)) (snd (c s)).


(** A result that is a value, or an exception that satisfies [P]. *)
Definition raised_within {A} (P : exn → Prop) (r : Result A) : Prop :=
  match r with
  | Ok _ => True
  | Raise x => P x
  end.

Section Conditions.

Context {E : Type} (env : Env E).

(** The manager and the job table are as before. *)
Definition same_self_jobs (s : State E) {A} (r : Result A) (s' : State E) : Prop :=
  self s' = self s ∧ ingest_jobs s' = ingest_jobs s.

(** A collaborator's operation that does not fail. *)
Definition never_raises {A} (op : Ext E A) : Prop := ∀ e, ∃ a e', op e = (Ok a, e').

(** The upload queue can be opened and takes every message. *)
Definition queue_accepts : Prop :=
  (∀ p, never_raises (UploadQueue_new env p)) ∧
  (∀ q msg, never_raises (UploadQueue_sendMessage env q msg)).

(** [bosskey] of [generate_upload_tasks]. *)
Definition boss_key (job : IngestJob) : string :=
  collection job +:+ CONNECTER +:+ experiment job +:+ CONNECTER +:+ channel_layer job.

(** The lookup key of the job's channel is found and splits into the three
    identifiers [project_info]. *)
Definition lookup_gives (job : IngestJob) (project_info : list string) : Prop :=
  ∃ key, (∀ e, ∃ e', LookUpKey_get_lookup_key env (boss_key job) e = (Ok key, e')) ∧
         split_on "&" key = project_info ∧ length project_info = 3%nat.

(** The job [generate_upload_tasks(job_id)] works on: the row of a truthy
    [job_id], [self.job] otherwise. *)
Definition resolves (s : State E) (job_id : option Z) (job : IngestJob) : Prop :=
  match job_id with
  | None => self_job (self s) = Some job
  | Some n => if n =? 0 then self_job (self s) = Some job
              else ingest_jobs s !! n = Some job
  end.

(** [c], run with manager [m0], returns, leaves manager and job table alone
    and puts exactly the messages [l] on the upload queue. *)
Definition sends (m0 : Manager) (c : M E unit) (l : list string) : Prop :=
  ∀ s, self s = m0 →
    wp c s (λ r s', r = Ok tt ∧ self s' = m0 ∧ ingest_jobs s' = ingest_jobs s ∧
                    published s' = (published s ++ l)%list).

(** An operation all of whose exceptions satisfy [P]. *)
Definition raises_only {A} (P : exn → Prop) (op : Ext E A) : Prop :=
  ∀ e x e', op e = (Raise x, e') → P x.


(** Every exception of the collaborators of [delete_tiles], the tile index
    and the tile bucket, satisfies [P]. *)
Record tile_store_raises (P : exn → Prop) : Prop := {
  ts_index_new : ∀ n, raises_only P (BossTileIndexDB_new env n);
  ts_bucket_new : ∀ n, raises_only P (TileBucket_new env n);
  ts_task_items : ∀ db i, raises_only P (BossTileIndexDB_getTaskItems env db i);
  ts_delete_object : ∀ b k, raises_only P (TileBucket_deleteObject env b k);
  ts_delete_cuboid : ∀ db k, raises_only P (BossTileIndexDB_deleteCuboid env db k)
}.

(** Every exception of the other collaborators of [delete_ingest_job]
    (project handle, queues, the database write of [save], credentials)
    satisfies [P]. *)
Record cleanup_raises (P : exn → Prop) : Prop := {
  cl_load : raises_only P (BossIngestProj_load env);
  cl_upload_delete : ∀ p, raises_only P (UploadQueue_deleteQueue env p);
  cl_ingest_delete : ∀ p, raises_only P (IngestQueue_deleteQueue env p);
  cl_update : ∀ j, raises_only P (IngestJob_update env j);
  cl_creds_new : raises_only P (IngestCredentials_new env);
  cl_remove : ∀ i, raises_only P (remove_credentials env i);
  cl_policy : ∀ i, raises_only P (BossUtil_delete_ingest_policy env i)
}.

(** Coordinates that a double holds exactly: between 0 and 2^53. *)
Definition coordinates_exact (job : IngestJob) : Prop :=
  0 ≤ x_start job ∧ x_stop job ≤ 2 ^ 53 ∧
  0 ≤ y_start job ∧ y_stop job ≤ 2 ^ 53 ∧
  0 ≤ z_start job ∧ z_stop job ≤ 2 ^ 53.

(** What [generate_upload_tasks(job_id)], run from [s], puts on the upload
    queue is an initial part of [l], in order: all of [l] when the call
    returns, and when it raises at least one message of [l] is missing. *)
Definition publishes (job_id : option Z) (s : State E) (l : list string) : Prop :=
  ∀ r s', generate_upload_tasks env job_id s = (r, s') →
    ∃ m, published s' = (published s ++ m)%list ∧
         match r with
         | Ok _ => m = l
         | Raise _ => ∃ msg rest, l = (m ++ msg :: rest)%list
         end.

(** [generate_upload_tasks(job_id)], run from [s], returns. *)
Definition completes (job_id : option Z) (s : State E) : Prop :=
  ∃ s', generate_upload_tasks env job_id s = (Ok tt, s').

(** The [chunk_z] values of the chunks, as a set. *)
Definition chunk_z_values (config : option Configuration) (job : IngestJob)
    (project_info : list string) : gset Z :=
  list_to_set (map chunk_z (upload_chunks env config job project_info)).

End Conditions.

(** Scenario A: extent x[0,64) y[0,64) z[0,32) t[0,1), tile size 64, 64, 16, 1. *)
Definition scenario_A (job : IngestJob) : Prop :=
  x_start job = 0 ∧ x_stop job = 64 ∧ y_start job = 0 ∧ y_stop job = 64 ∧
  z_start job = 0 ∧ z_stop job = 32 ∧ t_start job = 0 ∧ t_stop job = 1 ∧
  tile_size_x job = 64 ∧ tile_size_y job = 64 ∧
  tile_size_z job = 16 ∧ tile_size_t job = 1.

(** ** A simulated deployment

    Collaborators that answer at once, with one fault switched on at a time;
    their state is the number of rows the database has handed out. *)

Inductive Fault :=
| NoFault
| QueueCreationFails
| LookupKeyRaisesBossError
| CredentialRemovalFails.

Definition ok {A} (a : A) : Ext Z A := λ e, (Ok a, e).
Definition fails {A} (x : exn) : Ext Z A := λ e, (Raise x, e).

Definition show_JValue (v : JValue) : string :=
  match v with
  | JInt n => pretty n
  | JStr s => s
  | JNull => "null"
  end.

Definition sim_env (f : Fault) : Env Z :=
  {| Configuration_new := λ cd, ok {| config_data_of := cd; schema := "boss-v0.1-schema" |};
     Configuration_get_validator := λ _,
       ok {| validator_name := "BossValidatorV01"; validator_schema := "" |};
     Validator_validate_schema := λ _, ok tt;
     Collection_objects_get := λ name, ok {| collection_name := name |};
     Experiment_objects_get := λ name c,
       ok {| experiment_name := name;
             experiment_collection := default {| collection_name := "" |} c |};
     ChannelLayer_objects_get := λ name e,
       ok {| channel_layer_name := name;
             channel_layer_experiment :=
               default {| experiment_name := "";
                          experiment_collection := {| collection_name := "" |} |} e;
             base_resolution := 0 |};
     serializer_is_valid := λ _, ok true;
     serializer_errors := λ _, "";
     IngestJob_insert := λ _ e, (Ok (e + 1), e + 1);
     status_default := 0;
     IngestJob_update := λ _, ok tt;
     BossIngestProj_load := ok tt;
     UploadQueue_createQueue := λ _,
       match f with
       | QueueCreationFails => fails (PyError "ClientError" "queue limit exceeded")
       | _ => ok tt
       end;
     UploadQueue_new := λ _, ok {| url := "https://queue/upload" |};
     UploadQueue_deleteQueue := λ _, ok tt;
     UploadQueue_sendMessage := λ _ _, ok tt;
     IngestQueue_createQueue := λ _, ok tt;
     IngestQueue_new := λ _, ok {| url := "https://queue/ingest" |};
     IngestQueue_deleteQueue := λ _, ok tt;
     TileBucket_getBucketName := ok "tiles";
     TileBucket_new := λ name, ok {| bucket_name := name |};
     TileBucket_deleteObject := λ _ _, ok tt;
     BossTileIndexDB_new := λ name, ok {| index_name := name |};
     BossTileIndexDB_getTaskItems := λ _ _,
       ok [ {| item_chunk_key := "chunk0"; tile_uploaded_map := ["tile0"; "tile1"] |} ];
     BossTileIndexDB_deleteCuboid := λ _ _, ok tt;
     LookUpKey_get_lookup_key := λ _,
       match f with
       | LookupKeyRaisesBossError =>
           fails (BossError "lookup key not found" RESOURCE_NOT_FOUND)
       | _ => ok "1&2&3"
       end;
     IngestCredentials_new := ok tt;
     generate_credentials := λ _ _, ok tt;
     remove_credentials := λ _,
       match f with
       | CredentialRemovalFails => fails (PyError "VaultError" "connection refused")
       | _ => ok tt
       end;
     BossUtil_generate_ingest_policy := λ _ _ _, ok {| arn := "arn:policy" |};
     BossUtil_delete_ingest_policy := λ _, ok true;
     encode_chunk_key := λ _ n project_info res x y z t,
       String.concat "&" (project_info ++ map pretty [n; res; x; y; z; t]);
     encode_tile_key := λ _ project_info res x y z t,
       String.concat "&" (project_info ++ map pretty [res; x; y; z; t]);
     json_dumps := λ d,
       String.concat ";"
         (map (λ kv, fst kv +:+ "=" +:+ show_JValue (snd kv)) (map_to_list d));
     json_dumps_config := λ cd, cfg_collection cd;
     str_exn := λ x,
       match x with
       | BossError m _ => m
       | DoesNotExist _ => "matching query does not exist"
       | JsonschemaValidationError m => m
       | PyError _ m => m
       end;
     str_collection := λ c, from_option collection_name "None" c;
     str_experiment := λ e, from_option experiment_name "None" e;
     str_channel_layer := λ c, from_option channel_layer_name "None" c |}.

Definition config_A : ConfigData :=
  {| cfg_collection := "col1"; cfg_experiment := "exp1"; cfg_channel_layer := "ch1";
     cfg_extent_x := (0, 64); cfg_extent_y := (0, 64);
     cfg_extent_z := (0, 32); cfg_extent_t := (0, 1);
     cfg_tile_size_x := 64; cfg_tile_size_y := 64;
     cfg_tile_size_z := 16; cfg_tile_size_t := 1 |}.

(** A job over x[0,64) y[0,64) with 64 x 64 tiles and the given z and t
    extents, already active. *)
Definition make_job (zs ts : Z * Z) : IngestJob :=
  {| id := 1; creator := Some "alice"; collection := "col1"; experiment := "exp1";
     channel_layer := "ch1"; config_data := "col1"; resolution := 0;
     x_start := 0; x_stop := 64; y_start := 0; y_stop := 64;
     z_start := fst zs; z_stop := snd zs; t_start := fst ts; t_stop := snd ts;
     tile_size_x := 64; tile_size_y := 64; tile_size_z := 16; tile_size_t := 1;
     status := 1;
     upload_queue := Some "https://queue/upload";
     ingest_queue := Some "https://queue/ingest" |}.

Definition job_A : IngestJob := make_job (0, 32) (0, 1).
Definition job_B : IngestJob := make_job (0, 20) (0, 1).
Definition job_no_time : IngestJob := make_job (0, 16) (0, 0).

Definition state_empty : State Z :=
  {| self := IngestManager_init; ingest_jobs := ∅; upload_messages := []; ext := 0 |}.

(** A fresh manager holding [job], whose row is in the table. *)
Definition state_with (job : IngestJob) : State Z :=
  {| self :=
       {| self_job := Some job; self_owner := None; self_config := None;
          self_validator := None; self_collection := None; self_experiment := None;
          self_channel_layer := None; self_resolution := 0; self_nd_proj := None |};
     ingest_jobs := {[ id job := job ]};
     upload_messages := [];
     ext := 1 |}.

(** The runs the examples below look at. *)
Abbreviation setup_run f :=
  (setup_ingest (sim_env f) "alice" config_A state_empty) (only parsing).
Abbreviation delete_run f ingest_job_id :=
  (delete_ingest_job (sim_env f) ingest_job_id (state_with job_A)) (only parsing).



(** ** Further conditions *)

(** Every row of the job table is stored under its own [id]. *)
Definition jobs_keyed (t : gmap Z IngestJob) : Prop :=
  ∀ k job, t !! k = Some job → id job = k.

(** [c], run with manager [m0], leaves manager and job table alone and puts
    messages of [l] on the upload queue, in order: all of [l] when it
    returns, and when it raises the messages before the one whose sending
    failed. *)
Definition sends_upto {E} (m0 : Manager) (c : M E unit) (l : list string) : Prop :=
  ∀ s, self s = m0 →
    wp c s (λ r s', self s' = m0 ∧ ingest_jobs s' = ingest_jobs s ∧
                    ∃ m, published s' = (published s ++ m)%list ∧
                         match r with
                         | Ok _ => m = l
                         | Raise _ => ∃ msg rest, l = (m ++ msg :: rest)%list
                         end).

(** The text the [except] clauses of [validate_config_file] put before the
    cause. *)
Definition schema_failure_prefix (x : exn) : string :=
  if isinstance x ValidationErrorCls then "Schema validation failed! "
  else " Could not validate the schema file.".

(** Keys that tell chunks and tiles apart: a chunk key determines the chunk
    indices and the time step, a tile key the tile index. *)
Definition chunk_keys_distinct {E} (env : Env E) : Prop :=
  ∀ config project_info res n x y z t n' x' y' z' t',
    encode_chunk_key env config n project_info res x y z t =
    encode_chunk_key env config n' project_info res x' y' z' t' →
    x = x' ∧ y = y' ∧ z = z' ∧ t = t'.

Definition tile_keys_distinct {E} (env : Env E) : Prop :=
  ∀ config project_info res x y t tile tile',
    encode_tile_key env config project_info res x y tile t =
    encode_tile_key env config project_info res x y tile' t →
    tile = tile'.

(** The lookup key the channel-layer view stores
    ([str(collection.pk) + '&' + str(experiment.pk) + '&' + str(channel_layer.pk)]). *)
Definition channel_lookup_key (col_id exp_id ch_id : string) : string :=
  col_id +:+ "&" +:+ exp_id +:+ "&" +:+ ch_id.

(** No ['&'] in the string. *)
Fixpoint no_amp (s : string) : bool :=
  match s with
  | EmptyString => true
  | String a s' => negb (Ascii.eqb a "&") && no_amp s'
  end.

(** ** A second simulated deployment

    Switches for a missing collection, a serializer that rejects the data,
    the lookup key that is stored, the number of messages the upload
    queue takes before it fails, and a tile index that cannot be read; the
    keys are the printed codes of their arguments.  The collaborators' state counts the messages sent. *)
Record Sim := {
  sim_collection_missing : bool;
  sim_serializer_rejects : bool;
  sim_lookup_key : string;
  sim_queue_capacity : Z;
  sim_index_unavailable : bool
}.

Definition sim2 (c : Sim) : Env Z :=
  {| Configuration_new := λ cd, ok {| config_data_of := cd; schema := "boss-v0.1-schema" |};
     Configuration_get_validator := λ _,
       ok {| validator_name := "BossValidatorV01"; validator_schema := "" |};
     Validator_validate_schema := λ _, ok tt;
     Collection_objects_get := λ name,
       if sim_collection_missing c then fails (DoesNotExist CollectionModel)
       else ok {| collection_name := name |};
     Experiment_objects_get := λ name col,
       ok {| experiment_name := name;
             experiment_collection := default {| collection_name := "" |} col |};
     ChannelLayer_objects_get := λ name e,
       ok {| channel_layer_name := name;
             channel_layer_experiment :=
               default {| experiment_name := "";
                          experiment_collection := {| collection_name := "" |} |} e;
             base_resolution := 0 |};
     serializer_is_valid := λ _, ok (negb (sim_serializer_rejects c));
     serializer_errors := λ _, "x_start: A valid integer is required.";
     IngestJob_insert := λ _, ok 1;
     status_default := 0;
     IngestJob_update := λ _, ok tt;
     BossIngestProj_load := ok tt;
     UploadQueue_createQueue := λ _, ok tt;
     UploadQueue_new := λ _, ok {| url := "https://queue/upload" |};
     UploadQueue_deleteQueue := λ _, ok tt;
     UploadQueue_sendMessage := λ _ _ e,
       if e <? sim_queue_capacity c then (Ok tt, e + 1)
       else (Raise (PyError "ClientError" "queue unavailable"), e);
     IngestQueue_createQueue := λ _, ok tt;
     IngestQueue_new := λ _, ok {| url := "https://queue/ingest" |};
     IngestQueue_deleteQueue := λ _, ok tt;
     TileBucket_getBucketName := ok "tiles";
     TileBucket_new := λ name, ok {| bucket_name := name |};
     TileBucket_deleteObject := λ _ _, ok tt;
     BossTileIndexDB_new := λ name, ok {| index_name := name |};
     BossTileIndexDB_getTaskItems := λ _ _,
       if sim_index_unavailable c then fails (PyError "ClientError" "index unavailable")
       else ok [ {| item_chunk_key := "chunk0"; tile_uploaded_map := ["tile0"; "tile1"] |} ];
     BossTileIndexDB_deleteCuboid := λ _ _, ok tt;
     LookUpKey_get_lookup_key := λ _, ok (sim_lookup_key c);
     IngestCredentials_new := ok tt;
     generate_credentials := λ _ _, ok tt;
     remove_credentials := λ _, ok tt;
     BossUtil_generate_ingest_policy := λ _ _ _, ok {| arn := "arn:policy" |};
     BossUtil_delete_ingest_policy := λ _, ok true;
     encode_chunk_key := λ _ n project_info res x y z t,
       pretty (encode (project_info, res, (x, y, z, t)));
     encode_tile_key := λ _ project_info res x y z t,
       pretty (encode (project_info, res, (x, y, z, t)));
     json_dumps := λ d,
       String.concat ";"
         (map (λ kv, fst kv +:+ "=" +:+ show_JValue (snd kv)) (map_to_list d));
     json_dumps_config := λ cd, cfg_collection cd;
     str_exn := λ x,
       match x with
       | BossError m _ => m
       | DoesNotExist _ => "matching query does not exist"
       | JsonschemaValidationError m => m
       | PyError _ m => m
       end;
     str_collection := λ col, from_option collection_name "None" col;
     str_experiment := λ e, from_option experiment_name "None" e;
     str_channel_layer := λ cl, from_option channel_layer_name "None" cl |}.

Definition sim_nominal : Sim :=
  {| sim_collection_missing := false; sim_serializer_rejects := false;
     sim_lookup_key := "1&2&3"; sim_queue_capacity := 1000;
     sim_index_unavailable := false |}.

Definition sim_no_collection : Sim :=
  {| sim_collection_missing := true; sim_serializer_rejects := false;
     sim_lookup_key := "1&2&3"; sim_queue_capacity := 1000;
     sim_index_unavailable := false |}.


Definition sim_short_key : Sim :=
  {| sim_collection_missing := false; sim_serializer_rejects := false;
     sim_lookup_key := "1&2"; sim_queue_capacity := 1000;
     sim_index_unavailable := false |}.

Definition sim_no_index : Sim :=
  {| sim_collection_missing := false; sim_serializer_rejects := false;
     sim_lookup_key := "1&2&3"; sim_queue_capacity := 1000;
     sim_index_unavailable := true |}.

Definition sim_queue_of (n : Z) : Sim :=
  {| sim_collection_missing := false; sim_serializer_rejects := false;
     sim_lookup_key := "1&2&3"; sim_queue_capacity := n;
     sim_index_unavailable := false |}.

(** A manager that has read [config_A] and resolved nothing yet. *)
Definition state_configured : State Z :=
  {| self :=
       {| self_job := None; self_owner := Some "alice";
          self_config := Some {| config_data_of := config_A; schema := "boss-v0.1-schema" |};
          self_validator := None; self_collection := None; self_experiment := None;
          self_channel_layer := None; self_resolution := 0; self_nd_proj := None |};
     ingest_jobs := ∅; upload_messages := []; ext := 0 |}.

(** A manager that has validated [config_A] and not yet created its job. *)
Definition state_validated : State Z :=
  {| self :=
       {| self_job := None; self_owner := Some "alice";
          self_config := Some {| config_data_of := config_A; schema := "boss-v0.1-schema" |};
          self_validator := None;
          self_collection := Some {| collection_name := "col1" |};
          self_experiment :=
            Some {| experiment_name := "exp1";
                    experiment_collection := {| collection_name := "col1" |} |};
          self_channel_layer :=
            Some {| channel_layer_name := "ch1";
                    channel_layer_experiment :=
                      {| experiment_name := "exp1";
                         experiment_collection := {| collection_name := "col1" |} |};
                    base_resolution := 0 |};
          self_resolution := 0; self_nd_proj := None |};
     ingest_jobs := ∅; upload_messages := []; ext := 0 |}.

(** Jobs over other extents and tile sizes. *)
Definition job_with (xs ys zs ts : Z * Z) (tx ty : Z) : IngestJob :=
  {| id := 1; creator := Some "alice"; collection := "col1"; experiment := "exp1";
     channel_layer := "ch1"; config_data := "col1"; resolution := 0;
     x_start := fst xs; x_stop := snd xs; y_start := fst ys; y_stop := snd ys;
     z_start := fst zs; z_stop := snd zs; t_start := fst ts; t_stop := snd ts;
     tile_size_x := tx; tile_size_y := ty; tile_size_z := 16; tile_size_t := 1;
     status := 1;
     upload_queue := Some "https://queue/upload";
     ingest_queue := Some "https://queue/ingest" |}.

(** A job of one tile at x = 2^53 + 1, and one of two chunks from
    z = 2^57: coordinates that a double does not hold exactly. *)
Definition job_far_x : IngestJob :=
  job_with (2 ^ 53 + 1, 2 ^ 53 + 2) (0, 1) (0, 1) (0, 1) 1 1.
Definition job_far_z : IngestJob :=
  job_with (0, 1) (0, 1) (2 ^ 57, 2 ^ 57 + 32) (0, 1) 1 1.

(** The part of [generate_upload_tasks] that follows the choice of the job:
    the lookup of the project identifiers and the loop nest
    ([generate_upload_tasks_resolved] shows it is that part). *)
Definition publish_tasks {E} (env : Env E) (ingest_job : IngestJob) : M E unit :=
  let bosskey := collection ingest_job +:+ CONNECTER +:+ experiment ingest_job
                   +:+ CONNECTER +:+ channel_layer ingest_job in
  lookup_key <- call (LookUpKey_get_lookup_key env bosskey) ;;
  project_info <- unpack3 (split_on "&" lookup_key) ;;
  for_range (t_start ingest_job) (t_stop ingest_job) 1 (λ time_step,
    for_range (z_start ingest_job) (z_stop ingest_job) 16 (λ z,
      for_range (y_start ingest_job) (y_stop ingest_job) (tile_size_y ingest_job) (λ y,
        for_range (x_start ingest_job) (x_stop ingest_job) (tile_size_x ingest_job) (λ x,
          chunk_x <- int_of_truediv x (tile_size_x ingest_job) ;;
          chunk_y <- int_of_truediv y (tile_size_y ingest_job) ;;
          chunk_z <- int_of_truediv z 16 ;;
          let num_of_tiles :=
            if z_stop ingest_job - z >=? 16 then 16 else z_stop ingest_job - z in
          m <- get_self ;;
          let chunk_key :=
            encode_chunk_key env (self_config m) num_of_tiles project_info
              (resolution ingest_job) chunk_x chunk_y chunk_z time_step in
          for_range 0 num_of_tiles 1 (λ tile,
            m <- get_self ;;
            let tile_key :=
              encode_tile_key env (self_config m) project_info (resolution ingest_job)
                chunk_x chunk_y tile time_step in
            let msg :=
              create_upload_task_message env (id ingest_job) chunk_key tile_key
                (upload_queue ingest_job) (ingest_queue ingest_job) in
            send_upload_task_message env msg))))).


(** ** The float quotient

    Below 2^53 the double nearest to a quotient of integers has the integer
    part of the exact quotient, so [int(a / b)] is the floor division
    there; from 2^53 up it is not ([int_truediv (2^53 + 1) 1 = 2^53]). *)

Lemma round_half_even_bound (n d : Z) :
  0 < d →
  2 * (n - round_half_even n d * d) ≤ d ∧ 2 * (round_half_even n d * d - n) ≤ d.
Proof.
  intros Hd. unfold round_half_even.
  pose proof (Z.div_mod n d ltac:(lia)) as Hdm.
  pose proof (Z.mod_pos_bound n d Hd) as Hm.
  destruct (Z.compare_spec (2 * (n mod d)) d); [destruct (Z.even (n / d))|..]; nia.
Qed.

Lemma quotient_exponent_le (a b : Z) :
  0 < a → 0 < b → quotient_exponent a b ≤ Z.log2 a.
Proof.
  intros Ha Hb. unfold quotient_exponent.
  pose proof (Z.log2_nonneg b). destruct (_ <? _); lia.
Qed.

(** The significand is at least [2^52]. *)
Lemma quotient_exponent_normal (a b : Z) :
  0 < a → 0 < b → 0 ≤ 52 - quotient_exponent a b →
  2 ^ 52 * b ≤ a * 2 ^ (52 - quotient_exponent a b).
Proof.
  intros Ha Hb. unfold quotient_exponent.
  pose proof (Z.log2_spec a Ha) as [Ha1 Ha2].
  pose proof (Z.log2_spec b Hb) as [Hb1 Hb2].
  pose proof (Z.log2_nonneg a) as Hla. pose proof (Z.log2_nonneg b) as Hlb.
  set (la := Z.log2 a) in *. set (lb := Z.log2 b) in *.
  set (K := 2 ^ 52).
  destruct (Z.ltb_spec (a * 2 ^ Z.max 0 (- (la - lb))) (b * 2 ^ Z.max 0 (la - lb)))
    as [Hlt|Hge]; intros Hs.
  - (* the exponent is one below the difference of the bit lengths *)
    destruct (Z_le_gt_dec la (lb + 1)) as [Hd|Hd].
    + replace (52 - (la - lb - 1)) with (52 + (lb + 1 - la)) by lia.
      rewrite Z.pow_add_r by lia. fold K.
      assert (2 ^ la * 2 ^ (lb + 1 - la) = 2 ^ (lb + 1)) as Hp
        by (rewrite <- Z.pow_add_r by lia; f_equal; lia).
      assert (0 < 2 ^ (lb + 1 - la)) as HX by (apply Z.pow_pos_nonneg; lia).
      assert (0 < K) by done.
      set (X := 2 ^ (lb + 1 - la)) in *.
      assert (b ≤ a * X) by nia.
      nia.
    + assert (2 ^ (52 - (la - lb - 1)) * 2 ^ (la - lb - 1) = K) as Hp
        by (unfold K; rewrite <- Z.pow_add_r by lia; f_equal; lia).
      assert (2 ^ (lb + 1) * 2 ^ (la - lb - 1) = 2 ^ la) as Hq
        by (rewrite <- Z.pow_add_r by lia; f_equal; lia).
      assert (0 < 2 ^ (la - lb - 1)) by (apply Z.pow_pos_nonneg; lia).
      assert (0 < 2 ^ (52 - (la - lb - 1))) by (apply Z.pow_pos_nonneg; lia).
      set (X := 2 ^ (52 - (la - lb - 1))) in *. set (Y := 2 ^ (la - lb - 1)) in *.
      assert (b * Y ≤ a) by nia.
      rewrite <- Hp. nia.
  - (* the exponent is the difference of the bit lengths *)
    destruct (Z_le_gt_dec 0 (la - lb)) as [Hd|Hd].
    + rewrite (Z.max_r 0 (la - lb)), (Z.max_l 0 (- (la - lb))) in Hge by lia.
      rewrite Z.pow_0_r in Hge.
      assert (2 ^ (52 - (la - lb)) * 2 ^ (la - lb) = K) as Hp
        by (unfold K; rewrite <- Z.pow_add_r by lia; f_equal; lia).
      assert (0 < 2 ^ (52 - (la - lb))) by (apply Z.pow_pos_nonneg; lia).
      set (X := 2 ^ (52 - (la - lb))) in *. set (Y := 2 ^ (la - lb)) in *.
      rewrite <- Hp. nia.
    + rewrite (Z.max_l 0 (la - lb)), (Z.max_r 0 (- (la - lb))) in Hge by lia.
      rewrite Z.pow_0_r in Hge.
      replace (52 - (la - lb)) with (52 + - (la - lb)) by lia.
      rewrite Z.pow_add_r by lia. fold K.
      assert (0 < K) by done.
      set (X := 2 ^ (- (la - lb))) in *. nia.
Qed.

Lemma double_quotient_trunc_small (a b : Z) :
  0 < a < 2 ^ 53 → 0 < b → double_quotient_trunc a b = a / b.
Proof.
  intros [Ha Ha53] Hb.
  assert (Z.log2 a < 53) as Hl by (apply Z.log2_lt_pow2; lia).
  pose proof (quotient_exponent_le a b Ha Hb) as He.
  pose proof (quotient_exponent_normal a b Ha Hb ltac:(lia)) as Hn.
  unfold double_quotient_trunc.
  set (shift := 52 - quotient_exponent a b) in *.
  destruct (Z.leb_spec 0 shift) as [_|]; [|lia].
  assert (0 < 2 ^ shift) as HP by (apply Z.pow_pos_nonneg; lia).
  set (P := 2 ^ shift) in *.
  pose proof (round_half_even_bound (a * P) b Hb) as Hr.
  set (m := round_half_even (a * P) b) in *.
  pose proof (Z.div_mod a b ltac:(lia)) as Hdm.
  pose proof (Z.mod_pos_bound a b Hb) as Hm.
  set (q := a / b) in *.
  symmetry. apply Z.div_unique with (r := m - q * P); [|lia].
  left. split.
  - (* q * P ≤ m *)
    assert (0 ≤ q) by (apply Z.div_pos; lia).
    nia.
  - (* m < (q + 1) * P *)
    destruct (Z_lt_ge_dec m ((q + 1) * P)) as [|Hge]; [lia|exfalso].
    assert ((a + 1) * P ≤ m * b) by nia.
    assert (2 * P ≤ b) by nia.
    change (2 ^ 52) with 4503599627370496 in Hn.
    change (2 ^ 53) with 9007199254740992 in Ha53.
    nia.
Qed.

Lemma int_truediv_small (a b : Z) :
  0 ≤ a < 2 ^ 53 → 0 < b → int_truediv a b = a / b.
Proof.
  intros [Ha Ha53] Hb. unfold int_truediv.
  destruct (Z.eq_dec a 0) as [->|Hne]; [by rewrite Z.div_0_l by lia|].
  rewrite (Z.sgn_pos a), (Z.sgn_pos b), (Z.abs_eq a), (Z.abs_eq b) by lia.
  rewrite double_quotient_trunc_small by lia. lia.
Qed.

Lemma int_of_truediv_small {E} (a b : Z) (s : State E) :
  0 ≤ a < 2 ^ 53 → 0 < b → int_of_truediv a b s = (Ok (a / b), s).
Proof.
  intros Ha Hb. unfold int_of_truediv.
  destruct (Z.eqb_spec b 0) as [->|_]; [lia|].
  rewrite int_truediv_small by done.
  assert (0 ≤ a / b ≤ a) as Hq.
  { split; [apply Z.div_pos; lia|]. apply Z.div_le_upper_bound; nia. }
  assert (2 ^ 53 < DBL_OVERFLOW) as Hbig
    by (unfold DBL_OVERFLOW; apply Z.pow_lt_mono_r; lia).
  destruct (Z.leb_spec DBL_OVERFLOW (Z.abs (a / b))) as [Hle|_]; [lia|done].
Qed.

(** ** Ranges *)

Lemma ceil_div_step (a s : Z) :
  0 < s → 0 < a → ceil_div a s = 1 + ceil_div (a - s) s.
Proof.
  intros Hs Ha. unfold ceil_div.
  replace (a + s - 1) with ((a - s + s - 1) + 1 * s) by lia.
  rewrite Z.div_add by lia. lia.
Qed.

Lemma ceil_div_nonpos (a s : Z) : 0 < s → a ≤ 0 → ceil_div a s ≤ 0.
Proof.
  intros Hs Ha. unfold ceil_div.
  destruct (Z.eq_dec (a + s - 1) 0) as [->|Hne]; [rewrite Z.div_0_l; lia|].
  destruct (Z_lt_le_dec (a + s - 1) 0) as [Hlt|Hge].
  - pose proof (Z.div_lt_upper_bound (a + s - 1) s 0 Hs). lia.
  - rewrite Z.div_small; lia.
Qed.

Lemma ceil_div_pos (a s : Z) : 0 < s → 0 < a → 0 < ceil_div a s.
Proof.
  intros Hs Ha. unfold ceil_div.
  apply Z.div_str_pos. lia.
Qed.

Lemma range_from_spec (fuel : nat) (cur stop step : Z) :
  0 < step → stop - cur ≤ Z.of_nat fuel →
  range_from fuel cur stop step = spec_range cur stop step.
Proof.
  intros Hs. revert cur. induction fuel as [|fuel IH]; intros cur Hf.
  - unfold spec_range. simpl.
    assert (ceil_div (stop - cur) step ≤ 0) by (apply ceil_div_nonpos; lia).
    replace (Z.to_nat _) with O by lia. reflexivity.
  - simpl. destruct (0 <? step) eqn:Hstep; [|apply Z.ltb_ge in Hstep; lia].
    destruct (cur <? stop) eqn:Hc.
    + apply Z.ltb_lt in Hc. rewrite IH by lia.
      unfold spec_range. rewrite (ceil_div_step (stop - cur) step) by lia.
      replace (stop - cur - step) with (stop - (cur + step)) by lia.
      assert (0 ≤ ceil_div (stop - (cur + step)) step).
      { destruct (Z_lt_le_dec 0 (stop - (cur + step))).
        - pose proof (ceil_div_pos (stop - (cur + step)) step). lia.
        - unfold ceil_div. apply Z.div_pos; lia. }
      replace (Z.to_nat (1 + _)) with (S (Z.to_nat (ceil_div (stop - (cur + step)) step))) by lia.
      simpl. f_equal; [lia|].
      rewrite <- seq_shift, map_map. apply map_ext. intros k. lia.
    + apply Z.ltb_ge in Hc. unfold spec_range.
      assert (ceil_div (stop - cur) step ≤ 0) by (apply ceil_div_nonpos; lia).
      replace (Z.to_nat _) with O by lia. reflexivity.
Qed.

(** For a positive step, the iterator's elements are the closed form. *)
Lemma py_range_spec (start stop step : Z) :
  0 < step → py_range start stop step = spec_range start stop step.
Proof.
  intros Hs. unfold py_range.
  destruct (step =? 0) eqn:H0; [apply Z.eqb_eq in H0; lia|].
  apply range_from_spec; lia.
Qed.

Lemma length_spec_range (start stop step : Z) :
  length (spec_range start stop step) = Z.to_nat (ceil_div (stop - start) step).
Proof. unfold spec_range. by rewrite length_map, length_seq. Qed.

Lemma in_spec_range (start stop step v : Z) :
  0 < step →
  In v (spec_range start stop step) ↔
  ∃ k : Z, 0 ≤ k ∧ v = start + k * step ∧ v < stop.
Proof.
  intros Hs. unfold spec_range. rewrite in_map_iff. split.
  - intros (k & <- & Hk). apply in_seq in Hk. exists (Z.of_nat k).
    split; [lia|]. split; [done|].
    assert (Z.of_nat k < ceil_div (stop - start) step) as Hlt by lia.
    unfold ceil_div in Hlt.
    assert (Z.of_nat k + 1 ≤ (stop - start + step - 1) / step) as Hle by lia.
    pose proof (Z.mul_div_le (stop - start + step - 1) step Hs).
    nia.
  - intros (k & Hk & -> & Hlt). exists (Z.to_nat k). split; [lia|].
    apply in_seq. split; [lia|]. simpl.
    assert (k < ceil_div (stop - start) step); [|lia].
    unfold ceil_div.
    assert (k + 1 ≤ (stop - start + step - 1) / step); [|lia].
    apply Z.div_le_lower_bound; [done|nia].
Qed.

Lemma in_spec_range_lower (start stop step v : Z) :
  0 < step → In v (spec_range start stop step) → start ≤ v < stop.
Proof.
  intros Hs Hin. apply in_spec_range in Hin as (k & Hk & -> & Hlt); [|done]. nia.
Qed.

Lemma spec_range_nonempty (start stop step : Z) :
  0 < step → start < stop → In start (spec_range start stop step).
Proof.
  intros Hs Hlt. apply in_spec_range; [done|]. exists 0. lia.
Qed.

(** ** Lists of lists *)

Lemma flat_map_ext_in {A B} (f g : A → list B) (l : list A) :
  (∀ a, In a l → f a = g a) → flat_map f l = flat_map g l.
Proof.
  induction l as [|a l IH]; intros Hfg; [done|].
  simpl. rewrite (Hfg a) by (by left). f_equal. apply IH.
  intros b Hb. apply Hfg. by right.
Qed.

Lemma flat_map_flat_map {A B C} (f : B → list C) (g : A → list B) (l : list A) :
  flat_map f (flat_map g l) = flat_map (λ a, flat_map f (g a)) l.
Proof.
  induction l as [|a l IH]; [done|].
  simpl. by rewrite flat_map_app, IH.
Qed.

Lemma flat_map_map {A B C} (f : B → list C) (g : A → B) (l : list A) :
  flat_map f (map g l) = flat_map (λ a, f (g a)) l.
Proof. induction l as [|a l IH]; [done|]. simpl. by rewrite IH. Qed.

Lemma map_flat_map {A B C} (f : B → C) (g : A → list B) (l : list A) :
  map f (flat_map g l) = flat_map (λ a, map f (g a)) l.
Proof. induction l as [|a l IH]; [done|]. simpl. by rewrite map_app, IH. Qed.

Lemma flat_map_singleton {A B} (f : A → B) (l : list A) :
  flat_map (λ a, [f a]) l = map f l.
Proof. induction l as [|a l IH]; [done|]. simpl. by rewrite IH. Qed.

(** ** The code's partition is the specification's *)

Lemma tile_count_min (job : IngestJob) (z : Z) :
  tile_count job z = Z.min 16 (z_stop job - z).
Proof.
  unfold tile_count. destruct (z_stop job - z >=? 16) eqn:H.
  - apply Z.geb_le in H. lia.
  - rewrite Z.geb_leb in H. apply Z.leb_gt in H. lia.
Qed.

Lemma upload_tasks_spec {E} (env : Env E) (config : option Configuration)
    (job : IngestJob) (project_info : list string) :
  0 ≤ x_start job → 0 ≤ y_start job → 0 ≤ z_start job →
  x_stop job ≤ 2 ^ 53 → y_stop job ≤ 2 ^ 53 → z_stop job ≤ 2 ^ 53 →
  0 < tile_size_x job → 0 < tile_size_y job →
  upload_tasks env config job project_info = spec_tasks env config job project_info.
Proof.
  intros Hx Hy Hz Hx53 Hy53 Hz53 Htx Hty.
  unfold upload_tasks, upload_chunks, spec_tasks.
  rewrite !py_range_spec by lia.
  rewrite flat_map_flat_map. apply flat_map_ext. intros time_step.
  rewrite flat_map_flat_map. apply flat_map_ext_in. intros z Hzin.
  apply in_spec_range_lower in Hzin; [|lia].
  rewrite flat_map_flat_map. apply flat_map_ext_in. intros y Hyin.
  apply in_spec_range_lower in Hyin; [|lia].
  rewrite flat_map_map. apply flat_map_ext_in. intros x Hxin.
  apply in_spec_range_lower in Hxin; [|lia].
  unfold chunk_at. cbn [chunk_tasks].
  rewrite !int_truediv_small by lia.
  rewrite tile_count_min, py_range_spec by lia.
  reflexivity.
Qed.

Lemma py_range_empty (start stop step : Z) :
  0 < step → stop ≤ start → py_range start stop step = [].
Proof.
  intros Hs Hle. rewrite py_range_spec by done. unfold spec_range.
  pose proof (ceil_div_nonpos (stop - start) step Hs ltac:(lia)).
  by replace (Z.to_nat _) with O by lia.
Qed.

Lemma py_range_first (start stop step : Z) :
  0 < step → start < stop → ∃ l, py_range start stop step = start :: l.
Proof.
  intros Hs Hlt. unfold py_range.
  destruct (step =? 0) eqn:H0; [apply Z.eqb_eq in H0; lia|].
  destruct (Z.to_nat (Z.abs (stop - start))) as [|fuel] eqn:Hf; [lia|].
  cbn [range_from]. apply Z.ltb_lt in Hs, Hlt. rewrite Hs, Hlt. by eexists.
Qed.

Lemma flat_map_nil {A B} (f : A → list B) (l : list A) :
  (∀ a, f a = []) → flat_map f l = [].
Proof. intros Hf. induction l as [|a l IH]; [done|]. cbn. by rewrite Hf, IH. Qed.

(** ** Rules for runs *)

Section Runs.

Context {E : Type}.

Lemma wp_run {A} (c : M E A) s Q r s' : wp c s Q → c s = (r, s') → Q r s'.
Proof. unfold wp. intros H Hrun. by rewrite Hrun in H. Qed.

Lemma wp_mono {A} (c : M E A) s (Q Q' : Result A → State E → Prop) :
  wp c s Q → (∀ r s', Q r s' → Q' r s') → wp c s Q'.
Proof. unfold wp. auto. Qed.


Lemma wp_ret {A} (a : A) s (Q : Result A → State E → Prop) :
  Q (Ok a) s → wp (ret a) s Q.
Proof. done. Qed.

Lemma wp_raise {A} (e : exn) s (Q : Result A → State E → Prop) :
  Q (Raise e) s → wp (raise e) s Q.
Proof. done. Qed.

Lemma wp_bind {A B} (c : M E A) (k : A → M E B) s (Q : Result B → State E → Prop) :
  wp c s (λ r s', match r with
                  | Ok a => wp (k a) s' Q
                  | Raise e => Q (Raise e) s'
                  end) →
  wp (bind c k) s Q.
Proof. unfold wp, bind. by destruct (c s) as [[a|e] s']. Qed.

Lemma wp_get_self s (Q : Result Manager → State E → Prop) :
  Q (Ok (self s)) s → wp get_self s Q.
Proof. done. Qed.

Lemma wp_put_self m s (Q : Result unit → State E → Prop) :
  Q (Ok tt) (with_self m s) → wp (put_self m) s Q.
Proof. done. Qed.

Lemma wp_call {A} (op : Ext E A) s (Q : Result A → State E → Prop) :
  (∀ r e', op (ext s) = (r, e') → Q r (with_ext e' s)) → wp (call op) s Q.
Proof. unfold wp, call. intros H. destruct (op (ext s)) as [r e'] eqn:Hop. by apply H. Qed.

Lemma wp_attr {A} (o : option A) s (Q : Result A → State E → Prop) :
  match o with
  | Some a => Q (Ok a) s
  | None => Q (Raise (PyError "AttributeError" "'NoneType' object has no attribute")) s
  end →
  wp (attr o) s Q.
Proof. by destruct o. Qed.

Lemma wp_try {A} (body : M E A) handlers s (Q : Result A → State E → Prop) :
  wp body s (λ r s', match r with
                     | Ok a => Q (Ok a) s'
                     | Raise e =>
                         match find (λ h, isinstance e (fst h)) handlers with
                         | Some h => wp (snd h e) s' Q
                         | None => Q (Raise e) s'
                         end
                     end) →
  wp (try_except body handlers) s Q.
Proof.
  unfold wp, try_except. destruct (body s) as [[a|e] s']; [done|].
  simpl. by destruct (find _ handlers).
Qed.

(** A loop keeps an invariant; an exception of the body leaves the loop. *)
Lemma wp_for {A} (I : State E → Prop) (l : list A) (body : A → M E unit) s
    (Q : Result unit → State E → Prop) :
  I s →
  (∀ x s, In x l → I s →
     wp (body x) s (λ r s', match r with
                            | Ok _ => I s'
                            | Raise e => Q (Raise e) s'
                            end)) →
  (∀ s, I s → Q (Ok tt) s) →
  wp (for_ l body) s Q.
Proof.
  revert s. induction l as [|x l IH]; intros s HI Hbody Hend.
  - by apply Hend.
  - simpl. apply wp_bind. eapply wp_mono; [apply (Hbody x s); [by left|done]|].
    intros [[]|e] s'; [|done]. intros HI'. apply IH; [done| |done].
    intros y s'' Hy. apply Hbody. by right.
Qed.

Lemma wp_for_range (I : State E → Prop) (start stop step : Z) (body : Z → M E unit) s
    (Q : Result unit → State E → Prop) :
  I s →
  (step = 0 → Q (Raise (PyError "ValueError" "range() arg 3 must not be zero")) s) →
  (∀ x s, In x (py_range start stop step) → I s →
     wp (body x) s (λ r s', match r with
                            | Ok _ => I s'
                            | Raise e => Q (Raise e) s'
                            end)) →
  (∀ s, I s → Q (Ok tt) s) →
  wp (for_range start stop step body) s Q.
Proof.
  intros HI H0 Hbody Hend. unfold for_range.
  destruct (step =? 0) eqn:Hs.
  - apply Z.eqb_eq in Hs. by apply wp_raise, H0.
  - by apply (wp_for I).
Qed.

(** [int(a / b)] gives the float quotient or raises an arithmetic error. *)
Lemma wp_int_of_truediv (a b : Z) s (Q : Result Z → State E → Prop) :
  (∀ cls msg, Q (Raise (PyError cls msg)) s) → Q (Ok (int_truediv a b)) s →
  wp (int_of_truediv a b) s Q.
Proof.
  intros Hr Hok. unfold wp, int_of_truediv.
  destruct (b =? 0); [apply Hr|]. destruct (_ <=? _); [apply Hr|apply Hok].
Qed.

End Runs.

Ltac wp_simpl :=
  cbv beta iota zeta;
  cbn [self ingest_jobs upload_messages ext
       with_self with_ingest_jobs with_upload_messages with_ext
       self_job self_owner self_config self_validator self_collection
       self_experiment self_channel_layer self_resolution self_nd_proj
       fst snd].

Ltac wp_step :=
  lazymatch goal with
  | |- wp (bind _ _) _ _ => apply wp_bind
  | |- wp (ret _) _ _ => apply wp_ret
  | |- wp (raise _) _ _ => apply wp_raise
  | |- wp get_self _ _ => apply wp_get_self
  | |- wp (put_self _) _ _ => apply wp_put_self
  | |- wp (attr _) _ _ => apply wp_attr
  | |- wp (try_except _ _) _ _ => apply wp_try
  | |- wp (call _) _ _ => apply wp_call; intros [?|?] ? _
  | |- wp (set_job _) _ _ => unfold set_job
  | |- wp (set_owner _) _ _ => unfold set_owner
  | |- wp (set_config _) _ _ => unfold set_config
  | |- wp (set_validator _) _ _ => unfold set_validator
  | |- wp (set_collection _) _ _ => unfold set_collection
  | |- wp (set_experiment _) _ _ => unfold set_experiment
  | |- wp (set_channel_layer _) _ _ => unfold set_channel_layer
  | |- wp (set_resolution _) _ _ => unfold set_resolution
  | |- wp (set_nd_proj _) _ _ => unfold set_nd_proj
  | |- wp (update_job _) _ _ => unfold update_job
  end; wp_simpl.

Ltac wp_steps := repeat wp_step.

(** A step over [v <- int(a / b)]: the goal for the arithmetic error, then
    the goal for the rest. *)
Ltac wp_div :=
  apply wp_bind, wp_int_of_truediv; [intros ? ?; wp_simpl|wp_simpl].

(** The same, splitting on the class of an exception a collaborator raises
    and on a possibly-[None] object, so that [except] clauses reduce. *)
Ltac wp_handlers := cbn [find fst snd isinstance Model_eqb]; wp_simpl.

Ltac wp_call_cases :=
  apply wp_call; intros [?|[? ?|[]|?|? ?]] ? _; wp_handlers.

Ltac wp_attr_cases :=
  apply wp_attr;
  lazymatch goal with
  | |- match ?o with _ => _ end => destruct o eqn:?
  end; wp_handlers.

Ltac wp_step_x :=
  lazymatch goal with
  | |- wp (call _) _ _ => wp_call_cases
  | |- wp (attr _) _ _ => wp_attr_cases
  | _ => wp_step
  end.

(** ** What the methods leave alone, and what they send *)

Section Frames.

Context {E : Type} (env : Env E).

Lemma wp_IngestJob_objects_get job_id (s : State E) (Q : Result IngestJob → State E → Prop) :
  match ingest_jobs s !! job_id with
  | Some j => Q (Ok j) s
  | None => Q (Raise (DoesNotExist IngestJobModel)) s
  end →
  wp (IngestJob_objects_get job_id) s Q.
Proof. unfold wp, IngestJob_objects_get. by destruct (ingest_jobs s !! job_id). Qed.

Lemma wp_call_ok {A} (op : Ext E A) s (Q : Result A → State E → Prop) :
  never_raises op → (∀ a e', Q (Ok a) (with_ext e' s)) → wp (call op) s Q.
Proof.
  intros Hop HQ. apply wp_call. intros r e' Hrun.
  destruct (Hop (ext s)) as (a & e'' & Heq). rewrite Heq in Hrun.
  injection Hrun as <- <-. apply HQ.
Qed.

Lemma send_upload_task_message_frame msg s :
  wp (send_upload_task_message env msg) s (same_self_jobs s).
Proof.
  unfold send_upload_task_message, UploadQueue_send, same_self_jobs.
  wp_steps; try done.
Qed.

Lemma generate_upload_tasks_frame job_id s :
  wp (generate_upload_tasks env job_id) s (same_self_jobs s).
Proof.
  unfold generate_upload_tasks, same_self_jobs.
  wp_step. wp_step. apply wp_bind.
  match goal with |- wp _ _ ?Q' => assert (∀ o, Q' (Ok o) s) as Hrest end.
  { intros o. wp_simpl. wp_step. wp_step. destruct o as [ingest_job|]; [|done].
    wp_step. wp_step; [|done]. wp_step.
    unfold unpack3. destruct (split_on _ _) as [|? [|? [|? [|]]]]; wp_step; try done.
    set (I := λ s' : State E, self s' = self s ∧ ingest_jobs s' = ingest_jobs s).
    apply (wp_for_range I); [done|done| |done]. intros time_step st1 _ H1.
    apply (wp_for_range I); [done|done| |done]. intros z st2 _ H2.
    apply (wp_for_range I); [done|done| |done]. intros y st3 _ H3.
    apply (wp_for_range I); [done|done| |done]. intros x st4 _ H4.
    wp_div; [done|]. wp_div; [done|]. wp_div; [done|].
    wp_step. wp_step.
    apply (wp_for_range I); [done|done| |done]. intros tile st5 _ H5.
    wp_step. wp_step.
    eapply wp_mono; [apply send_upload_task_message_frame|].
    intros r s' [Hs Hj]. destruct H5 as [H5 H6].
    destruct r as [[]|]; unfold I; simpl; split; congruence. }
  destruct (_ && _); [by wp_steps|].
  destruct (truthy job_id); [|wp_step; apply Hrest].
  wp_step. wp_step. apply wp_IngestJob_objects_get.
  destruct (ingest_jobs s !! default 0 job_id); wp_simpl.
  - wp_step. apply Hrest.
  - by wp_steps.
Qed.

Lemma sends_send m0 msg :
  queue_accepts env → sends m0 (send_upload_task_message env msg) [msg].
Proof.
  intros [Hnew Hsend] s Hs. unfold send_upload_task_message, UploadQueue_send.
  wp_step. wp_step. wp_step. apply wp_call_ok; [apply Hnew|]. intros q e1. wp_simpl.
  wp_step. apply wp_call_ok; [apply Hsend|]. intros [] e2. wp_simpl.
  unfold wp, published. simpl. by rewrite map_app.
Qed.

Lemma sends_for {A} m0 (l : list A) (body : A → M E unit) (f : A → list string) :
  (∀ x, In x l → sends m0 (body x) (f x)) → sends m0 (for_ l body) (flat_map f l).
Proof.
  induction l as [|x l IH]; intros Hbody s Hs.
  - simpl. apply wp_ret. by rewrite app_nil_r.
  - simpl. apply wp_bind. eapply wp_mono; [apply (Hbody x); [by left|done]|].
    intros r s1 (-> & Hs1 & Hj1 & Hp1).
    eapply wp_mono; [apply IH; [|done]|].
    + intros y Hy. apply Hbody. by right.
    + intros r s2 (-> & Hs2 & Hj2 & Hp2). repeat split; [done|congruence|].
      by rewrite Hp2, Hp1, app_assoc.
Qed.

Lemma sends_for_range m0 start stop step (body : Z → M E unit) (f : Z → list string) :
  step ≠ 0 →
  (∀ x, In x (py_range start stop step) → sends m0 (body x) (f x)) →
  sends m0 (for_range start stop step body) (flat_map f (py_range start stop step)).
Proof.
  intros Hstep Hbody. unfold for_range.
  destruct (step =? 0) eqn:H0; [apply Z.eqb_eq in H0; done|].
  by apply sends_for.
Qed.

Lemma sends_get_self m0 (k : Manager → M E unit) l :
  sends m0 (k m0) l → sends m0 (bind get_self k) l.
Proof. intros Hk s Hs. wp_step. wp_step. rewrite Hs. by apply Hk. Qed.

Lemma sends_int_of_truediv m0 (a b : Z) (k : Z → M E unit) l :
  0 ≤ a < 2 ^ 53 → 0 < b →
  sends m0 (k (int_truediv a b)) l → sends m0 (bind (int_of_truediv a b) k) l.
Proof.
  intros Ha Hb Hk s Hs. unfold wp, bind. rewrite int_of_truediv_small by done.
  rewrite <- int_truediv_small by done. by apply Hk.
Qed.

(** The method sends the messages of [upload_tasks], in order, and nothing
    else, when the queue takes them and the coordinates are below 2^53. *)
Lemma generate_upload_tasks_sends job_id job project_info s :
  queue_accepts env → resolves s job_id job → lookup_gives env job project_info →
  0 ≤ x_start job → 0 ≤ y_start job → 0 ≤ z_start job →
  x_stop job ≤ 2 ^ 53 → y_stop job ≤ 2 ^ 53 → z_stop job ≤ 2 ^ 53 →
  0 < tile_size_x job → 0 < tile_size_y job →
  wp (generate_upload_tasks env job_id) s
     (λ r s', r = Ok tt ∧ self s' = self s ∧ ingest_jobs s' = ingest_jobs s ∧
              published s' =
                (published s ++
                 map (task_message env)
                   (upload_tasks env (self_config (self s)) job project_info))%list).
Proof.
  intros Hq Hres (key & Hkey & Hsplit & Hlen) Hx Hy Hz Hx53 Hy53 Hz53 Htx Hty.
  unfold generate_upload_tasks.
  wp_step. wp_step. apply wp_bind.
  match goal with |- wp _ _ ?Q' => assert (Q' (Ok (Some job)) s) as Hrest end.
  { wp_simpl. wp_step. wp_step. wp_step. apply wp_call. intros r e' Hrun.
    destruct (Hkey (ext s)) as (e1 & Heq). unfold boss_key in Heq. rewrite Heq in Hrun.
    injection Hrun as <- <-. wp_simpl. wp_step. rewrite Hsplit.
    destruct project_info as [|c1 [|c2 [|c3 [|]]]]; try done. unfold unpack3.
    wp_step.
    eapply wp_mono.
    - apply (sends_for_range (self s)); [done| |done]. intros time_step _.
      apply sends_for_range; [done|]. intros z Hzin.
      rewrite py_range_spec in Hzin by lia. apply in_spec_range_lower in Hzin; [|lia].
      apply sends_for_range; [lia|]. intros y Hyin.
      rewrite py_range_spec in Hyin by lia. apply in_spec_range_lower in Hyin; [|lia].
      apply sends_for_range; [lia|]. intros x Hxin.
      rewrite py_range_spec in Hxin by lia. apply in_spec_range_lower in Hxin; [|lia].
      apply sends_int_of_truediv; [lia|lia|].
      apply sends_int_of_truediv; [lia|lia|].
      apply sends_int_of_truediv; [lia|lia|].
      apply sends_get_self.
      apply sends_for_range; [done|]. intros tile _.
      apply sends_get_self. by apply sends_send.
    - cbv beta. intros r s' (-> & Hs' & Hj' & Hp'). repeat split; try done.
      rewrite Hp'. f_equal. unfold upload_tasks, upload_chunks.
      rewrite !flat_map_flat_map, !map_flat_map.
      apply flat_map_ext. intros time_step.
      rewrite !flat_map_flat_map, !map_flat_map.
      apply flat_map_ext. intros z.
      rewrite !flat_map_flat_map, !map_flat_map.
      apply flat_map_ext. intros y.
      rewrite flat_map_map, map_flat_map.
      apply flat_map_ext. intros x.
      unfold chunk_at. cbn [chunk_tasks]. rewrite map_map, flat_map_singleton.
      reflexivity. }
  destruct job_id as [n|]; simpl in Hres.
  - cbn [truthy]. rewrite andb_false_l.
    destruct (n =? 0) eqn:Hn; cbn [negb].
    + wp_step. by rewrite Hres.
    + wp_step. wp_step. change (default 0 (Some n)) with n.
      apply wp_IngestJob_objects_get. rewrite Hres.
      wp_simpl. wp_step. exact Hrest.
  - rewrite Hres. cbn [truthy].
    rewrite (bool_decide_eq_false_2 (Some job = None)) by done. rewrite andb_false_r.
    wp_step. exact Hrest.
Qed.

Lemma validate_config_file_spec config_data s :
  wp (validate_config_file env config_data) s
     (λ r s', ingest_jobs s' = ingest_jobs s ∧
              match r with
              | Ok b => b = true
              | Raise e => ∃ m, e = BossError m UNABLE_TO_VALIDATE
              end).
Proof.
  unfold validate_config_file.
  repeat wp_step_x; eauto.
Qed.

Lemma validate_properties_spec s :
  wp (validate_properties env) s
     (λ r s', ingest_jobs s' = ingest_jobs s ∧
              match r with
              | Ok b => b = true
              | Raise e => True
              end).
Proof.
  unfold validate_properties.
  repeat wp_step_x; eauto.
Qed.

Lemma create_ingest_job_spec s :
  wp (create_ingest_job env) s
     (λ r s', self s' = self s ∧
              match r with
              | Ok job => True
              | Raise e => ingest_jobs s' = ingest_jobs s
              end).
Proof.
  unfold create_ingest_job, serializer_save.
  repeat wp_step_x; try done.
  all: match goal with |- wp (if ?b then _ else _) _ _ => destruct b end.
  all: repeat wp_step_x; done.
Qed.

Lemma delete_tiles_frame ingest_job s :
  wp (delete_tiles env ingest_job) s (same_self_jobs s).
Proof.
  unfold delete_tiles, same_self_jobs.
  set (I := λ s' : State E, self s' = self s ∧ ingest_jobs s' = ingest_jobs s).
  wp_step. wp_step. wp_step; [|by wp_handlers; wp_step].
  wp_step. wp_step; [|by wp_handlers; wp_step].
  wp_step. wp_step; [|by wp_handlers; wp_step].
  apply (wp_for I); [done| |done]. intros chunk st1 _ H1.
  wp_step. apply (wp_for I); [done| |].
  - intros key st2 _ H2. wp_step; [done|]. wp_handlers. by wp_step.
  - intros st2 H2. wp_step; [done|]. wp_handlers. by wp_step.
Qed.

End Frames.

(** ** Further rules and the stepping tactics *)

Lemma wp_of_run {E A} (c : M E A) s r s' (Q : Result A → State E → Prop) :
  c s = (r, s') → Q r s' → wp c s Q.
Proof. unfold wp. by intros ->. Qed.

Lemma run_eq {A B} (p : A * B) (a : A) : fst p = a → p = (a, snd p).
Proof. intros <-. by destruct p. Qed.

Lemma wp_holds {E A} (c : M E A) s (Q : Result A → State E → Prop) :
  wp c s Q → ∃ r s', c s = (r, s') ∧ Q r s'.
Proof. unfold wp. intros H. exists (c s).1, (c s).2. by destruct (c s). Qed.

(** The run of a chain of steps is the run of its first five steps followed
    by the run of the rest. *)
Lemma bind_cleanup {E A} (c1 c2 c3 c4 c5 : M E unit) (k : M E A) (s : State E) :
  (c1 ;; c2 ;; c3 ;; c4 ;; c5 ;; k) s = ((c1 ;; c2 ;; c3 ;; c4 ;; c5) ;; k) s.
Proof.
  unfold bind.
  destruct (c1 s) as [[[]|x1] s1]; [|done].
  destruct (c2 s1) as [[[]|x2] s2]; [|done].
  destruct (c3 s2) as [[[]|x3] s3]; [|done].
  destruct (c4 s3) as [[[]|x4] s4]; [|done].
  done.
Qed.

Lemma wp_call_only {E A} (P : exn → Prop) (op : Ext E A) s
    (Q : Result A → State E → Prop) :
  raises_only P op →
  (∀ r e', raised_within P r → Q r (with_ext e' s)) →
  wp (call op) s Q.
Proof.
  intros Hop HQ. apply wp_call. intros [a|x] e' Hrun; apply HQ; [done|].
  by apply (Hop _ _ _ Hrun).
Qed.

(** Steps up to the next call, possibly-[None] object or [try]. *)
Ltac wp_pure :=
  repeat lazymatch goal with
         | |- wp (call _) _ _ => fail
         | |- wp (attr (Some _)) _ _ => wp_step
         | |- wp (attr _) _ _ => fail
         | |- wp (try_except _ _) _ _ => fail
         | _ => wp_step
         end.

(** A call of a collaborator whose exceptions are known to satisfy a
    condition. *)
Ltac wp_only H :=
  eapply wp_call_only; [apply H|]; intros [?|?] ? ?; wp_simpl.

(** A state update written as a function of the state. *)
Ltac wp_fun :=
  lazymatch goal with
  | |- wp (λ _, _) _ _ => unfold wp at 1; wp_simpl
  end.

Section Provisioning.

Context {E : Type} (env : Env E).


End Provisioning.

(** ** What task generation publishes *)

Lemma generate_upload_tasks_resolved {E} (env : Env E) job_id job s :
  resolves s job_id job →
  generate_upload_tasks env job_id s = publish_tasks env job s.
Proof.
  intros Hres. unfold generate_upload_tasks, publish_tasks.
  destruct job_id as [n|]; cbn [resolves] in Hres.
  - destruct (n =? 0) eqn:Hn.
    + unfold bind at 1 2. cbn [get_self truthy]. rewrite Hn, andb_false_l. cbn [negb].
      unfold ret at 1. by rewrite Hres.
    + unfold bind at 1 2 3. cbn [get_self truthy]. rewrite Hn, andb_false_l. cbn [negb].
      change (default 0 (Some n)) with n.
      unfold try_except, IngestJob_objects_get. rewrite Hres. done.
  - unfold bind at 1 2. cbn [get_self truthy]. rewrite Hres.
    rewrite (bool_decide_eq_false_2 (Some job = None)) by done. by rewrite andb_false_r.
Qed.


Lemma loop_messages {E} (env : Env E) config job project_info :
  flat_map (λ time_step,
    flat_map (λ z,
      flat_map (λ y,
        flat_map (λ x,
          flat_map (λ tile,
            [create_upload_task_message env (id job)
               (encode_chunk_key env config
                  (if z_stop job - z >=? 16 then 16 else z_stop job - z)
                  project_info (resolution job)
                  (int_truediv x (tile_size_x job)) (int_truediv y (tile_size_y job))
                  (int_truediv z 16) time_step)
               (encode_tile_key env config project_info (resolution job)
                  (int_truediv x (tile_size_x job)) (int_truediv y (tile_size_y job))
                  tile time_step)
               (upload_queue job) (ingest_queue job)])
            (py_range 0 (if z_stop job - z >=? 16 then 16 else z_stop job - z) 1))
          (py_range (x_start job) (x_stop job) (tile_size_x job)))
        (py_range (y_start job) (y_stop job) (tile_size_y job)))
      (py_range (z_start job) (z_stop job) 16))
    (py_range (t_start job) (t_stop job) 1) =
  map (task_message env) (upload_tasks env config job project_info).
Proof.
  unfold upload_tasks, upload_chunks.
  rewrite !flat_map_flat_map, !map_flat_map.
  apply flat_map_ext. intros time_step.
  rewrite !flat_map_flat_map, !map_flat_map.
  apply flat_map_ext. intros z.
  rewrite !flat_map_flat_map, !map_flat_map.
  apply flat_map_ext. intros y.
  rewrite flat_map_map, map_flat_map.
  apply flat_map_ext. intros x.
  unfold chunk_at. cbn [chunk_tasks]. rewrite map_map, flat_map_singleton.
  reflexivity.
Qed.


Section SendsUpto.

Context {E : Type} (env : Env E).

Lemma sends_upto_send m0 msg :
  sends_upto m0 (send_upload_task_message env msg) [msg].
Proof.
  intros s Hs. unfold send_upload_task_message, UploadQueue_send.
  wp_pure. wp_step.
  { wp_pure. wp_step.
    - wp_fun. repeat split; try done. exists [msg]. split; [|done].
      unfold published. cbn. by rewrite map_app.
    - repeat split; try done. exists []. split; [by rewrite app_nil_r|]. by exists msg, []. }
  repeat split; try done. exists []. split; [by rewrite app_nil_r|]. by exists msg, [].
Qed.

Lemma sends_upto_for {A} m0 (l : list A) (body : A → M E unit) (f : A → list string) :
  (∀ x, In x l → sends_upto m0 (body x) (f x)) →
  sends_upto m0 (for_ l body) (flat_map f l).
Proof.
  induction l as [|x l IH]; intros Hbody s Hs.
  - cbn. apply wp_ret. repeat split; try done. exists []. by rewrite app_nil_r.
  - cbn [for_ flat_map]. apply wp_bind.
    eapply wp_mono; [apply (Hbody x); [by left|done]|].
    intros [[]|e] s1 (Hs1 & Hj1 & m & Hp1 & Hm).
    + subst m. eapply wp_mono; [apply IH; [|done]|].
      * intros y Hy. apply Hbody. by right.
      * intros r s2 (Hs2 & Hj2 & m & Hp2 & Hm). repeat split; [done|congruence|].
        exists (f x ++ m)%list. split; [by rewrite Hp2, Hp1, app_assoc|].
        destruct r as [[]|e]; [by subst m|].
        destruct Hm as (msg & rest & ->). exists msg, rest. by rewrite app_assoc.
    + repeat split; try done. exists m. split; [done|].
      destruct Hm as (msg & rest & ->). exists msg, (rest ++ flat_map f l)%list.
      by rewrite <- app_assoc.
Qed.

Lemma sends_upto_for_range m0 start stop step (body : Z → M E unit) (f : Z → list string) :
  step ≠ 0 →
  (∀ x, In x (py_range start stop step) → sends_upto m0 (body x) (f x)) →
  sends_upto m0 (for_range start stop step body) (flat_map f (py_range start stop step)).
Proof.
  intros Hstep Hbody. unfold for_range.
  destruct (step =? 0) eqn:H0; [apply Z.eqb_eq in H0; done|].
  by apply sends_upto_for.
Qed.

(** A failing [int(a / b)] leaves the messages of the chunk unsent. *)
Lemma sends_upto_int_of_truediv m0 (a b : Z) (k : Z → M E unit) l :
  sends_upto m0 (k (int_truediv a b)) l → l ≠ [] →
  sends_upto m0 (bind (int_of_truediv a b) k) l.
Proof.
  intros Hk Hne s Hs. apply wp_bind, wp_int_of_truediv; [|by apply Hk].
  intros cls msg. repeat split; try done. exists []. split; [by rewrite app_nil_r|].
  destruct l as [|m l]; [done|]. by exists m, l.
Qed.

(** A chunk that the z-loop reaches has a tile. *)
Lemma tile_messages_nonempty {B} (z z_stop : Z) (g : Z → B) :
  z < z_stop →
  flat_map (λ tile, [g tile]) (py_range 0 (if z_stop - z >=? 16 then 16 else z_stop - z) 1)
    ≠ [].
Proof.
  intros Hz.
  destruct (py_range_first 0 (if z_stop - z >=? 16 then 16 else z_stop - z) 1)
    as [l ->]; [lia|by destruct (_ >=? _); lia|done].
Qed.

Lemma sends_upto_get_self m0 (k : Manager → M E unit) l :
  sends_upto m0 (k m0) l → sends_upto m0 (bind get_self k) l.
Proof. intros Hk s Hs. wp_step. wp_step. rewrite Hs. by apply Hk. Qed.

Lemma publish_tasks_sends_upto job project_info s :
  lookup_gives env job project_info →
  tile_size_x job ≠ 0 → tile_size_y job ≠ 0 →
  wp (publish_tasks env job) s
     (λ r s', self s' = self s ∧ ingest_jobs s' = ingest_jobs s ∧
              ∃ m, published s' = (published s ++ m)%list ∧
                   let l := map (task_message env)
                              (upload_tasks env (self_config (self s)) job project_info) in
                   match r with
                   | Ok _ => m = l
                   | Raise _ => ∃ msg rest, l = (m ++ msg :: rest)%list
                   end).
Proof.
  intros (key & Hkey & Hsplit & Hlen) Htx Hty. unfold publish_tasks.
  wp_pure. apply wp_call. intros r e' Hrun.
  destruct (Hkey (ext s)) as (e1 & Heq). unfold boss_key in Heq. rewrite Heq in Hrun.
  injection Hrun as <- <-. wp_simpl. wp_step. rewrite Hsplit.
  destruct project_info as [|c1 [|c2 [|c3 [|]]]]; try done. unfold unpack3.
  wp_step. eapply wp_mono.
  - apply (sends_upto_for_range (self s)); [done| |done]. intros time_step _.
    apply sends_upto_for_range; [done|]. intros z Hzin.
    rewrite py_range_spec in Hzin by lia. apply in_spec_range_lower in Hzin; [|lia].
    apply sends_upto_for_range; [done|]. intros y _.
    apply sends_upto_for_range; [done|]. intros x _.
    apply sends_upto_int_of_truediv;
      [apply sends_upto_int_of_truediv;
         [apply sends_upto_int_of_truediv;
            [apply sends_upto_get_self;
             apply sends_upto_for_range; [done|]; intros tile _;
             apply sends_upto_get_self; apply sends_upto_send
            |cbv beta; apply tile_messages_nonempty; lia]
         |cbv beta; apply tile_messages_nonempty; lia]
      |cbv beta; apply tile_messages_nonempty; lia].
  - cbv beta. intros r s' (Hs' & Hj' & m & Hp & Hm). repeat split; try done.
    exists m. split; [done|]. cbv zeta. rewrite <- loop_messages. exact Hm.
Qed.

End SendsUpto.


Lemma generate_upload_tasks_publishes {E} (env : Env E) job_id job project_info s :
  resolves s job_id job → lookup_gives env job project_info →
  tile_size_x job ≠ 0 → tile_size_y job ≠ 0 →
  publishes env job_id s
    (map (task_message env)
       (upload_tasks env (self_config (self s)) job project_info)).
Proof.
  intros Hres Hlook Htx Hty r s' Hrun.
  rewrite (generate_upload_tasks_resolved env job_id job s Hres) in Hrun.
  pose proof (wp_run _ _ _ _ _
                (publish_tasks_sends_upto env job project_info s Hlook Htx Hty) Hrun)
    as (_ & _ & m & Hp & Hm).
  by exists m.
Qed.

Lemma generate_upload_tasks_completes {E} (env : Env E) job_id job project_info s :
  queue_accepts env → resolves s job_id job → lookup_gives env job project_info →
  coordinates_exact job → 0 < tile_size_x job → 0 < tile_size_y job →
  completes env job_id s.
Proof.
  intros Hq Hres Hlook (Hx & Hx53 & Hy & Hy53 & Hz & Hz53) Htx Hty.
  destruct (wp_holds _ _ _
              (generate_upload_tasks_sends env job_id job project_info s
                 Hq Hres Hlook Hx Hy Hz Hx53 Hy53 Hz53 Htx Hty))
    as (r & s' & Hrun & -> & _).
  by exists s'.
Qed.

(** ** Chunks *)

Lemma ceil_div_is_ceiling (a b : Z) :
  0 < b → b * (ceil_div a b - 1) < a ≤ b * ceil_div a b.
Proof.
  intros Hb. unfold ceil_div.
  pose proof (Z.mul_div_le (a + b - 1) b Hb).
  pose proof (Z.mul_succ_div_gt (a + b - 1) b Hb).
  lia.
Qed.

Lemma NoDup_flat_map {A B} (f : A → list B) (l : list A) :
  NoDup l → (∀ x, In x l → NoDup (f x)) →
  (∀ x1 x2 y, In x1 l → In x2 l → In y (f x1) → In y (f x2) → x1 = x2) →
  NoDup (flat_map f l).
Proof.
  induction l as [|a l IH]; intros Hl Hf Hinj; [constructor|].
  apply NoDup_cons in Hl as [Ha Hl]. cbn [flat_map]. apply NoDup_app. split; [|split].
  - apply Hf. by left.
  - intros y Hy Hy'. apply list_elem_of_In in Hy, Hy'.
    apply in_flat_map in Hy' as (a' & Ha' & Hy').
    assert (a = a') as <- by (apply (Hinj a a' y); auto using in_eq, in_cons).
    apply Ha. by apply list_elem_of_In.
  - apply IH; [done| |].
    + intros x Hx. apply Hf. by right.
    + intros x1 x2 y H1 H2. apply Hinj; by right.
Qed.

Lemma NoDup_spec_range (start stop step : Z) : 0 < step → NoDup (spec_range start stop step).
Proof.
  intros Hs. unfold spec_range.
  change (NoDup ((λ k : nat, start + Z.of_nat k * step) <$>
                   seq 0 (Z.to_nat (ceil_div (stop - start) step)))).
  apply NoDup_fmap_2_strong; [|apply NoDup_seq]. intros k k' _ _. nia.
Qed.

Lemma spec_range_div_inj (start stop step x x' : Z) :
  0 ≤ start → stop ≤ 2 ^ 53 → 0 < step →
  In x (spec_range start stop step) → In x' (spec_range start stop step) →
  int_truediv x step = int_truediv x' step → x = x'.
Proof.
  intros Ha Hb Hs Hx Hx'.
  apply in_spec_range in Hx as (k & Hk & -> & Hlt); [|done].
  apply in_spec_range in Hx' as (k' & Hk' & -> & Hlt'); [|done].
  rewrite !int_truediv_small by nia. rewrite !Z.div_add by lia. nia.
Qed.

Lemma NoDup_chunk_z_of_range (z0 z1 : Z) :
  0 ≤ z0 → z1 ≤ 2 ^ 53 → NoDup (map (λ z, int_truediv z 16) (spec_range z0 z1 16)).
Proof.
  intros Hz0 Hz1.
  change (NoDup ((λ z, int_truediv z 16) <$> spec_range z0 z1 16)).
  apply NoDup_fmap_2_strong; [|by apply NoDup_spec_range].
  intros z z' Hz Hz'. apply list_elem_of_In in Hz, Hz'.
  by apply (spec_range_div_inj z0 z1 16).
Qed.

Lemma app_self_not_NoDup {A} (l : list A) : l ≠ [] → ¬ NoDup (l ++ l).
Proof.
  intros Hne Hnd. destruct l as [|a l]; [done|].
  apply NoDup_app in Hnd as (_ & Hdisj & _).
  apply (Hdisj a); by left.
Qed.

Section Chunks.

Context {E : Type} (env : Env E).
Variables (config : option Configuration) (project_info : list string).

Lemma in_upload_chunks job c :
  In c (upload_chunks env config job project_info) ↔
  ∃ t z y x,
    In t (py_range (t_start job) (t_stop job) 1) ∧
    In z (py_range (z_start job) (z_stop job) 16) ∧
    In y (py_range (y_start job) (y_stop job) (tile_size_y job)) ∧
    In x (py_range (x_start job) (x_stop job) (tile_size_x job)) ∧
    c = chunk_at env config job project_info t z y x.
Proof.
  unfold upload_chunks. rewrite in_flat_map. split.
  - intros (t & Ht & Hc). apply in_flat_map in Hc as (z & Hz & Hc).
    apply in_flat_map in Hc as (y & Hy & Hc).
    apply in_map_iff in Hc as (x & <- & Hx). by exists t, z, y, x.
  - intros (t & z & y & x & Ht & Hz & Hy & Hx & ->).
    exists t. split; [done|]. apply in_flat_map. exists z. split; [done|].
    apply in_flat_map. exists y. split; [done|].
    apply in_map_iff. by exists x.
Qed.

Lemma chunk_tasks_length job t z y x :
  z < z_stop job →
  Z.of_nat (length (chunk_tasks (chunk_at env config job project_info t z y x))) =
  Z.min 16 (z_stop job - z).
Proof.
  intros Hz. unfold chunk_at. cbn [chunk_tasks].
  rewrite length_map, py_range_spec, length_spec_range, tile_count_min by lia.
  unfold ceil_div. replace (Z.min 16 (z_stop job - z) - 0 + 1 - 1)
    with (Z.min 16 (z_stop job - z)) by lia.
  rewrite Z.div_1_r. lia.
Qed.

Lemma upload_chunks_scenario_A job :
  scenario_A job →
  upload_chunks env config job project_info =
  [chunk_at env config job project_info 0 0 0 0;
   chunk_at env config job project_info 0 16 0 0].
Proof.
  intros (Hx0 & Hx1 & Hy0 & Hy1 & Hz0 & Hz1 & Ht0 & Ht1 & Htx & Hty & _).
  unfold upload_chunks.
  by rewrite Hx0, Hx1, Hy0, Hy1, Hz0, Hz1, Ht0, Ht1, Htx, Hty.
Qed.

Lemma tile_keys_scenario_A job :
  scenario_A job →
  map task_tile_key (upload_tasks env config job project_info) =
  (map (λ tile, encode_tile_key env config project_info (resolution job) 0 0 tile 0)
       (py_range 0 16 1) ++
   map (λ tile, encode_tile_key env config project_info (resolution job) 0 0 tile 0)
       (py_range 0 16 1))%list.
Proof.
  intros HA. unfold upload_tasks. rewrite (upload_chunks_scenario_A job HA).
  destruct HA as (Hx0 & Hx1 & Hy0 & Hy1 & Hz0 & Hz1 & Ht0 & Ht1 & Htx & Hty & _).
  cbn [flat_map]. rewrite app_nil_r, map_app.
  unfold chunk_at, tile_count. cbn [chunk_tasks]. rewrite !map_map. cbn [task_tile_key].
  by rewrite Hz1, Htx, Hty.
Qed.

End Chunks.

(** ** The steps of setup and deletion *)

Lemma jobs_keyed_insert (t : gmap Z IngestJob) (k : Z) (job : IngestJob) :
  jobs_keyed t → id job = k → jobs_keyed (<[k := job]> t).
Proof.
  intros Ht Hk k' job' Hl. destruct (decide (k = k')) as [<-|Hne].
  - rewrite lookup_insert_eq in Hl. by simplify_eq.
  - rewrite lookup_insert_ne in Hl by done. by apply Ht.
Qed.

Section LifeCycle.

Context {E : Type} (env : Env E).

Lemma raises_only_True {A} (op : Ext E A) : raises_only (λ _, True) op.
Proof. by intros e x e' _. Qed.

Lemma tile_store_raises_True : tile_store_raises env (λ _, True).
Proof. split; intros; apply raises_only_True. Qed.

Lemma cleanup_raises_True : cleanup_raises env (λ _, True).
Proof. split; intros; apply raises_only_True. Qed.

(** The text [delete_tiles] raises for a cause [x]. *)
Lemma delete_tiles_keeps (P : exn → Prop) ingest_job s :
  tile_store_raises env P →
  wp (delete_tiles env ingest_job) s
     (λ r s',
        self s' = self s ∧ ingest_jobs s' = ingest_jobs s ∧
        upload_messages s' = upload_messages s ∧
        match r with
        | Ok _ => True
        | Raise e =>
            ∃ x, P x ∧
                 e = BossError ("Exception while deleteing tiles for the ingest job "
                                  +:+ pretty (id ingest_job) +:+ ". " +:+ str_exn env x)
                               BOSS_SYSTEM_ERROR
        end).
Proof.
  intros H. unfold delete_tiles.
  set (I := λ s' : State E, self s' = self s ∧ ingest_jobs s' = ingest_jobs s ∧
                            upload_messages s' = upload_messages s).
  wp_step. wp_step. wp_only (ts_index_new env P H); [|wp_handlers; wp_step; by eauto 8].
  wp_step. wp_only (ts_bucket_new env P H); [|wp_handlers; wp_step; by eauto 8].
  wp_step. wp_only (ts_task_items env P H); [|wp_handlers; wp_step; by eauto 8].
  apply (wp_for I); [done| |by intros st (? & ? & ?)]. intros chunk st1 _ Hst1.
  wp_step. apply (wp_for I); [done| |].
  - intros key st2 _ Hst2. wp_only (ts_delete_object env P H); [done|].
    wp_handlers. wp_step. destruct Hst2 as (? & ? & ?). by eauto 8.
  - intros st2 Hst2. wp_only (ts_delete_cuboid env P H); [done|].
    wp_handlers. wp_step. destruct Hst2 as (? & ? & ?). by eauto 8.
Qed.

Lemma delete_ingest_job_outcome (P : exn → Prop) ingest_job_id s :
  tile_store_raises env P → cleanup_raises env P →
  wp (delete_ingest_job env ingest_job_id) s
     (λ r s',
        self_job (self s') = self_job (self s) ∧
        upload_messages s' = upload_messages s ∧
        match r with
        | Ok n =>
            n = ingest_job_id ∧
            ∃ job, ingest_jobs s !! ingest_job_id = Some job ∧
                   ingest_jobs s' = <[id job := set_status 3 job]> (ingest_jobs s)
        | Raise e =>
            (∃ x, e = BossError ("Unable to delete the upload queue." +:+ str_exn env x)
                                BOSS_SYSTEM_ERROR ∧
                  (P x ∨ x = DoesNotExist IngestJobModel ∨
                   ∃ job y,
                     ingest_jobs s !! ingest_job_id = Some job ∧ P y ∧
                     x = BossError ("Exception while deleteing tiles for the ingest job "
                                      +:+ pretty (id job) +:+ ". " +:+ str_exn env y)
                                   BOSS_SYSTEM_ERROR)) ∧
            (ingest_jobs s' = ingest_jobs s ∨
             ∃ job, ingest_jobs s !! ingest_job_id = Some job ∧
                    ingest_jobs s' = <[id job := set_status 3 job]> (ingest_jobs s))
        end).
Proof.
  intros Ht Hc. unfold delete_ingest_job.
  wp_pure. wp_step.
  match goal with |- wp ?body ?s1 _ =>
    assert (wp body s1
              (λ r s',
                 self_job (self s') = self_job (self s) ∧
                 upload_messages s' = upload_messages s ∧
                 match r with
                 | Ok _ =>
                     ∃ job, ingest_jobs s !! ingest_job_id = Some job ∧
                            ingest_jobs s' = <[id job := set_status 3 job]> (ingest_jobs s)
                 | Raise x =>
                     (P x ∨ x = DoesNotExist IngestJobModel ∨
                      ∃ job y,
                        ingest_jobs s !! ingest_job_id = Some job ∧ P y ∧
                        x = BossError
                              ("Exception while deleteing tiles for the ingest job "
                                 +:+ pretty (id job) +:+ ". " +:+ str_exn env y)
                              BOSS_SYSTEM_ERROR) ∧
                     (ingest_jobs s' = ingest_jobs s ∨
                      ∃ job, ingest_jobs s !! ingest_job_id = Some job ∧
                             ingest_jobs s' = <[id job := set_status 3 job]> (ingest_jobs s))
                 end)) as Hbody
  end.
  { wp_step. apply wp_IngestJob_objects_get.
    destruct (ingest_jobs s !! ingest_job_id) as [ingest_job|] eqn:Hjob; wp_simpl;
      [|by auto 6].
    wp_pure. wp_only (cl_load env P Hc); [|by auto 6].
    wp_pure. unfold delete_upload_queue.
    wp_pure. wp_only (cl_upload_delete env P Hc); [|by auto 6].
    wp_pure. unfold delete_ingest_queue.
    wp_pure. wp_only (cl_ingest_delete env P Hc); [|by auto 6].
    wp_pure. eapply wp_mono; [by apply (delete_tiles_keeps P)|].
    intros [[]|x] s1 (Hs1 & Hj1 & Hu1 & Hx1); simpl in Hs1, Hj1, Hu1.
    2:{ rewrite Hs1, Hj1, Hu1. destruct Hx1 as (y & Hy & ->).
        split; [done|]. split; [done|]. split; [|by left].
        right. right. by exists ingest_job, y. }
    unfold IngestJob_save.
    wp_pure. wp_only (cl_update env P Hc); [|rewrite Hs1, Hj1, Hu1; by auto 6].
    wp_pure. wp_fun. wp_pure. unfold remove_ingest_credentials.
    wp_pure. wp_only (cl_creds_new env P Hc); [|rewrite Hs1, Hj1, Hu1; by eauto 8].
    wp_pure. wp_only (cl_remove env P Hc); [|rewrite Hs1, Hj1, Hu1; by eauto 8].
    wp_pure. wp_only (cl_policy env P Hc); [|rewrite Hs1, Hj1, Hu1; by eauto 8].
    wp_pure. rewrite Hs1, Hj1, Hu1. by eauto 6. }
  eapply wp_mono; [exact Hbody|]. intros [a|x] s' (Hs & Hu & Hx).
  - wp_pure. by auto.
  - wp_handlers. wp_pure. destruct Hx as [Hcause Htab]. by eauto 8.
Qed.

Lemma validate_config_file_keeps config_data s :
  wp (validate_config_file env config_data) s
     (λ r s', ingest_jobs s' = ingest_jobs s ∧
              self_owner (self s') = self_owner (self s) ∧
              upload_messages s' = upload_messages s ∧
              match r with
              | Ok b => b = true
              | Raise e => ∃ m c, e = BossError m c
              end).
Proof.
  unfold validate_config_file.
  repeat wp_step_x; eauto 10.
Qed.

Lemma validate_properties_keeps s :
  wp (validate_properties env) s
     (λ r s', ingest_jobs s' = ingest_jobs s ∧
              self_owner (self s') = self_owner (self s) ∧
              upload_messages s' = upload_messages s ∧
              match r with
              | Ok b => b = true
              | Raise e => True
              end).
Proof.
  unfold validate_properties.
  repeat wp_step_x; eauto 10.
Qed.

Lemma create_ingest_job_row s :
  wp (create_ingest_job env) s
     (λ r s',
        self s' = self s ∧ upload_messages s' = upload_messages s ∧
        match r with
        | Ok job =>
            ∃ pk data, job = row_of_data env pk data ∧
                       d_creator data = self_owner (self s) ∧
                       ingest_jobs s' = <[pk := job]> (ingest_jobs s)
        | Raise x => ingest_jobs s' = ingest_jobs s
        end).
Proof.
  unfold create_ingest_job, serializer_save.
  repeat wp_step_x; try done.
  all: match goal with |- wp (if ?b then _ else _) _ _ => destruct b end.
  all: repeat wp_step_x; try done.
  wp_fun. split; [done|]. split; [done|]. by eexists _, _.
Qed.

Lemma setup_ingest_outcome user config_data s :
  wp (setup_ingest env user config_data) s
     (λ r s',
        self_owner (self s') = Some user ∧
        match r with
        | Ok r =>
            ∃ job, r = Some job ∧ self_job (self s') = Some job ∧
                   creator job = Some user ∧
                   ingest_jobs s' = <[id job := job]> (ingest_jobs s)
        | Raise e =>
            (∃ m c, e = BossError m c) ∧
            (ingest_jobs s' = ingest_jobs s ∨
             ∃ pk data, ingest_jobs s' = <[pk := row_of_data env pk data]> (ingest_jobs s))
        end).
Proof.
  unfold setup_ingest.
  wp_pure. wp_step.
  match goal with |- wp ?body ?s1 _ =>
    assert (wp body s1
              (λ r s',
                 self_owner (self s') = Some user ∧
                 match r with
                 | Ok _ =>
                     ∃ job, self_job (self s') = Some job ∧
                            creator job = Some user ∧
                            ingest_jobs s' = <[id job := job]> (ingest_jobs s)
                 | Raise _ =>
                     ingest_jobs s' = ingest_jobs s ∨
                     ∃ pk data,
                       ingest_jobs s' = <[pk := row_of_data env pk data]> (ingest_jobs s)
                 end)) as Hbody
  end.
  { wp_step. eapply wp_mono; [apply validate_config_file_keeps|].
    intros [b|x] s1 (Hj1 & Ho1 & _ & Hr1); simpl in Hj1, Ho1; [subst b|by auto].
    wp_step. eapply wp_mono; [apply validate_properties_keeps|].
    intros [b|x] s2 (Hj2 & Ho2 & _ & Hr2); [subst b|split; [|left]; congruence].
    cbn [andb].
    wp_step. eapply wp_mono; [apply create_ingest_job_row|].
    intros [job|x] s3 (Hs3 & _ & Hr3); [|split; [|left]; congruence].
    destruct Hr3 as (pk & data & -> & Hcr & Hj3).
    assert (self_owner (self s3) = Some user) as Ho3 by congruence.
    assert (d_creator data = Some user) as Hcr' by congruence.
    assert (ingest_jobs s3 = <[pk := row_of_data env pk data]> (ingest_jobs s)) as Hj3'
      by congruence.
    clear Hj1 Ho1 Hj2 Ho2 Hcr Hj3.
    wp_pure. wp_step; [|by eauto 6].
    wp_pure. wp_step_x; [|by eauto 6].
    wp_pure. wp_step_x; [|by eauto 6].
    wp_pure. wp_step_x; [|by eauto 6].
    wp_pure. unfold create_upload_queue.
    wp_pure. wp_step; [|by eauto 6].
    wp_pure. wp_step; [|by eauto 6].
    wp_pure. unfold create_ingest_queue.
    wp_pure. wp_step; [|by eauto 6].
    wp_pure. wp_step; [|by eauto 6].
    wp_pure.
    eapply wp_mono; [apply generate_upload_tasks_frame|].
    intros r4 s4 [Hs4 Hj4]. simpl in Hs4, Hj4.
    destruct r4 as [[]|x]; [|rewrite Hs4, Hj4; wp_simpl; by eauto 6].
    wp_pure. rewrite Hs4. wp_simpl. wp_pure.
    wp_step; [|rewrite Hs4, Hj4; wp_simpl; by eauto 6].
    unfold create_ingest_credentials.
    wp_pure. wp_step; [|rewrite Hs4, Hj4; wp_simpl; by eauto 6].
    wp_pure. rewrite Hs4. wp_simpl. wp_pure.
    wp_step; [|rewrite Hs4, Hj4; wp_simpl; by eauto 6].
    wp_pure. wp_step; [|rewrite Hs4, Hj4; wp_simpl; by eauto 6].
    wp_pure. rewrite Hs4. wp_simpl. wp_pure.
    unfold IngestJob_save.
    wp_pure. wp_step; [|rewrite Hs4, Hj4; wp_simpl; by eauto 6].
    wp_fun. rewrite Hs4, Hj4. wp_simpl. split; [done|].
    eexists. split; [reflexivity|]. split; [exact Hcr'|].
    cbn [id set_status set_ingest_queue set_upload_queue row_of_data].
    rewrite Hj3'. by rewrite insert_insert_eq. }
  eapply wp_mono; [exact Hbody|]. intros [a|x] s' (Ho & Hx).
  - wp_pure. split; [done|]. destruct Hx as (job & Hjob & Hc & Ht).
    exists job. by rewrite Hjob.
  - destruct x as [m c|mo|m|cl m]; wp_handlers; wp_pure; by eauto 6.
Qed.

Lemma generate_upload_tasks_published job project_info s :
  self_job (self s) = Some job →
  wp (generate_upload_tasks env None) s
     (λ r s',
        self s' = self s ∧ ingest_jobs s' = ingest_jobs s ∧
        (lookup_gives env job project_info →
         tile_size_x job ≠ 0 → tile_size_y job ≠ 0 →
         match r with
         | Ok _ =>
             published s' =
               (published s ++
                map (task_message env)
                  (upload_tasks env (self_config (self s)) job project_info))%list
         | Raise _ => True
         end)).
Proof.
  intros Hjob.
  pose proof (generate_upload_tasks_frame env None s) as Hframe.
  pose proof (publish_tasks_sends_upto env job project_info s) as Hpub.
  unfold wp, same_self_jobs in *.
  rewrite (generate_upload_tasks_resolved env None job s Hjob) in *.
  destruct Hframe as [Hs Hj]. repeat split; try done.
  intros Hlook Htx Hty. specialize (Hpub Hlook Htx Hty).
  destruct (publish_tasks env job s) as [[[]|x] s']; [|done].
  cbn [fst snd] in *. destruct Hpub as (_ & _ & m & Hp & ->). exact Hp.
Qed.

Lemma setup_ingest_publishes user config_data project_info s :
  wp (setup_ingest env user config_data) s
     (λ r s',
        match r with
        | Ok r =>
            ∀ job, r = Some job → lookup_gives env job project_info →
                   tile_size_x job ≠ 0 → tile_size_y job ≠ 0 →
                   published s' =
                     (published s ++
                      map (task_message env)
                        (upload_tasks env (self_config (self s')) job project_info))%list
        | Raise _ => True
        end).
Proof.
  unfold setup_ingest.
  wp_pure. wp_step.
  match goal with |- wp ?body ?s1 _ =>
    assert (wp body s1
              (λ r s',
                 match r with
                 | Ok _ =>
                     ∀ job, self_job (self s') = Some job →
                            lookup_gives env job project_info →
                            tile_size_x job ≠ 0 → tile_size_y job ≠ 0 →
                            published s' =
                              (published s ++
                               map (task_message env)
                                 (upload_tasks env (self_config (self s')) job
                                    project_info))%list
                 | Raise _ => True
                 end)) as Hbody
  end.
  { wp_step. eapply wp_mono; [apply validate_config_file_keeps|].
    intros [b|x] s1 (_ & _ & Hu1 & Hr1); simpl in Hu1; [subst b|done].
    wp_step. eapply wp_mono; [apply validate_properties_keeps|].
    intros [b|x] s2 (_ & _ & Hu2 & Hr2); [subst b|done].
    cbn [andb].
    wp_step. eapply wp_mono; [apply create_ingest_job_row|].
    intros [job|x] s3 (Hs3 & Hu3 & Hr3); [|done].
    assert (upload_messages s3 = upload_messages s) as Hu3' by congruence.
    clear Hu1 Hu2 Hu3 Hr3 Hs3.
    wp_pure. wp_step; [|done].
    wp_pure. wp_step_x; [|done].
    wp_pure. wp_step_x; [|done].
    wp_pure. wp_step_x; [|done].
    wp_pure. unfold create_upload_queue.
    wp_pure. wp_step; [|done].
    wp_pure. wp_step; [|done].
    wp_pure. unfold create_ingest_queue.
    wp_pure. wp_step; [|done].
    wp_pure. wp_step; [|done].
    wp_pure.
    eapply wp_mono; [eapply generate_upload_tasks_published; reflexivity|].
    intros r4 s4 (Hs4 & _ & Hp4). simpl in Hs4.
    unfold published in Hp4. cbn [upload_messages with_ext with_self] in Hp4.
    rewrite Hu3' in Hp4.
    destruct r4 as [[]|x]; [|done].
    wp_pure. rewrite Hs4. wp_simpl. wp_pure.
    wp_step; [|done].
    unfold create_ingest_credentials.
    wp_pure. wp_step; [|done].
    wp_pure. rewrite Hs4. wp_simpl. wp_pure.
    wp_step; [|done].
    wp_pure. wp_step; [|done].
    wp_pure. rewrite Hs4. wp_simpl. wp_pure.
    unfold IngestJob_save.
    wp_pure. wp_step; [|done].
    wp_fun. rewrite Hs4. wp_simpl.
    intros job' Hjob' Hlook Htx Hty. injection Hjob' as <-.
    unfold published. cbn [upload_messages with_ext with_self with_ingest_jobs].
    exact (Hp4 Hlook Htx Hty). }
  eapply wp_mono; [exact Hbody|]. intros [a|x] s' Hx.
  - wp_pure. intros job Hjob. by apply Hx.
  - destruct x as [m c|mo|m|cl m]; wp_handlers; by wp_pure.
Qed.

End LifeCycle.


(** ** The simulated deployment meets the conditions *)

Lemma sim_queue_accepts (f : Fault) : queue_accepts (sim_env f).
Proof. split; intros; intros e; by eexists _, _. Qed.

Lemma sim_lookup_gives (job : IngestJob) :
  lookup_gives (sim_env NoFault) job ["1"; "2"; "3"].
Proof. exists "1&2&3". split; [intros e; by eexists|done]. Qed.

Lemma sim2_lookup_gives (c : Sim) (job : IngestJob) :
  length (split_on "&" (sim_lookup_key c)) = 3%nat →
  lookup_gives (sim2 c) job (split_on "&" (sim_lookup_key c)).
Proof. intros Hlen. exists (sim_lookup_key c). split; [intros e; by eexists|done]. Qed.

(** What the simulated collaborators raise. *)
Ltac sim_raises :=
  split; repeat intros ?;
    match goal with
    | H : _ = (Raise _, _) |- _ => cbv in H; by simplify_eq
    end.


Lemma sim2_tile_store_raises :
  tile_store_raises (sim2 sim_no_index)
    (λ x, x = PyError "ClientError" "index unavailable").
Proof. sim_raises. Qed.


(** * The claims *)

(** ** Task generation *)

(** C1. For a job with the extent and tile size of Scenario A, when the
    upload queue accepts every message, [generate_upload_tasks] returns
    having published the messages of two chunks, at z = 0 and z = 16, of 16
    tiles each, 32 tasks in all.  The tile key of a task is encoded from the
    tile's index inside its chunk, so the two chunks are given the same 16
    argument tuples: whatever the encoder, the 32 tile keys are 16 keys,
    each used twice, and are not pairwise distinct. *)
Theorem scenario_A_tile_keys_repeat {E} (env : Env E) job_id job project_info s :
  queue_accepts env → resolves s job_id job → lookup_gives env job project_info →
  scenario_A job →
  let config := self_config (self s) in
  let chunks := upload_chunks env config job project_info in
  let tasks := upload_tasks env config job project_info in
  (∃ s', generate_upload_tasks env job_id s = (Ok tt, s') ∧
         published s' = (published s ++ map (task_message env) tasks)%list) ∧
  map chunk_z_pos chunks = [0; 16] ∧
  map (λ c, length (chunk_tasks c)) chunks = [16%nat; 16%nat] ∧
  length tasks = 32%nat ∧
  (∃ keys, length keys = 16%nat ∧ map task_tile_key tasks = (keys ++ keys)%list) ∧
  ¬ NoDup (map task_tile_key tasks).
Proof.
  intros Hq Hres Hlook HA config chunks tasks.
  pose proof (tile_keys_scenario_A env config project_info job HA) as Hkeys.
  pose proof (upload_chunks_scenario_A env config project_info job HA) as Hchunks.
  destruct HA as (Hx0 & Hx1 & Hy0 & Hy1 & Hz0 & Hz1 & Ht0 & Ht1 & Htx & Hty & _).
  split.
  { destruct (wp_holds _ _ _
                (generate_upload_tasks_sends env job_id job project_info s
                   Hq Hres Hlook ltac:(lia) ltac:(lia) ltac:(lia)
                   ltac:(lia) ltac:(lia) ltac:(lia) ltac:(lia) ltac:(lia)))
      as (r & s' & Hrun & -> & _ & _ & Hpub).
    by exists s'. }
  split; [unfold chunks; by rewrite Hchunks|].
  split.
  { unfold chunks. rewrite Hchunks. unfold chunk_at, tile_count. cbn [map chunk_tasks].
    by rewrite !length_map, Hz1. }
  split.
  { rewrite <- (length_map task_tile_key). unfold tasks. rewrite Hkeys.
    by rewrite length_app, !length_map. }
  split.
  { eexists. split; [|exact Hkeys]. by rewrite length_map. }
  unfold tasks. rewrite Hkeys. by apply app_self_not_NoDup.
Qed.

Lemma scenario_A_tile_keys_repeat_witness :
  (∃ s', generate_upload_tasks (sim_env NoFault) None (state_with job_A) = (Ok tt, s') ∧
         length (published s') = 32%nat) ∧
  ¬ NoDup (map task_tile_key (upload_tasks (sim_env NoFault) None job_A ["1"; "2"; "3"])).
Proof.
  destruct (scenario_A_tile_keys_repeat (sim_env NoFault) None job_A ["1"; "2"; "3"]
              (state_with job_A) (sim_queue_accepts NoFault) eq_refl
              (sim_lookup_gives job_A))
    as ((s' & Hrun & Hpub) & _ & _ & Hlen & _ & Hdup).
  - repeat split; reflexivity.
  - split; [|exact Hdup]. exists s'. split; [exact Hrun|].
    rewrite Hpub. cbn [published state_with upload_messages map app].
    rewrite length_map. exact Hlen.
Defined.

(** C4, as amended.  For a job whose extents lie between 0 and 2^53 with
    start <= stop and whose tile sizes are positive, [generate_upload_tasks],
    when the lookup key is found and the queue accepts every message,
    publishes exactly the tasks of the nested enumeration t (step 1), z
    (step 16), y (step tile_size_y), x (step tile_size_x) over the half-open
    extents, with chunk_x = x / tile_size_x, chunk_y = y / tile_size_y,
    chunk_z = z / 16 (integer division), one chunk key per position and one
    task per tile index of the chunk, in that order. *)
Theorem generate_upload_tasks_enumerates {E} (env : Env E) job_id job project_info s :
  queue_accepts env → resolves s job_id job → lookup_gives env job project_info →
  0 ≤ x_start job ≤ x_stop job → 0 ≤ y_start job ≤ y_stop job →
  0 ≤ z_start job ≤ z_stop job → 0 ≤ t_start job ≤ t_stop job →
  x_stop job ≤ 2 ^ 53 → y_stop job ≤ 2 ^ 53 → z_stop job ≤ 2 ^ 53 →
  0 < tile_size_x job → 0 < tile_size_y job →
  0 < tile_size_z job → 0 < tile_size_t job →
  ∃ s', generate_upload_tasks env job_id s = (Ok tt, s') ∧
        published s' =
          (published s ++
           map (task_message env)
             (spec_tasks env (self_config (self s)) job project_info))%list.
Proof.
  intros Hq Hres Hlook Hx Hy Hz Ht Hx53 Hy53 Hz53 Htx Hty Htz Htt.
  destruct (wp_holds _ _ _
              (generate_upload_tasks_sends env job_id job project_info s
                 Hq Hres Hlook ltac:(lia) ltac:(lia) ltac:(lia) Hx53 Hy53 Hz53 Htx Hty))
    as (r & s' & Hrun & -> & _ & _ & Hpub).
  exists s'. split; [done|].
  rewrite Hpub. by rewrite upload_tasks_spec by lia.
Qed.

Lemma generate_upload_tasks_enumerates_witness :
  ∃ s', generate_upload_tasks (sim_env NoFault) None (state_with job_A) = (Ok tt, s') ∧
        published s' =
          map (task_message (sim_env NoFault))
            (spec_tasks (sim_env NoFault) None job_A ["1"; "2"; "3"]).
Proof.
  apply (generate_upload_tasks_enumerates (sim_env NoFault) None job_A ["1"; "2"; "3"]
           (state_with job_A) (sim_queue_accepts NoFault) eq_refl (sim_lookup_gives job_A));
    simpl; lia.
Defined.

(** C4 as stated fails: the chunk indices are [int(x / size)], a float
    division.  The job with the one-tile extent x[2^53 + 1, 2^53 + 2) and
    tile size 1 meets the conditions of the claim; the integer division
    gives chunk_x = 2^53 + 1, the method encodes its keys with
    chunk_x = 2^53, the double nearest to the quotient, and the message it
    publishes is not the one of the enumeration. *)
Lemma generate_upload_tasks_rounds_chunk_index :
  (0 ≤ x_start job_far_x ≤ x_stop job_far_x ∧ 0 ≤ y_start job_far_x ≤ y_stop job_far_x ∧
   0 ≤ z_start job_far_x ≤ z_stop job_far_x ∧ 0 ≤ t_start job_far_x ≤ t_stop job_far_x ∧
   0 < tile_size_x job_far_x ∧ 0 < tile_size_y job_far_x) ∧
  x_start job_far_x / tile_size_x job_far_x = 2 ^ 53 + 1 ∧
  fst (generate_upload_tasks (sim_env NoFault) None (state_with job_far_x)) = Ok tt ∧
  published (snd (generate_upload_tasks (sim_env NoFault) None (state_with job_far_x))) =
    [create_upload_task_message (sim_env NoFault) 1
       (encode_chunk_key (sim_env NoFault) None 1 ["1"; "2"; "3"] 0 (2 ^ 53) 0 0 0)
       (encode_tile_key (sim_env NoFault) None ["1"; "2"; "3"] 0 (2 ^ 53) 0 0 0)
       (Some "https://queue/upload") (Some "https://queue/ingest")] ∧
  published (snd (generate_upload_tasks (sim_env NoFault) None (state_with job_far_x))) ≠
    map (task_message (sim_env NoFault))
      (spec_tasks (sim_env NoFault) None job_far_x ["1"; "2"; "3"]).
Proof.
  split; [vm_compute; repeat split; discriminate|].
  split; [vm_compute; reflexivity|].
  split; [vm_compute; reflexivity|].
  split; [vm_compute; reflexivity|].
  vm_compute. intros Heq. discriminate Heq.
Qed.

(** C5. The run of [generate_upload_tasks] publishes the messages of its
    chunks, chunk after chunk (all of them when it returns, which it does
    when the queue accepts the messages and the coordinates lie between 0
    and 2^53).
    Every chunk at z-position z has min(16, z_stop - z) tiles: that is its
    tile count and the number of its tasks, which all carry its chunk key.
    For the extent z[0,20) the z-loop visits 0 and 16, and the chunks are,
    for every position of the t, y and x loops, the one at z = 0 with 16
    tiles and the one at z = 16 with 4 tiles. *)
Theorem chunk_tile_count {E} (env : Env E) job_id job project_info s :
  resolves s job_id job → lookup_gives env job project_info →
  0 < tile_size_x job → 0 < tile_size_y job →
  let config := self_config (self s) in
  let chunks := upload_chunks env config job project_info in
  publishes env job_id s
    (flat_map (λ c, map (task_message env) (chunk_tasks c)) chunks) ∧
  (queue_accepts env → coordinates_exact job → completes env job_id s) ∧
  Forall (λ c, num_of_tiles c = Z.min 16 (z_stop job - chunk_z_pos c) ∧
               Z.of_nat (length (chunk_tasks c)) = Z.min 16 (z_stop job - chunk_z_pos c) ∧
               Forall (λ t, task_chunk_key t = chunk_key c) (chunk_tasks c))
         chunks ∧
  (z_start job = 0 → z_stop job = 20 →
   py_range (z_start job) (z_stop job) 16 = [0; 16] ∧
   (∀ c, In c chunks ↔
         ∃ t y x,
           In t (py_range (t_start job) (t_stop job) 1) ∧
           In y (py_range (y_start job) (y_stop job) (tile_size_y job)) ∧
           In x (py_range (x_start job) (x_stop job) (tile_size_x job)) ∧
           (c = chunk_at env config job project_info t 0 y x ∨
            c = chunk_at env config job project_info t 16 y x)) ∧
   (∀ t y x,
      length (chunk_tasks (chunk_at env config job project_info t 0 y x)) = 16%nat ∧
      length (chunk_tasks (chunk_at env config job project_info t 16 y x)) = 4%nat)).
Proof.
  intros Hres Hlook Htx Hty config chunks. split.
  { unfold chunks, config. rewrite <- map_flat_map.
    apply (generate_upload_tasks_publishes env job_id job project_info s); [done|done|lia|lia]. }
  split.
  { intros Hq Hexact.
    by apply (generate_upload_tasks_completes env job_id job project_info s). }
  split.
  - apply List.Forall_forall. intros c Hc.
    apply in_upload_chunks in Hc as (t & z & y & x & _ & Hz & _ & _ & ->).
    rewrite py_range_spec in Hz by lia. apply in_spec_range_lower in Hz; [|lia].
    split; [apply tile_count_min|]. split.
    + apply chunk_tasks_length. cbn [chunk_z_pos chunk_at]. lia.
    + unfold chunk_at. cbn [chunk_tasks chunk_key]. apply List.Forall_forall.
      intros task Htask. apply in_map_iff in Htask as (tile & <- & _). done.
  - intros Hz0 Hz1. split; [by rewrite Hz0, Hz1|]. split.
    + intros c. unfold chunks. rewrite in_upload_chunks, Hz0, Hz1.
      change (py_range 0 20 16) with [0; 16]. split.
      * intros (t & z & y & x & Ht & Hz & Hy & Hx & ->). exists t, y, x.
        repeat split; try done. destruct Hz as [<-|[<-|[]]]; auto.
      * intros (t & y & x & Ht & Hy & Hx & [-> | ->]).
        -- exists t, 0, y, x. repeat split; try done. by left.
        -- exists t, 16, y, x. repeat split; try done. right. by left.
    + intros t y x.
      pose proof (chunk_tasks_length env config project_info job t 0 y x).
      pose proof (chunk_tasks_length env config project_info job t 16 y x).
      lia.
Qed.

Lemma chunk_tile_count_witness :
  (∃ s', generate_upload_tasks (sim_env NoFault) None (state_with job_B) = (Ok tt, s') ∧
         length (published s') = 20%nat) ∧
  map (λ c, (chunk_z_pos c, length (chunk_tasks c)))
      (upload_chunks (sim_env NoFault) None job_B ["1"; "2"; "3"]) =
    [(0, 16%nat); (16, 4%nat)].
Proof.
  destruct (chunk_tile_count (sim_env NoFault) None job_B ["1"; "2"; "3"] (state_with job_B)
              eq_refl (sim_lookup_gives job_B) ltac:(simpl; lia) ltac:(simpl; lia))
    as (Hpub & Hdone & _ & _).
  destruct (Hdone (sim_queue_accepts NoFault)) as [s' Hrun].
  { unfold coordinates_exact. simpl. lia. }
  split; [|reflexivity].
  exists s'. split; [exact Hrun|].
  destruct (Hpub _ _ Hrun) as (m & -> & ->). vm_compute. reflexivity.
Defined.

(** C6, as amended.  For a job with 0 <= z_start <= z_stop <= 2^53 whose t,
    y and x extents are not empty and whose tile sizes are positive, the run
    of [generate_upload_tasks] publishes the messages of its chunks (all of
    them when it returns, which it does when the queue accepts the messages
    and the coordinates lie between 0 and 2^53), every chunk key is encoded
    from the chunk_z of its chunk, and the number of distinct chunk_z values
    is ceil((z_stop - z_start) / 16), whether or not z_start is a multiple
    of 16. *)
Theorem chunk_z_count {E} (env : Env E) job_id job project_info s :
  resolves s job_id job → lookup_gives env job project_info →
  0 ≤ z_start job ≤ z_stop job → z_stop job ≤ 2 ^ 53 →
  t_start job < t_stop job → y_start job < y_stop job → x_start job < x_stop job →
  0 < tile_size_x job → 0 < tile_size_y job →
  let config := self_config (self s) in
  let chunks := upload_chunks env config job project_info in
  publishes env job_id s
    (flat_map (λ c, map (task_message env) (chunk_tasks c)) chunks) ∧
  (queue_accepts env → coordinates_exact job → completes env job_id s) ∧
  Forall (λ c, chunk_key c =
                 encode_chunk_key env config (num_of_tiles c) project_info (resolution job)
                   (chunk_x c) (chunk_y c) (chunk_z c) (chunk_t c) ∧
               Forall (λ t, task_chunk_key t = chunk_key c) (chunk_tasks c))
         chunks ∧
  size (chunk_z_values env config job project_info) =
  Z.to_nat (ceil_div (z_stop job - z_start job) 16).
Proof.
  intros Hres Hlook Hz Hz53 Ht Hy Hx Htx Hty config chunks. split.
  { unfold chunks, config. rewrite <- map_flat_map.
    apply (generate_upload_tasks_publishes env job_id job project_info s); [done|done|lia|lia]. }
  split.
  { intros Hq Hexact.
    by apply (generate_upload_tasks_completes env job_id job project_info s). }
  split.
  { apply List.Forall_forall. intros c Hc.
    apply in_upload_chunks in Hc as (t & z & y & x & _ & _ & _ & _ & ->).
    split; [done|]. unfold chunk_at. cbn [chunk_tasks chunk_key].
    apply List.Forall_forall. intros task Htask.
    apply in_map_iff in Htask as (tile & <- & _). done. }
  assert (chunk_z_values env config job project_info =
          list_to_set (map (λ z, int_truediv z 16)
                         (spec_range (z_start job) (z_stop job) 16))) as ->.
  { unfold chunk_z_values. apply set_eq. intros v.
    rewrite !elem_of_list_to_set, !list_elem_of_In, !in_map_iff. split.
    - intros (c & <- & Hc).
      apply in_upload_chunks in Hc as (t & z & y & x & _ & Hzin & _ & _ & ->).
      rewrite py_range_spec in Hzin by lia. by exists z.
    - intros (z & <- & Hzin).
      exists (chunk_at env config job project_info (t_start job) z (y_start job) (x_start job)).
      split; [done|]. apply in_upload_chunks.
      exists (t_start job), z, (y_start job), (x_start job).
      rewrite !py_range_spec by lia.
      repeat split; try done; apply spec_range_nonempty; lia. }
  rewrite size_list_to_set by (apply NoDup_chunk_z_of_range; lia).
  by rewrite length_map, length_spec_range.
Qed.

Lemma chunk_z_count_witness :
  (∃ s', generate_upload_tasks (sim_env NoFault) None (state_with job_A) = (Ok tt, s') ∧
         length (published s') = 32%nat) ∧
  size (chunk_z_values (sim_env NoFault) None job_A ["1"; "2"; "3"]) = 2%nat.
Proof.
  destruct (chunk_z_count (sim_env NoFault) None job_A ["1"; "2"; "3"] (state_with job_A)
              eq_refl (sim_lookup_gives job_A))
    as (Hpub & Hdone & _ & Hsize); [simpl; lia..|].
  destruct (Hdone (sim_queue_accepts NoFault)) as [s' Hrun].
  { unfold coordinates_exact. simpl. lia. }
  split; [|exact Hsize].
  exists s'. split; [exact Hrun|].
  destruct (Hpub _ _ Hrun) as (m & -> & ->). vm_compute. reflexivity.
Defined.

(** C6 as stated fails, in two ways.  A job with z[0,16) and the empty time
    extent t[0,0) satisfies 0 <= z_start <= z_stop: the loop body is never
    entered, the run returns with nothing published and no chunk_z value is
    produced, while ceil(16 / 16) = 1.  And for the job with z[2^57,
    2^57 + 32) the two chunks get the same chunk_z, 2^53, the double nearest
    to both quotients, while ceil(32 / 16) = 2: the run publishes the same
    16 messages twice, all with the chunk key of chunk_z = 2^53. *)
Lemma chunk_z_count_empty_time_extent :
  (0 ≤ z_start job_no_time ≤ z_stop job_no_time ∧
   generate_upload_tasks (sim_env NoFault) None (state_with job_no_time) =
     (Ok tt, state_with job_no_time) ∧
   size (chunk_z_values (sim_env NoFault) None job_no_time ["1"; "2"; "3"]) = 0%nat ∧
   Z.to_nat (ceil_div (z_stop job_no_time - z_start job_no_time) 16) = 1%nat) ∧
  (0 ≤ z_start job_far_z ≤ z_stop job_far_z ∧
   fst (generate_upload_tasks (sim_env NoFault) None (state_with job_far_z)) = Ok tt ∧
   published (snd (generate_upload_tasks (sim_env NoFault) None (state_with job_far_z))) =
     flat_map (λ _ : Z,
       map (λ tile,
         create_upload_task_message (sim_env NoFault) 1
           (encode_chunk_key (sim_env NoFault) None 16 ["1"; "2"; "3"] 0 0 0 (2 ^ 53) 0)
           (encode_tile_key (sim_env NoFault) None ["1"; "2"; "3"] 0 0 0 tile 0)
           (Some "https://queue/upload") (Some "https://queue/ingest"))
         (py_range 0 16 1))
       [2 ^ 57; 2 ^ 57 + 16] ∧
   map chunk_z (upload_chunks (sim_env NoFault) None job_far_z ["1"; "2"; "3"]) =
     [2 ^ 53; 2 ^ 53] ∧
   size (chunk_z_values (sim_env NoFault) None job_far_z ["1"; "2"; "3"]) = 1%nat ∧
   Z.to_nat (ceil_div (z_stop job_far_z - z_start job_far_z) 16) = 2%nat).
Proof.
  split.
  - split; [simpl; lia|]. repeat split; vm_compute; reflexivity.
  - split; [vm_compute; split; discriminate|]. repeat split; vm_compute; reflexivity.
Qed.

(** C8. The message of a task is the serialization of a flat document
    with exactly the five fields job_id, chunk_key, tile_key,
    upload_queue_arn and ingest_queue_arn, each holding the argument of
    [create_upload_task_message] of that name. *)
Theorem create_upload_task_message_fields {E} (env : Env E) job_id chunk_key tile_key
    upload_queue_arn ingest_queue_arn :
  let d := upload_task_message_dict job_id chunk_key tile_key
             upload_queue_arn ingest_queue_arn in
  create_upload_task_message env job_id chunk_key tile_key upload_queue_arn ingest_queue_arn
    = json_dumps env d ∧
  dom d = ({["job_id"; "chunk_key"; "tile_key"; "upload_queue_arn";
             "ingest_queue_arn"]} : gset string) ∧
  size d = 5%nat ∧
  d !! "job_id" = Some (JInt job_id) ∧
  d !! "chunk_key" = Some (JStr chunk_key) ∧
  d !! "tile_key" = Some (JStr tile_key) ∧
  d !! "upload_queue_arn" = Some (JOptStr upload_queue_arn) ∧
  d !! "ingest_queue_arn" = Some (JOptStr ingest_queue_arn).
Proof.
  intros d. split; [done|]. split.
  { unfold d, upload_task_message_dict. rewrite !dom_insert_L, dom_empty_L. set_solver. }
  split.
  { unfold d, upload_task_message_dict.
    rewrite !map_size_insert_None; [by rewrite map_size_empty|..]; by simplify_map_eq. }
  unfold d, upload_task_message_dict. repeat split; by simplify_map_eq.
Qed.

(** C10. [generate_upload_tasks] called without a job id on a manager that
    has no job raises the validation error UNABLE_TO_VALIDATE and leaves
    the whole state, the upload queue included, as it was. *)
Theorem generate_upload_tasks_without_job {E} (env : Env E) s :
  self_job (self s) = None →
  generate_upload_tasks env None s =
  (Raise (BossError
            "Unable to generate upload tasks for the ingest service. Please specify a ingest job"
            UNABLE_TO_VALIDATE), s).
Proof.
  intros Hnone. unfold generate_upload_tasks, bind, get_self.
  by rewrite Hnone.
Qed.

Lemma generate_upload_tasks_without_job_witness :
  generate_upload_tasks (sim_env NoFault) None state_empty =
  (Raise (BossError
            "Unable to generate upload tasks for the ingest service. Please specify a ingest job"
            UNABLE_TO_VALIDATE), state_empty).
Proof. apply (generate_upload_tasks_without_job (sim_env NoFault) state_empty). reflexivity. Defined.

(** ** The job life cycle *)

(** C9. When [setup_ingest] returns, it returns a job, not [None]; the job
    is Active, its upload-queue and ingest-queue references are set, it is
    the manager's job and it is the persisted row: both validations return
    [True] or raise, so a run without exception has gone through the whole
    success path. *)
Theorem setup_ingest_returns_active_job {E} (env : Env E) creator config_data s r s' :
  setup_ingest env creator config_data s = (Ok r, s') →
  ∃ job, r = Some job ∧ status job = STATUS_ACTIVE ∧
         is_Some (upload_queue job) ∧ is_Some (ingest_queue job) ∧
         self_job (self s') = Some job ∧
         ingest_jobs s' !! id job = Some job.
Proof.
  intros Hrun.
  cut (wp (setup_ingest env creator config_data) s
         (λ r s', match r with
                  | Ok r =>
                      ∃ job, r = Some job ∧ status job = STATUS_ACTIVE ∧
                             is_Some (upload_queue job) ∧ is_Some (ingest_queue job) ∧
                             self_job (self s') = Some job ∧
                             ingest_jobs s' !! id job = Some job
                  | Raise _ => True
                  end)).
  { intros Hwp. exact (wp_run _ _ _ _ _ Hwp Hrun). }
  clear Hrun r s'. unfold setup_ingest.
  wp_pure. wp_step.
  match goal with |- wp ?body ?s1 _ =>
    assert (wp body s1
              (λ r s', match r with
                       | Ok _ =>
                           ∃ job, self_job (self s') = Some job ∧
                                  status job = STATUS_ACTIVE ∧
                                  is_Some (upload_queue job) ∧
                                  is_Some (ingest_queue job) ∧
                                  ingest_jobs s' !! id job = Some job
                       | Raise _ => True
                       end)) as Hbody
  end.
  { wp_step. eapply wp_mono; [apply validate_config_file_spec|].
    intros [b|x] s1 [_ Hr1]; [subst b|done].
    wp_step. eapply wp_mono; [apply validate_properties_spec|].
    intros [b|x] s2 [_ Hr2]; [subst b|done].
    cbn [andb].
    wp_step. eapply wp_mono; [apply create_ingest_job_spec|].
    intros [job|x] s3 _; [|done].
    wp_pure. wp_step; [|done].
    wp_pure. wp_step_x; [|done].
    wp_pure. wp_step_x; [|done].
    wp_pure. wp_step_x; [|done].
    wp_pure. unfold create_upload_queue.
    wp_pure. wp_step; [|done].
    wp_pure. wp_step; [|done].
    wp_pure. unfold create_ingest_queue.
    wp_pure. wp_step; [|done].
    wp_pure. wp_step; [|done].
    wp_pure.
    eapply wp_mono; [apply generate_upload_tasks_frame|].
    intros [[]|x] s4 [Hs4 _]; [|done]. simpl in Hs4.
    wp_pure. rewrite Hs4. wp_simpl. wp_pure.
    wp_step; [|done].
    unfold create_ingest_credentials.
    wp_pure. wp_step; [|done].
    wp_pure. rewrite Hs4. wp_simpl. wp_pure.
    wp_step; [|done].
    wp_pure. wp_step; [|done].
    wp_pure. rewrite Hs4. wp_simpl. wp_pure.
    unfold IngestJob_save.
    wp_pure. wp_step; [|done].
    wp_fun. eexists. split; [reflexivity|].
    split; [reflexivity|]. split; [by eexists|]. split; [by eexists|].
    apply lookup_insert_eq. }
  eapply wp_mono; [exact Hbody|]. intros [a|x] s' Hx.
  - wp_pure. destruct Hx as (job & Hjob & Hst & Hu & Hi & Hl). exists job.
    rewrite Hjob. by repeat split.
  - destruct x as [m c|mo|m|cl m]; wp_handlers; by wp_pure.
Qed.

Lemma setup_ingest_returns_active_job_witness :
  fst (setup_run NoFault) = Ok (Some job_A) ∧
  ∃ job, Some job_A = Some job ∧ status job = STATUS_ACTIVE ∧
         is_Some (upload_queue job) ∧ is_Some (ingest_queue job) ∧
         self_job (self (snd (setup_run NoFault))) = Some job ∧
         ingest_jobs (snd (setup_run NoFault)) !! id job = Some job.
Proof.
  assert (fst (setup_run NoFault) = Ok (Some job_A)) as Hfst by (vm_compute; reflexivity).
  split; [exact Hfst|].
  apply (setup_ingest_returns_active_job (sim_env NoFault) "alice" config_A state_empty).
  apply run_eq, Hfst.
Defined.




(** C2, as amended.  [delete_ingest_job] loads the job, then runs the
    cleanup before the save (project handle, deletion of both queues, purge
    of the tiles), then saves the job with status Deleted, then removes the
    credentials, and stops at the first step that fails: a failure of the
    load, of the cleanup or of the save itself raises with the job table as
    it was, so the job is not marked Deleted; the removal of the credentials
    is the last step and runs with the job already persisted as Deleted, so
    when it fails the call raises and the job stays marked Deleted.  Every
    failure reaches the caller as the system error whose message ends with
    the text of the exception of the step. *)
Theorem delete_ingest_job_status_order {E} (env : Env E) ingest_job_id s r s' :
  delete_ingest_job env ingest_job_id s = (r, s') →
  let wrapped x :=
    BossError ("Unable to delete the upload queue." +:+ str_exn env x) BOSS_SYSTEM_ERROR in
  let cleanup ingest_job : M E unit :=
    call (BossIngestProj_load env) ;;
    set_nd_proj (Some {| proj_collection := collection ingest_job;
                         proj_experiment := experiment ingest_job;
                         proj_channel_layer := channel_layer ingest_job;
                         proj_resolution := resolution ingest_job;
                         proj_job_id := id ingest_job |}) ;;
    delete_upload_queue env ;;
    delete_ingest_queue env ;;
    delete_tiles env ingest_job in
  match ingest_jobs s !! ingest_job_id with
  | None => r = Raise (wrapped (DoesNotExist IngestJobModel)) ∧ s' = s
  | Some job =>
      match cleanup job s with
      | (Raise x, s1) =>
          r = Raise (wrapped x) ∧ s' = s1 ∧ ingest_jobs s' = ingest_jobs s
      | (Ok _, s1) =>
          ingest_jobs s1 = ingest_jobs s ∧
          match IngestJob_save env (set_status STATUS_DELETED job) s1 with
          | (Raise x, s2) =>
              r = Raise (wrapped x) ∧ s' = s2 ∧ ingest_jobs s' = ingest_jobs s
          | (Ok _, s2) =>
              ingest_jobs s2 =
                <[id job := set_status STATUS_DELETED job]> (ingest_jobs s) ∧
              ingest_jobs s' = ingest_jobs s2 ∧
              match remove_ingest_credentials env ingest_job_id s2 with
              | (Raise x, s3) => r = Raise (wrapped x) ∧ s' = s3
              | (Ok _, s3) => r = Ok ingest_job_id ∧ s' = s3
              end
          end
      end
  end.
Proof.
  intros Hrun wrapped cleanup.
  unfold delete_ingest_job, try_except in Hrun. unfold bind at 1 2 in Hrun.
  unfold IngestJob_objects_get in Hrun.
  destruct (ingest_jobs s !! ingest_job_id) as [job|] eqn:Hjob.
  2:{ cbn in Hrun. by injection Hrun as <- <-. }
  rewrite bind_cleanup in Hrun. fold (cleanup job) in Hrun.
  assert (wp (cleanup job) s (λ _ s1, ingest_jobs s1 = ingest_jobs s)) as Hframe.
  { unfold cleanup. wp_pure. wp_step; [|done].
    wp_pure. unfold delete_upload_queue. wp_pure. wp_step; [|done].
    wp_pure. unfold delete_ingest_queue. wp_pure. wp_step; [|done].
    wp_pure. eapply wp_mono; [apply delete_tiles_frame|].
    by intros r1 s1 [_ Hj1]. }
  unfold wp in Hframe. unfold bind at 1 in Hrun.
  destruct (cleanup job s) as [[[]|x] s1]; cbn [fst snd] in Hframe.
  2:{ cbn in Hrun. injection Hrun as <- <-. by repeat split. }
  split; [done|].
  unfold bind at 1 in Hrun.
  assert (wp (IngestJob_save env (set_status STATUS_DELETED job)) s1
            (λ r2 s2, match r2 with
                      | Ok _ => ingest_jobs s2 =
                                  <[id job := set_status STATUS_DELETED job]> (ingest_jobs s)
                      | Raise _ => ingest_jobs s2 = ingest_jobs s
                      end)) as Hsave.
  { unfold IngestJob_save. wp_pure. wp_step; [|done]. wp_fun. by rewrite Hframe. }
  unfold wp in Hsave.
  change (set_status 3 job) with (set_status STATUS_DELETED job) in Hrun.
  destruct (IngestJob_save env (set_status STATUS_DELETED job) s1) as [[[]|x] s2];
    cbn [fst snd] in Hsave.
  2:{ cbn in Hrun. injection Hrun as <- <-. by repeat split. }
  split; [done|].
  assert (wp (remove_ingest_credentials env ingest_job_id) s2
            (λ _ s3, ingest_jobs s3 = ingest_jobs s2)) as Hrm.
  { unfold remove_ingest_credentials. wp_pure. wp_step; [|done].
    wp_pure. wp_step; [|done]. wp_pure. wp_step; [|done]. by wp_pure. }
  unfold wp in Hrm. unfold bind at 1 in Hrun.
  destruct (remove_ingest_credentials env ingest_job_id s2) as [[b|x] s3];
    cbn [fst snd] in Hrm; cbn in Hrun; injection Hrun as <- <-; by repeat split.
Qed.

Lemma delete_ingest_job_status_order_witness :
  fst (delete_run CredentialRemovalFails 1) =
    Raise (BossError "Unable to delete the upload queue.connection refused"
                     BOSS_SYSTEM_ERROR) ∧
  ingest_jobs (snd (delete_run CredentialRemovalFails 1)) =
    <[1 := set_status STATUS_DELETED job_A]> (ingest_jobs (state_with job_A)).
Proof.
  assert (fst (delete_run CredentialRemovalFails 1) =
          Raise (BossError "Unable to delete the upload queue.connection refused"
                           BOSS_SYSTEM_ERROR)) as Hfst
    by (vm_compute; reflexivity).
  split; [exact Hfst|].
  pose proof (delete_ingest_job_status_order (sim_env CredentialRemovalFails) 1
                (state_with job_A) _ _ (run_eq _ _ Hfst)) as H.
  cbv zeta in H.
  change (ingest_jobs (state_with job_A) !! 1) with (Some job_A) in H. cbv iota beta in H.
  match type of H with
  | match ?c with _ => _ end => destruct c as [[[]|x] s1] eqn:Hc
  end; [|vm_compute in Hc; discriminate Hc].
  destruct H as [_ H].
  match type of H with
  | match ?c with _ => _ end => destruct c as [[[]|x] s2] eqn:Hs
  end.
  - destruct H as (Htab & Heq & _). by rewrite Heq, Htab.
  - apply (f_equal fst) in Hc. vm_compute in Hc.
    destruct H as (_ & _ & Htab). exfalso.
    assert (fst (IngestJob_save (sim_env CredentialRemovalFails)
                   (set_status STATUS_DELETED job_A) s1) = Ok tt) as Hok.
    { unfold IngestJob_save, bind, call. cbn. reflexivity. }
    rewrite Hs in Hok. discriminate Hok.
Defined.

(** C2 as stated fails: the save of the Deleted status comes before the
    removal of the credentials.  Here every step up to the save succeeds
    and the removal of the credentials fails: the call raises, and the
    persisted row of the job, Active before the call, is Deleted. *)
Lemma delete_ingest_job_marks_deleted_before_credentials :
  fst (delete_run CredentialRemovalFails 1) =
    Raise (BossError "Unable to delete the upload queue.connection refused"
                     BOSS_SYSTEM_ERROR) ∧
  status <$> ingest_jobs (state_with job_A) !! 1 = Some STATUS_ACTIVE ∧
  status <$> ingest_jobs (snd (delete_run CredentialRemovalFails 1)) !! 1 =
    Some STATUS_DELETED.
Proof.
  split; [vm_compute; reflexivity|].
  split; vm_compute; reflexivity.
Qed.

(** C3.  [delete_ingest_job] called with the id of no job: the manager
    catches [IngestJob.DoesNotExist] in its first clause, [except Exception],
    and raises the generic system error; the clause written for the missing
    job, with code OBJECT_NOT_FOUND, comes second and is never reached. *)
Theorem delete_ingest_job_missing_job {E} (env : Env E) ingest_job_id s :
  ingest_jobs s !! ingest_job_id = None →
  delete_ingest_job env ingest_job_id s =
  (Raise (BossError ("Unable to delete the upload queue."
                       +:+ str_exn env (DoesNotExist IngestJobModel))
                    BOSS_SYSTEM_ERROR), s).
Proof.
  intros Hnone. unfold delete_ingest_job, bind, try_except, IngestJob_objects_get.
  by rewrite Hnone.
Qed.

Lemma delete_ingest_job_missing_job_witness :
  delete_ingest_job (sim_env NoFault) 7 state_empty =
  (Raise (BossError "Unable to delete the upload queue.matching query does not exist"
                    BOSS_SYSTEM_ERROR), state_empty).
Proof. apply (delete_ingest_job_missing_job (sim_env NoFault) 7 state_empty). reflexivity. Defined.


(** * Further properties of the manager *)

(** ** Validation *)

(** X1.  [validate_config_file] has two outcomes: it returns [True], or it
    raises a [BossError] with code UNABLE_TO_VALIDATE whose message is the
    text of the [except] clause that caught the cause ("Schema validation
    failed! " for a [jsonschema.ValidationError], " Could not validate the
    schema file." for anything else) followed by the cause.  The cause is
    the exception that the first failing step of the body raised: the
    construction of the configuration, or, once that has returned, the
    lookup of its validator, or, once both have returned, the validation of
    the schema by the validator that holds the schema of the configuration.
    The method never returns [False], and it leaves the job table, the
    upload queue and the manager's job alone. *)
Theorem validate_config_file_outcome {E} (env : Env E) config_data s :
  wp (validate_config_file env config_data) s
     (λ r s',
        (r = Ok true ∨
         ∃ x, r = Raise (BossError (schema_failure_prefix x +:+ str_exn env x)
                                   UNABLE_TO_VALIDATE) ∧
              ((Configuration_new env config_data (ext s) = (Raise x, ext s')) ∨
               (∃ config e1,
                   Configuration_new env config_data (ext s) = (Ok config, e1) ∧
                   Configuration_get_validator env config e1 = (Raise x, ext s')) ∨
               (∃ config e1 validator e2,
                   Configuration_new env config_data (ext s) = (Ok config, e1) ∧
                   Configuration_get_validator env config e1 = (Ok validator, e2) ∧
                   Validator_validate_schema env
                     {| validator_name := validator_name validator;
                        validator_schema := schema config |} e2 = (Raise x, ext s')))) ∧
        ingest_jobs s' = ingest_jobs s ∧
        upload_messages s' = upload_messages s ∧
        self_job (self s') = self_job (self s)).
Proof.
  unfold validate_config_file.
  wp_step. wp_step. wp_pure. apply wp_call. intros [config|x] e1 Hnew; wp_simpl.
  2:{ destruct x as [m c|mo|m|cl m]; wp_handlers; wp_step;
        (split; [|done]); right;
        match goal with |- context [str_exn env ?x] => exists x end;
        (split; [reflexivity|by left]). }
  wp_pure. apply wp_call. intros [validator|x] e2 Hget; wp_simpl.
  2:{ destruct x as [m c|mo|m|cl m]; wp_handlers; wp_step;
        (split; [|done]); right;
        match goal with |- context [str_exn env ?x] => exists x end;
        (split; [reflexivity|]);
        right; left; by exists config, e1. }
  wp_pure. apply wp_call. intros [[]|x] e3 Hval; wp_simpl.
  - wp_step. split; [by left|done].
  - destruct x as [m c|mo|m|cl m]; wp_handlers; wp_step;
      (split; [|done]); right;
        match goal with |- context [str_exn env ?x] => exists x end;
        (split; [reflexivity|]);
      right; right; by exists config, e1, validator, e2.
Qed.


(** X3.  When the lookup of the collection raises [Collection.DoesNotExist],
    [validate_properties] raises RESOURCE_NOT_FOUND with a message built
    from [self.collection], the value the manager held before the call, not
    from the name that was looked up: the assignment never happened. *)
Theorem validate_properties_missing_collection {E} (env : Env E) s config e' :
  self_config (self s) = Some config →
  Collection_objects_get env (cfg_collection (config_data_of config)) (ext s) =
    (Raise (DoesNotExist CollectionModel), e') →
  validate_properties env s =
  (Raise (BossError ("Collection " +:+ str_collection env (self_collection (self s))
                       +:+ " not found") RESOURCE_NOT_FOUND),
   with_ext e' s).
Proof.
  intros Hcfg Hcol.
  unfold validate_properties, bind, try_except, get_self, call, attr, raise, ret.
  rewrite Hcfg. cbn. by rewrite Hcol.
Qed.

Lemma validate_properties_missing_collection_witness :
  validate_properties (sim2 sim_no_collection) state_configured =
  (Raise (BossError "Collection None not found" RESOURCE_NOT_FOUND), state_configured).
Proof.
  apply (validate_properties_missing_collection (sim2 sim_no_collection) state_configured
           {| config_data_of := config_A; schema := "boss-v0.1-schema" |} 0);
    reflexivity.
Defined.

(** ** Job records *)

Lemma create_ingest_job_outcome {E} (env : Env E) s :
  wp (create_ingest_job env) s
     (λ r s',
        self s' = self s ∧ upload_messages s' = upload_messages s ∧
        match r with
        | Ok job =>
            ∃ pk data,
              job = row_of_data env pk data ∧
              ingest_jobs s' = <[pk := job]> (ingest_jobs s) ∧
              d_creator data = self_owner (self s) ∧
              d_resolution data = self_resolution (self s) ∧
              ∃ config, self_config (self s) = Some config ∧
                let cd := config_data_of config in
                (d_x_start data, d_x_stop data) = cfg_extent_x cd ∧
                (d_y_start data, d_y_stop data) = cfg_extent_y cd ∧
                (d_z_start data, d_z_stop data) = cfg_extent_z cd ∧
                (d_t_start data, d_t_stop data) = cfg_extent_t cd ∧
                d_tile_size_x data = cfg_tile_size_x cd ∧
                d_tile_size_y data = cfg_tile_size_y cd ∧
                d_tile_size_z data = cfg_tile_size_z cd ∧
                d_tile_size_t data = cfg_tile_size_t cd
        | Raise x => ingest_jobs s' = ingest_jobs s
        end).
Proof.
  unfold create_ingest_job, serializer_save.
  repeat wp_step_x; try done.
  all: match goal with |- wp (if ?b then _ else _) _ _ => destruct b end.
  all: repeat wp_step_x; try done.
  wp_fun. repeat split.
  eexists _, _. split; [reflexivity|]. split; [reflexivity|].
  cbn. split; [done|]. split; [done|].
  eexists. split; [done|]. cbn.
  by rewrite <- !surjective_pairing.
Qed.

(** X4.  When [create_ingest_job] returns a job, the job table has gained
    that job under its id and nothing else has changed in it; the job is in
    the model's initial status with no queue reference, its creator is the
    manager's owner, its resolution the manager's, and its extents and tile
    sizes are those of the manager's configuration. *)
Theorem create_ingest_job_persists_configuration {E} (env : Env E) s job s' :
  create_ingest_job env s = (Ok job, s') →
  ingest_jobs s' = <[id job := job]> (ingest_jobs s) ∧
  status job = status_default env ∧
  upload_queue job = None ∧ ingest_queue job = None ∧
  creator job = self_owner (self s) ∧
  resolution job = self_resolution (self s) ∧
  ∃ config, self_config (self s) = Some config ∧
    let cd := config_data_of config in
    (x_start job, x_stop job) = cfg_extent_x cd ∧
    (y_start job, y_stop job) = cfg_extent_y cd ∧
    (z_start job, z_stop job) = cfg_extent_z cd ∧
    (t_start job, t_stop job) = cfg_extent_t cd ∧
    tile_size_x job = cfg_tile_size_x cd ∧
    tile_size_y job = cfg_tile_size_y cd ∧
    tile_size_z job = cfg_tile_size_z cd ∧
    tile_size_t job = cfg_tile_size_t cd.
Proof.
  intros Hrun.
  pose proof (wp_run _ _ _ _ _ (create_ingest_job_outcome env s) Hrun)
    as (_ & _ & pk & data & -> & Htab & Hcr & Hres & config & Hcfg & Hext).
  cbn [id row_of_data status upload_queue ingest_queue creator resolution
       x_start x_stop y_start y_stop z_start z_stop t_start t_stop
       tile_size_x tile_size_y tile_size_z tile_size_t].
  repeat split; try done. by exists config.
Qed.

Lemma create_ingest_job_persists_configuration_witness :
  ∃ job,
    fst (create_ingest_job (sim2 sim_nominal) state_validated) = Ok job ∧
    ingest_jobs (snd (create_ingest_job (sim2 sim_nominal) state_validated)) !! 1 = Some job ∧
    (z_start job, z_stop job) = (0, 32) ∧ status job = 0 ∧ upload_queue job = None.
Proof.
  exists (row_of_data (sim2 sim_nominal) 1
            {| d_creator := Some "alice"; d_collection := "col1"; d_experiment := "exp1";
               d_channel_layer := "ch1"; d_config_data := "col1"; d_resolution := 0;
               d_x_start := 0; d_x_stop := 64; d_y_start := 0; d_y_stop := 64;
               d_z_start := 0; d_z_stop := 32; d_t_start := 0; d_t_stop := 1;
               d_tile_size_x := 64; d_tile_size_y := 64;
               d_tile_size_z := 16; d_tile_size_t := 1 |}).
  assert (fst (create_ingest_job (sim2 sim_nominal) state_validated) =
          Ok (row_of_data (sim2 sim_nominal) 1
            {| d_creator := Some "alice"; d_collection := "col1"; d_experiment := "exp1";
               d_channel_layer := "ch1"; d_config_data := "col1"; d_resolution := 0;
               d_x_start := 0; d_x_stop := 64; d_y_start := 0; d_y_stop := 64;
               d_z_start := 0; d_z_stop := 32; d_t_start := 0; d_t_stop := 1;
               d_tile_size_x := 64; d_tile_size_y := 64;
               d_tile_size_z := 16; d_tile_size_t := 1 |})) as Hfst
    by (vm_compute; reflexivity).
  split; [exact Hfst|].
  destruct (create_ingest_job_persists_configuration (sim2 sim_nominal) state_validated
              _ _ (run_eq _ _ Hfst))
    as (Htab & Hst & Hu & _ & _ & _ & config & Hcfg & _ & _ & Hz & _).
  split; [rewrite Htab; apply lookup_insert_eq|].
  split; [reflexivity|]. split; [exact Hst|exact Hu].
Defined.



(** X6.  [get_ingest_job] returns the row stored under the id, and for an id
    with no row raises a [BossError] with code OBJECT_NOT_FOUND that names
    the id; in both cases it changes nothing. *)
Theorem get_ingest_job_lookup {E} ingest_job_id (s : State E) :
  get_ingest_job ingest_job_id s =
  (match ingest_jobs s !! ingest_job_id with
   | Some job => Ok job
   | None => Raise (BossError ("The ingest job with id " +:+ pretty ingest_job_id
                                 +:+ " does not exist") OBJECT_NOT_FOUND)
   end, s).
Proof.
  unfold get_ingest_job, try_except, IngestJob_objects_get.
  by destruct (ingest_jobs s !! ingest_job_id).
Qed.

(** ** Task generation: the choice of the job and the lookup key *)

(** X7.  [generate_upload_tasks] called with a non-zero id that has no row
    raises a [BossError] with code RESOURCE_NOT_FOUND that names the id (not
    OBJECT_NOT_FOUND, the code [get_ingest_job] uses), and changes
    nothing. *)
Theorem generate_upload_tasks_missing_row {E} (env : Env E) n s :
  n ≠ 0 → ingest_jobs s !! n = None →
  generate_upload_tasks env (Some n) s =
  (Raise (BossError ("Ingest job with id " +:+ pretty n +:+ " does not exist")
                    RESOURCE_NOT_FOUND), s).
Proof.
  intros Hn Hnone. unfold generate_upload_tasks.
  unfold bind at 1 2 3. cbn [get_self truthy].
  rewrite andb_false_l. apply Z.eqb_neq in Hn. rewrite Hn. cbn [negb].
  change (default 0 (Some n)) with n.
  unfold try_except, IngestJob_objects_get. by rewrite Hnone.
Qed.

Lemma generate_upload_tasks_missing_row_witness :
  generate_upload_tasks (sim_env NoFault) (Some 7) (state_with job_A) =
  (Raise (BossError ("Ingest job with id " +:+ pretty 7 +:+ " does not exist")
                    RESOURCE_NOT_FOUND), state_with job_A).
Proof.
  apply (generate_upload_tasks_missing_row (sim_env NoFault) 7 (state_with job_A));
    [lia|reflexivity].
Defined.

(** X8.  The job id 0 is not looked up: [elif job_id:] is false for it, so
    [generate_upload_tasks(0)] works on the manager's own job like
    [generate_upload_tasks(None)], and when the manager has no job it fails
    with an [AttributeError] on [None] rather than with the [BossError]
    that asks for a job. *)
Theorem generate_upload_tasks_zero_id {E} (env : Env E) s :
  generate_upload_tasks env (Some 0) s =
  match self_job (self s) with
  | Some job => generate_upload_tasks env None s
  | None => (Raise (PyError "AttributeError" "'NoneType' object has no attribute"), s)
  end.
Proof.
  destruct (self_job (self s)) as [job|] eqn:Hjob.
  - rewrite (generate_upload_tasks_resolved env (Some 0) job s) by done.
    by rewrite (generate_upload_tasks_resolved env None job s).
  - unfold generate_upload_tasks. unfold bind at 1 2. cbn [get_self truthy Z.eqb negb].
    rewrite andb_false_l. unfold ret at 1. rewrite Hjob. reflexivity.
Qed.

(** X9.  When the lookup key of the channel does not split at ['&'] into
    exactly three parts, [generate_upload_tasks] fails with the
    [ValueError] of the unpacking, before any message is sent. *)
Theorem generate_upload_tasks_malformed_key {E} (env : Env E) job_id job s key e' :
  resolves s job_id job →
  LookUpKey_get_lookup_key env (boss_key job) (ext s) = (Ok key, e') →
  length (split_on "&" key) ≠ 3%nat →
  generate_upload_tasks env job_id s =
  (Raise (PyError "ValueError" "wrong number of values to unpack"), with_ext e' s).
Proof.
  intros Hres Hkey Hlen. rewrite (generate_upload_tasks_resolved env job_id job s Hres).
  unfold publish_tasks. unfold bind at 1 2, call. unfold boss_key in Hkey. rewrite Hkey.
  destruct (split_on "&" key) as [|a [|b [|c [|d l]]]]; try done.
Qed.

Lemma generate_upload_tasks_malformed_key_witness :
  generate_upload_tasks (sim2 sim_short_key) None (state_with job_A) =
  (Raise (PyError "ValueError" "wrong number of values to unpack"), state_with job_A).
Proof.
  apply (generate_upload_tasks_malformed_key (sim2 sim_short_key) None job_A
           (state_with job_A) "1&2" 1); [reflexivity|reflexivity|].
  vm_compute. lia.
Defined.

Lemma split_on_no_amp (a : string) :
  no_amp a = true → split_on "&" a = [a].
Proof.
  induction a as [|ch a IH]; [done|]. cbn [no_amp split_on]. intros Ha.
  apply andb_true_iff in Ha as [Hch Ha]. apply negb_true_iff in Hch.
  rewrite Hch, (IH Ha). done.
Qed.

Lemma split_on_app_amp (a r : string) :
  no_amp a = true → split_on "&" (a +:+ "&" +:+ r) = a :: split_on "&" r.
Proof.
  induction a as [|ch a IH]; [done|]. cbn [no_amp]. intros Ha.
  apply andb_true_iff in Ha as [Hch Ha]. apply negb_true_iff in Hch.
  change (String ch a +:+ "&" +:+ r) with (String ch (a +:+ "&" +:+ r)).
  cbn [split_on]. rewrite Hch, (IH Ha). done.
Qed.

(** X10.  The lookup key the channel-layer view stores, the three primary
    keys joined by ['&'], is unpacked by [generate_upload_tasks] into these
    three identifiers, as long as none of them contains ['&']. *)
Theorem channel_lookup_key_unpacks {E} (col_id exp_id ch_id : string) (s : State E) :
  no_amp col_id = true → no_amp exp_id = true → no_amp ch_id = true →
  unpack3 (split_on "&" (channel_lookup_key col_id exp_id ch_id)) s =
  (Ok [col_id; exp_id; ch_id], s).
Proof.
  intros Ha Hb Hc. unfold channel_lookup_key.
  by rewrite (split_on_app_amp _ _ Ha), (split_on_app_amp _ _ Hb), (split_on_no_amp _ Hc).
Qed.

Lemma channel_lookup_key_unpacks_witness :
  unpack3 (split_on "&" (channel_lookup_key "12" "7" "103")) state_empty =
  (Ok ["12"; "7"; "103"], state_empty).
Proof. apply (channel_lookup_key_unpacks "12" "7" "103" state_empty); reflexivity. Defined.


(** ** Task generation: what reaches the queue *)

(** X11.  Whatever the queue does, the messages [generate_upload_tasks] puts
    on the upload queue are an initial segment of the job's task messages,
    in order: all of them when the call returns, and when it raises a
    proper initial segment, at least one message being missing.  Manager
    and job table are unchanged in both cases. *)
Theorem generate_upload_tasks_publishes_prefix {E} (env : Env E)
    job_id job project_info s r s' :
  resolves s job_id job → lookup_gives env job project_info →
  tile_size_x job ≠ 0 → tile_size_y job ≠ 0 →
  generate_upload_tasks env job_id s = (r, s') →
  let l := map (task_message env)
             (upload_tasks env (self_config (self s)) job project_info) in
  self s' = self s ∧ ingest_jobs s' = ingest_jobs s ∧
  ∃ m, published s' = (published s ++ m)%list ∧
       match r with
       | Ok _ => m = l
       | Raise _ => ∃ msg rest, l = (m ++ msg :: rest)%list
       end.
Proof.
  intros Hres Hlook Htx Hty Hrun l.
  rewrite (generate_upload_tasks_resolved env job_id job s Hres) in Hrun.
  exact (wp_run _ _ _ _ _ (publish_tasks_sends_upto env job project_info s Hlook Htx Hty) Hrun).
Qed.

Lemma generate_upload_tasks_publishes_prefix_witness :
  fst (generate_upload_tasks (sim2 (sim_queue_of 5)) None (state_with job_A)) =
    Raise (PyError "ClientError" "queue unavailable") ∧
  length (published (snd (generate_upload_tasks (sim2 (sim_queue_of 5)) None
                            (state_with job_A)))) = 4%nat ∧
  ∃ m msg rest,
    published (snd (generate_upload_tasks (sim2 (sim_queue_of 5)) None (state_with job_A)))
      = m ∧
    map (task_message (sim2 (sim_queue_of 5)))
      (upload_tasks (sim2 (sim_queue_of 5)) None job_A ["1"; "2"; "3"]) =
    (m ++ msg :: rest)%list.
Proof.
  assert (fst (generate_upload_tasks (sim2 (sim_queue_of 5)) None (state_with job_A)) =
          Raise (PyError "ClientError" "queue unavailable")) as Hfst
    by (vm_compute; reflexivity).
  split; [exact Hfst|]. split; [vm_compute; reflexivity|].
  destruct (generate_upload_tasks_publishes_prefix (sim2 (sim_queue_of 5)) None job_A
              ["1"; "2"; "3"] (state_with job_A) _ _ eq_refl
              (sim2_lookup_gives (sim_queue_of 5) job_A eq_refl)
              ltac:(simpl; lia) ltac:(simpl; lia) (run_eq _ _ Hfst))
    as (_ & _ & m & Hp & msg & rest & Hm).
  exists m, msg, rest. split; [exact Hp|exact Hm].
Defined.

Lemma upload_tasks_empty_extent {E} (env : Env E) config job project_info :
  0 < tile_size_x job → 0 < tile_size_y job →
  t_stop job ≤ t_start job ∨ z_stop job ≤ z_start job ∨
  y_stop job ≤ y_start job ∨ x_stop job ≤ x_start job →
  upload_tasks env config job project_info = [].
Proof.
  intros Htx Hty Hempty. unfold upload_tasks, upload_chunks.
  destruct Hempty as [H|[H|[H|H]]].
  - by rewrite (py_range_empty (t_start job)) by lia.
  - rewrite (py_range_empty (z_start job)) by lia. cbn.
    by rewrite (flat_map_nil (λ _, [])).
  - rewrite (py_range_empty (y_start job)) by lia. cbn.
    rewrite (flat_map_nil (λ _, flat_map _ _)); [done|].
    intros t. by apply flat_map_nil.
  - rewrite (py_range_empty (x_start job)) by lia. cbn.
    rewrite (flat_map_nil (λ _, flat_map _ _)); [done|].
    intros t. apply flat_map_nil. intros z. by apply flat_map_nil.
Qed.

(** X12.  For a job with an empty extent in t, z, y or x (stop not above
    start) and positive tile sizes, [generate_upload_tasks] returns without
    sending a message, even when the queue would refuse every message. *)
Theorem generate_upload_tasks_empty_extent {E} (env : Env E) job_id job project_info s :
  resolves s job_id job → lookup_gives env job project_info →
  0 < tile_size_x job → 0 < tile_size_y job →
  t_stop job ≤ t_start job ∨ z_stop job ≤ z_start job ∨
  y_stop job ≤ y_start job ∨ x_stop job ≤ x_start job →
  ∃ s', generate_upload_tasks env job_id s = (Ok tt, s') ∧
        published s' = published s ∧
        self s' = self s ∧ ingest_jobs s' = ingest_jobs s.
Proof.
  intros Hres Hlook Htx Hty Hempty.
  destruct (generate_upload_tasks env job_id s) as [r s'] eqn:Hrun.
  rewrite (generate_upload_tasks_resolved env job_id job s Hres) in Hrun.
  pose proof (wp_run _ _ _ _ _
                (publish_tasks_sends_upto env job project_info s Hlook
                   ltac:(lia) ltac:(lia)) Hrun) as (Hs & Hj & m & Hp & Hm).
  rewrite (upload_tasks_empty_extent env _ job project_info Htx Hty Hempty) in Hm.
  cbn in Hm. destruct r as [[]|e].
  - subst m. exists s'. rewrite app_nil_r in Hp. by repeat split.
  - destruct Hm as (msg & rest & Hm). by destruct m.
Qed.

Lemma generate_upload_tasks_empty_extent_witness :
  ∃ s', generate_upload_tasks (sim2 (sim_queue_of 0)) None (state_with job_no_time) =
          (Ok tt, s') ∧
        published s' = published (state_with job_no_time) ∧
        self s' = self (state_with job_no_time) ∧
        ingest_jobs s' = ingest_jobs (state_with job_no_time).
Proof.
  apply (generate_upload_tasks_empty_extent (sim2 (sim_queue_of 0)) None job_no_time
           ["1"; "2"; "3"] (state_with job_no_time) eq_refl
           (sim2_lookup_gives (sim_queue_of 0) job_no_time eq_refl));
    simpl; lia.
Defined.

Lemma for_range_raises_first {E} (start stop step : Z) (body : Z → M E unit) s e s' :
  0 < step → start < stop →
  body start s = (Raise e, s') →
  for_range start stop step body s = (Raise e, s').
Proof.
  intros Hs Hlt Hbody. unfold for_range.
  destruct (step =? 0) eqn:H0; [apply Z.eqb_eq in H0; lia|].
  destruct (py_range_first start stop step Hs Hlt) as [l ->].
  cbn [for_]. unfold bind. by rewrite Hbody.
Qed.

(** X13.  A tile size of 0 in y, or in x with a non-empty y extent, makes
    [generate_upload_tasks] fail with the [ValueError] of [range], when the
    t and z extents are not empty: the job's tile sizes are used as steps
    without a check. *)
Theorem generate_upload_tasks_zero_tile_size {E} (env : Env E) job_id job s key e' :
  resolves s job_id job →
  LookUpKey_get_lookup_key env (boss_key job) (ext s) = (Ok key, e') →
  length (split_on "&" key) = 3%nat →
  t_start job < t_stop job → z_start job < z_stop job →
  tile_size_y job = 0 ∨
  (0 < tile_size_y job ∧ y_start job < y_stop job ∧ tile_size_x job = 0) →
  generate_upload_tasks env job_id s =
  (Raise (PyError "ValueError" "range() arg 3 must not be zero"), with_ext e' s).
Proof.
  intros Hres Hkey Hlen Ht Hz Hsize.
  rewrite (generate_upload_tasks_resolved env job_id job s Hres).
  unfold publish_tasks. unfold bind at 1 2, call. unfold boss_key in Hkey. rewrite Hkey.
  destruct (split_on "&" key) as [|a [|b [|c [|d l]]]]; try done.
  cbn [unpack3]. unfold ret at 1.
  apply for_range_raises_first; [lia|done|].
  apply for_range_raises_first; [lia|done|].
  destruct Hsize as [Hy|(Hty & Hy & Hx)].
  - unfold for_range. by rewrite Hy.
  - apply for_range_raises_first; [done|done|].
    unfold for_range. by rewrite Hx.
Qed.

Lemma generate_upload_tasks_zero_tile_size_witness :
  generate_upload_tasks (sim2 sim_nominal) None
    (state_with (job_with (0, 64) (0, 64) (0, 32) (0, 1) 0 64)) =
  (Raise (PyError "ValueError" "range() arg 3 must not be zero"),
   state_with (job_with (0, 64) (0, 64) (0, 32) (0, 1) 0 64)).
Proof.
  apply (generate_upload_tasks_zero_tile_size (sim2 sim_nominal) None
           (job_with (0, 64) (0, 64) (0, 32) (0, 1) 0 64)
           (state_with (job_with (0, 64) (0, 64) (0, 32) (0, 1) 0 64)) "1&2&3" 1);
    try reflexivity.
  right. simpl. lia.
Defined.



(** ** Task generation: how many tasks, and which *)

Lemma list_sum_map_const_mul {A} (c : nat) (g : A → nat) (l : list A) :
  list_sum (map (λ a, (c * g a)%nat) l) = (c * list_sum (map g l))%nat.
Proof. induction l as [|a l IH]; simpl; [lia|]. rewrite IH. nia. Qed.

Lemma list_sum_map_ext_in {A} (f g : A → nat) (l : list A) :
  (∀ a, In a l → f a = g a) → list_sum (map f l) = list_sum (map g l).
Proof.
  induction l as [|a l IH]; intros Hfg; [done|]. simpl.
  rewrite (Hfg a) by (by left). rewrite IH; [done|]. intros b Hb. apply Hfg. by right.
Qed.

(** The tile counts of the chunks along z add up to the depth of the extent. *)
Lemma tile_counts_sum (fuel : nat) (cur z1 : Z) :
  z1 - cur ≤ Z.of_nat fuel →
  list_sum (map (λ z, Z.to_nat (Z.min 16 (z1 - z))) (range_from fuel cur z1 16)) =
  Z.to_nat (z1 - cur).
Proof.
  revert cur. induction fuel as [|fuel IH]; intros cur Hf; [cbn; lia|].
  cbn [range_from]. change (0 <? 16) with true. cbn match.
  destruct (cur <? z1) eqn:Hc; [|apply Z.ltb_ge in Hc; cbn; lia].
  apply Z.ltb_lt in Hc. simpl map. simpl list_sum.
  change (fold_right Init.Nat.add 0%nat ?l) with (list_sum l).
  rewrite IH by lia. lia.
Qed.

(** The tasks of a job, counted. *)
Lemma upload_tasks_length {E} (env : Env E) config job project_info :
  0 < tile_size_x job → 0 < tile_size_y job →
  x_start job ≤ x_stop job → y_start job ≤ y_stop job →
  z_start job ≤ z_stop job → t_start job ≤ t_stop job →
  Z.of_nat (length (upload_tasks env config job project_info)) =
  (t_stop job - t_start job) * (z_stop job - z_start job) *
  (ceil_div (y_stop job - y_start job) (tile_size_y job) *
   ceil_div (x_stop job - x_start job) (tile_size_x job)).
Proof.
  intros Htx Hty Hx Hy Hz Ht.
  unfold upload_tasks, upload_chunks.
  rewrite flat_map_flat_map.
  set (ny := length (py_range (y_start job) (y_stop job) (tile_size_y job))).
  set (nx := length (py_range (x_start job) (x_stop job) (tile_size_x job))).
  rewrite (flat_map_constant_length (c := (ny * nx * Z.to_nat (z_stop job - z_start job))%nat)).
  - rewrite (py_range_spec (t_start job)), length_spec_range by lia.
    unfold ny, nx. rewrite !py_range_spec, !length_spec_range by lia.
    unfold ceil_div at 1. replace (t_stop job - t_start job + 1 - 1)
      with (t_stop job - t_start job) by lia. rewrite Z.div_1_r.
    assert (0 ≤ ceil_div (y_stop job - y_start job) (tile_size_y job)).
    { unfold ceil_div. apply Z.div_pos; lia. }
    assert (0 ≤ ceil_div (x_stop job - x_start job) (tile_size_x job)).
    { unfold ceil_div. apply Z.div_pos; lia. }
    rewrite !Nat2Z.inj_mul, !Z2Nat.id by lia. lia.
  - intros t _. rewrite flat_map_flat_map, length_flat_map.
    rewrite (list_sum_map_ext_in _
               (λ z, (ny * nx * Z.to_nat (Z.min 16 (z_stop job - z)))%nat)).
    + rewrite list_sum_map_const_mul. f_equal. unfold py_range.
      change (16 =? 0) with false. cbn match. apply tile_counts_sum. lia.
    + intros z Hzin. rewrite py_range_spec in Hzin by lia.
      apply in_spec_range_lower in Hzin; [|lia].
      rewrite flat_map_flat_map.
      rewrite (flat_map_constant_length (c := (nx * Z.to_nat (Z.min 16 (z_stop job - z)))%nat)).
      * fold ny. lia.
      * intros y _. rewrite flat_map_map.
        rewrite (flat_map_constant_length (c := Z.to_nat (Z.min 16 (z_stop job - z)))).
        -- done.
        -- intros x _.
           pose proof (chunk_tasks_length env config project_info job t z y x ltac:(lia)).
           lia.
Qed.

(** X14.  For a job with positive tile sizes and extents that do not run
    backwards, whose lookup key is found, a run of [generate_upload_tasks]
    that returns has added to the upload queue exactly
    (t_stop - t_start) * (z_stop - z_start) * ceil(y extent / tile_size_y)
    * ceil(x extent / tile_size_x) messages, one per time step, z-slice and
    x-y tile position, whatever the grouping in chunks of 16; a run that
    raises has added fewer.  The run returns when the queue accepts the
    messages and the coordinates are between 0 and 2^53. *)
Theorem upload_task_count {E} (env : Env E) job_id job project_info s :
  resolves s job_id job → lookup_gives env job project_info →
  0 < tile_size_x job → 0 < tile_size_y job →
  x_start job ≤ x_stop job → y_start job ≤ y_stop job →
  z_start job ≤ z_stop job → t_start job ≤ t_stop job →
  let count :=
    (t_stop job - t_start job) * (z_stop job - z_start job) *
    (ceil_div (y_stop job - y_start job) (tile_size_y job) *
     ceil_div (x_stop job - x_start job) (tile_size_x job)) in
  (∀ r s', generate_upload_tasks env job_id s = (r, s') →
     ∃ m, published s' = (published s ++ m)%list ∧
          match r with
          | Ok _ => Z.of_nat (length m) = count
          | Raise _ => Z.of_nat (length m) < count
          end) ∧
  (queue_accepts env → coordinates_exact job → completes env job_id s).
Proof.
  intros Hres Hlook Htx Hty Hx Hy Hz Ht count. split.
  - intros r s' Hrun.
    destruct (generate_upload_tasks_publishes env job_id job project_info s
                Hres Hlook ltac:(lia) ltac:(lia) r s' Hrun) as (m & Hp & Hm).
    exists m. split; [done|].
    pose proof (upload_tasks_length env (self_config (self s)) job project_info
                  Htx Hty Hx Hy Hz Ht) as Hlen.
    fold count in Hlen. rewrite <- Hlen.
    destruct r as [[]|x].
    + by rewrite Hm, length_map.
    + destruct Hm as (msg & rest & Hm).
      apply (f_equal (@length string)) in Hm.
      rewrite length_map, length_app in Hm. cbn [length] in Hm. lia.
  - intros Hq Hexact.
    by apply (generate_upload_tasks_completes env job_id job project_info s).
Qed.

Lemma upload_task_count_witness :
  ∃ s', generate_upload_tasks (sim_env NoFault) None (state_with job_B) = (Ok tt, s') ∧
        Z.of_nat (length (published s')) = 20.
Proof.
  destruct (upload_task_count (sim_env NoFault) None job_B ["1"; "2"; "3"] (state_with job_B)
              eq_refl (sim_lookup_gives job_B))
    as (Hcount & Hdone); [simpl; lia..|].
  destruct (Hdone (sim_queue_accepts NoFault)) as [s' Hrun].
  { unfold coordinates_exact. simpl. lia. }
  exists s'. split; [exact Hrun|].
  destruct (Hcount _ _ Hrun) as (m & -> & Hm). exact Hm.
Defined.

Ltac unpack_in :=
  repeat match goal with
         | H : In _ (flat_map _ _) |- _ => apply in_flat_map in H as (? & ? & H)
         | H : In _ (map _ _) |- _ => apply in_map_iff in H as (? & H & ?)
         end.

Ltac unpack_keys :=
  unpack_in; subst;
  repeat match goal with
         | H : In _ (chunk_tasks _) |- _ => unfold chunk_at in H; cbn [chunk_tasks] in H
         end;
  unpack_in; subst;
  cbn [task_chunk_key task_tile_key] in *; simplify_eq.

(** The key pairs of the tasks of a job with exact coordinates differ. *)
Lemma upload_tasks_keys_NoDup {E} (env : Env E) config job project_info :
  chunk_keys_distinct env → tile_keys_distinct env →
  coordinates_exact job →
  0 < tile_size_x job → 0 < tile_size_y job →
  NoDup (map (λ t, (task_chunk_key t, task_tile_key t))
           (upload_tasks env config job project_info)).
Proof.
  intros Hck Htk (Hx & Hx53 & Hy & Hy53 & Hz & Hz53) Htx Hty.
  unfold upload_tasks, upload_chunks.
  rewrite !py_range_spec by lia.
  rewrite flat_map_flat_map, map_flat_map.
  apply NoDup_flat_map; [by apply NoDup_spec_range| |].
  2:{ intros t1 t2 p H1 H2 Hp1 Hp2. unpack_keys.
      match goal with H : encode_chunk_key _ _ _ _ _ _ _ _ _ = _ |- _ =>
        apply Hck in H as (_ & _ & _ & ?); done end. }
  intros t _. rewrite flat_map_flat_map, map_flat_map.
  apply NoDup_flat_map; [by apply NoDup_spec_range| |].
  2:{ intros z1 z2 p H1 H2 Hp1 Hp2. unpack_keys.
      match goal with H : encode_chunk_key _ _ _ _ _ _ _ _ _ = _ |- _ =>
        apply Hck in H as (_ & _ & Hcz & _) end.
      by apply (spec_range_div_inj (z_start job) (z_stop job) 16). }
  intros z _. rewrite flat_map_flat_map, map_flat_map.
  apply NoDup_flat_map; [by apply NoDup_spec_range| |].
  2:{ intros y1 y2 p H1 H2 Hp1 Hp2. unpack_keys.
      match goal with H : encode_chunk_key _ _ _ _ _ _ _ _ _ = _ |- _ =>
        apply Hck in H as (_ & Hcy & _ & _) end.
      by apply (spec_range_div_inj (y_start job) (y_stop job) (tile_size_y job)). }
  intros y _. rewrite flat_map_map, map_flat_map.
  apply NoDup_flat_map; [by apply NoDup_spec_range| |].
  2:{ intros x1 x2 p H1 H2 Hp1 Hp2. unpack_keys.
      match goal with H : encode_chunk_key _ _ _ _ _ _ _ _ _ = _ |- _ =>
        apply Hck in H as (Hcx & _ & _ & _) end.
      by apply (spec_range_div_inj (x_start job) (x_stop job) (tile_size_x job)). }
  intros x _. unfold chunk_at. cbn [chunk_tasks]. rewrite map_map.
  cbn [task_chunk_key task_tile_key]. rewrite py_range_spec by lia.
  match goal with |- NoDup (map ?f ?l) => change (NoDup (f <$> l)) end.
  apply NoDup_fmap_2_strong; [|by apply NoDup_spec_range].
  intros tile tile' _ _ Heq. simplify_eq. by eapply Htk.
Qed.

(** X15.  When the encoders give distinct keys to distinct chunk positions
    and to distinct tile indices, a run of [generate_upload_tasks] on a job
    with coordinates between 0 and 2^53 and positive tile sizes publishes
    the messages of tasks no two of which share both the chunk key and the
    tile key: a tile key that repeats in another chunk comes with a
    different chunk key.  The run publishes all of them, and returns, when
    the queue accepts the messages. *)
Theorem upload_task_keys_distinct {E} (env : Env E) job_id job project_info s :
  chunk_keys_distinct env → tile_keys_distinct env →
  resolves s job_id job → lookup_gives env job project_info →
  coordinates_exact job →
  0 < tile_size_x job → 0 < tile_size_y job →
  let tasks := upload_tasks env (self_config (self s)) job project_info in
  publishes env job_id s (map (task_message env) tasks) ∧
  (queue_accepts env → completes env job_id s) ∧
  NoDup (map (λ t, (task_chunk_key t, task_tile_key t)) tasks).
Proof.
  intros Hck Htk Hres Hlook Hexact Htx Hty tasks. split; [|split].
  - apply (generate_upload_tasks_publishes env job_id job project_info s); [done|done|lia|lia].
  - intros Hq. by apply (generate_upload_tasks_completes env job_id job project_info s).
  - by apply upload_tasks_keys_NoDup.
Qed.

Lemma sim2_chunk_keys_distinct (c : Sim) : chunk_keys_distinct (sim2 c).
Proof.
  intros config project_info res n x y z t n' x' y' z' t' Heq. cbn in Heq.
  apply (inj pretty), (inj encode) in Heq. by simplify_eq.
Qed.

Lemma sim2_tile_keys_distinct (c : Sim) : tile_keys_distinct (sim2 c).
Proof.
  intros config project_info res x y t tile tile' Heq. cbn in Heq.
  apply (inj pretty), (inj encode) in Heq. by simplify_eq.
Qed.

Lemma upload_task_keys_distinct_witness :
  fst (generate_upload_tasks (sim2 sim_nominal) None (state_with job_A)) = Ok tt ∧
  length (published (snd (generate_upload_tasks (sim2 sim_nominal) None (state_with job_A))))
    = 32%nat ∧
  NoDup (map (λ t, (task_chunk_key t, task_tile_key t))
           (upload_tasks (sim2 sim_nominal) None job_A ["1"; "2"; "3"])).
Proof.
  assert (fst (generate_upload_tasks (sim2 sim_nominal) None (state_with job_A)) = Ok tt)
    as Hfst by (vm_compute; reflexivity).
  destruct (upload_task_keys_distinct (sim2 sim_nominal) None job_A ["1"; "2"; "3"]
              (state_with job_A)
              (sim2_chunk_keys_distinct sim_nominal) (sim2_tile_keys_distinct sim_nominal)
              eq_refl (sim2_lookup_gives sim_nominal job_A eq_refl))
    as (Hpub & _ & Hnd).
  { unfold coordinates_exact. simpl. lia. }
  { simpl. lia. }
  { simpl. lia. }
  split; [exact Hfst|]. split; [|exact Hnd].
  destruct (Hpub _ _ (run_eq _ _ Hfst)) as (m & -> & ->).
  vm_compute. reflexivity.
Defined.
(** ** The job life cycle: what a call writes, and what it raises *)

(** X16.  [delete_tiles] changes neither the manager, nor the job table, nor
    the upload queue, and every exception raised while it works reaches the
    caller as a [BossError] with code BOSS_SYSTEM_ERROR whose message names
    the id of the job and ends with the text of the cause.  The cause [x] is
    an exception of the tile index or of the tile bucket: it has every
    property [P] that all the exceptions of their operations have. *)
Theorem delete_tiles_wraps_failure {E} (env : Env E) (P : exn → Prop) ingest_job s r s' :
  tile_store_raises env P →
  delete_tiles env ingest_job s = (r, s') →
  self s' = self s ∧ ingest_jobs s' = ingest_jobs s ∧
  upload_messages s' = upload_messages s ∧
  match r with
  | Ok _ => True
  | Raise e =>
      ∃ x, P x ∧
           e = BossError ("Exception while deleteing tiles for the ingest job "
                            +:+ pretty (id ingest_job) +:+ ". " +:+ str_exn env x)
                         BOSS_SYSTEM_ERROR
  end.
Proof.
  intros H Hrun. exact (wp_run _ _ _ _ _ (delete_tiles_keeps env P ingest_job s H) Hrun).
Qed.

Lemma delete_tiles_wraps_failure_witness :
  fst (delete_tiles (sim2 sim_no_index) job_A (state_with job_A)) =
    Raise (BossError "Exception while deleteing tiles for the ingest job 1. index unavailable"
                     BOSS_SYSTEM_ERROR) ∧
  ingest_jobs (snd (delete_tiles (sim2 sim_no_index) job_A (state_with job_A))) =
    ingest_jobs (state_with job_A) ∧
  ∃ x, x = PyError "ClientError" "index unavailable" ∧
       BossError "Exception while deleteing tiles for the ingest job 1. index unavailable"
                 BOSS_SYSTEM_ERROR =
       BossError ("Exception while deleteing tiles for the ingest job "
                    +:+ pretty (id job_A) +:+ ". " +:+ str_exn (sim2 sim_no_index) x)
                 BOSS_SYSTEM_ERROR.
Proof.
  assert (fst (delete_tiles (sim2 sim_no_index) job_A (state_with job_A)) =
          Raise (BossError
                   "Exception while deleteing tiles for the ingest job 1. index unavailable"
                   BOSS_SYSTEM_ERROR)) as Hfst
    by (vm_compute; reflexivity).
  split; [exact Hfst|].
  destruct (delete_tiles_wraps_failure (sim2 sim_no_index)
              (λ x, x = PyError "ClientError" "index unavailable")
              job_A (state_with job_A) _ _ sim2_tile_store_raises (run_eq _ _ Hfst))
    as (_ & Hj & _ & Hx).
  split; [exact Hj|exact Hx].
Defined.

(** X17.  When [delete_ingest_job] returns, it returns the id it was given;
    the row of the job is still in the table, with its status set to
    Deleted and every other field as before, and no other row has changed;
    the manager's own job ([self.job]) is not updated and nothing is sent
    to the upload queue. *)
Theorem delete_ingest_job_soft_deletes {E} (env : Env E) ingest_job_id s n s' :
  delete_ingest_job env ingest_job_id s = (Ok n, s') →
  n = ingest_job_id ∧
  self_job (self s') = self_job (self s) ∧
  upload_messages s' = upload_messages s ∧
  ∃ job, ingest_jobs s !! ingest_job_id = Some job ∧
         ingest_jobs s' = <[id job := set_status STATUS_DELETED job]> (ingest_jobs s).
Proof.
  intros Hrun.
  pose proof (wp_run _ _ _ _ _ (delete_ingest_job_outcome env (λ _, True) ingest_job_id s
                (tile_store_raises_True env) (cleanup_raises_True env)) Hrun)
    as (Hs & Hu & Hn & job & Hjob & Ht).
  repeat split; try done. by exists job.
Qed.

Lemma delete_ingest_job_soft_deletes_witness :
  fst (delete_run NoFault 1) = Ok 1 ∧
  self_job (self (snd (delete_run NoFault 1))) = Some job_A ∧
  ingest_jobs (snd (delete_run NoFault 1)) !! 1 = Some (set_status STATUS_DELETED job_A).
Proof.
  assert (fst (delete_run NoFault 1) = Ok 1) as Hfst by (vm_compute; reflexivity).
  split; [exact Hfst|].
  destruct (delete_ingest_job_soft_deletes (sim_env NoFault) 1 (state_with job_A) 1 _
              (run_eq _ _ Hfst)) as (_ & Hs & _ & job & Hjob & Ht).
  split; [exact Hs|].
  rewrite Ht. change (Some job_A = Some job) in Hjob. injection Hjob as <-.
  apply lookup_insert_eq.
Defined.



(** X19.  After a successful [delete_ingest_job] of a job, in a table that
    holds every row under its own id, [get_ingest_job] of the same id still
    finds the job: it returns the former row with status Deleted. *)
Theorem delete_then_get_ingest_job {E} (env : Env E) ingest_job_id job s n s' :
  jobs_keyed (ingest_jobs s) →
  ingest_jobs s !! ingest_job_id = Some job →
  delete_ingest_job env ingest_job_id s = (Ok n, s') →
  get_ingest_job ingest_job_id s' = (Ok (set_status STATUS_DELETED job), s').
Proof.
  intros Hkeyed Hjob Hrun.
  pose proof (wp_run _ _ _ _ _ (delete_ingest_job_outcome env (λ _, True) ingest_job_id s
                (tile_store_raises_True env) (cleanup_raises_True env)) Hrun)
    as (_ & _ & _ & job' & Hjob' & Ht).
  assert (job' = job) as -> by congruence.
  rewrite (Hkeyed _ _ Hjob) in Ht.
  unfold get_ingest_job, try_except, IngestJob_objects_get.
  by rewrite Ht, lookup_insert_eq.
Qed.

Lemma state_with_keyed (job : IngestJob) : jobs_keyed (ingest_jobs (state_with job)).
Proof.
  intros k job' Hl. cbn in Hl. apply lookup_singleton_Some in Hl as [<- <-]. done.
Qed.

Lemma delete_then_get_ingest_job_witness :
  fst (delete_run NoFault 1) = Ok 1 ∧
  get_ingest_job 1 (snd (delete_run NoFault 1)) =
    (Ok (set_status STATUS_DELETED job_A), snd (delete_run NoFault 1)).
Proof.
  assert (fst (delete_run NoFault 1) = Ok 1) as Hfst by (vm_compute; reflexivity).
  split; [exact Hfst|].
  apply (delete_then_get_ingest_job (sim_env NoFault) 1 job_A (state_with job_A) 1 _
           (state_with_keyed job_A) eq_refl (run_eq _ _ Hfst)).
Defined.

(** X20.  Every exception [setup_ingest] raises is a [BossError], and the
    manager's owner is set by then.  Nothing is rolled back: the job table
    is either as before or has gained the row that [create_ingest_job]
    wrote, still in its initial status and without queue references, even
    when the failure came after the queues had been created. *)
Theorem setup_ingest_failure_is_BossError {E} (env : Env E) user config_data s e s' :
  setup_ingest env user config_data s = (Raise e, s') →
  (∃ m c, e = BossError m c) ∧
  self_owner (self s') = Some user ∧
  (ingest_jobs s' = ingest_jobs s ∨
   ∃ pk data, ingest_jobs s' = <[pk := row_of_data env pk data]> (ingest_jobs s)).
Proof.
  intros Hrun.
  pose proof (wp_run _ _ _ _ _ (setup_ingest_outcome env user config_data s) Hrun)
    as (Ho & Hx & Ht).
  done.
Qed.

Lemma setup_ingest_failure_is_BossError_witness :
  fst (setup_run QueueCreationFails) =
    Raise (BossError "Unable to create the upload and ingest queue.queue limit exceeded"
                     BOSS_SYSTEM_ERROR) ∧
  (upload_queue <$> ingest_jobs (snd (setup_run QueueCreationFails)) !! 1) = Some None ∧
  (ingest_jobs (snd (setup_run QueueCreationFails)) = ingest_jobs state_empty ∨
   ∃ pk data, ingest_jobs (snd (setup_run QueueCreationFails)) =
                <[pk := row_of_data (sim_env QueueCreationFails) pk data]>
                  (ingest_jobs state_empty)).
Proof.
  assert (fst (setup_run QueueCreationFails) =
          Raise (BossError "Unable to create the upload and ingest queue.queue limit exceeded"
                           BOSS_SYSTEM_ERROR)) as Hfst
    by (vm_compute; reflexivity).
  split; [exact Hfst|]. split; [vm_compute; reflexivity|].
  apply (setup_ingest_failure_is_BossError (sim_env QueueCreationFails) "alice" config_A
           state_empty _ _ (run_eq _ _ Hfst)).
Defined.

(** X21.  When [setup_ingest] returns, the job it returns was created for
    the given creator, the job table differs from the one before the call
    in the row of that job only, and [get_ingest_job] of its id returns the
    very job that [setup_ingest] returned. *)
Theorem setup_ingest_writes_one_row {E} (env : Env E) user config_data s r s' :
  setup_ingest env user config_data s = (Ok r, s') →
  ∃ job, r = Some job ∧
         creator job = Some user ∧
         ingest_jobs s' = <[id job := job]> (ingest_jobs s) ∧
         get_ingest_job (id job) s' = (Ok job, s').
Proof.
  intros Hrun.
  pose proof (wp_run _ _ _ _ _ (setup_ingest_outcome env user config_data s) Hrun)
    as (_ & job & -> & _ & Hc & Ht).
  exists job. repeat split; try done.
  unfold get_ingest_job, try_except, IngestJob_objects_get.
  by rewrite Ht, lookup_insert_eq.
Qed.

Lemma setup_ingest_writes_one_row_witness :
  fst (setup_run NoFault) = Ok (Some job_A) ∧
  ∃ job, Some job_A = Some job ∧
         creator job = Some "alice" ∧
         ingest_jobs (snd (setup_run NoFault)) = <[id job := job]> (ingest_jobs state_empty) ∧
         get_ingest_job (id job) (snd (setup_run NoFault)) = (Ok job, snd (setup_run NoFault)).
Proof.
  assert (fst (setup_run NoFault) = Ok (Some job_A)) as Hfst by (vm_compute; reflexivity).
  split; [exact Hfst|].
  apply (setup_ingest_writes_one_row (sim_env NoFault) "alice" config_A state_empty _ _
           (run_eq _ _ Hfst)).
Defined.

(** X22.  [setup_ingest] and [delete_ingest_job] keep the job table keyed:
    when every row is stored under its own id before the call, so it is
    after, whether the call returns or raises. *)
Theorem jobs_stay_keyed {E} (env : Env E) user config_data ingest_job_id s :
  jobs_keyed (ingest_jobs s) →
  jobs_keyed (ingest_jobs (snd (setup_ingest env user config_data s))) ∧
  jobs_keyed (ingest_jobs (snd (delete_ingest_job env ingest_job_id s))).
Proof.
  intros Hkeyed. split.
  - pose proof (setup_ingest_outcome env user config_data s) as Hwp. unfold wp in Hwp.
    destruct (setup_ingest env user config_data s) as [[r|e] s']; cbn [fst snd] in *.
    + destruct Hwp as (_ & job & _ & _ & _ & ->). by apply jobs_keyed_insert.
    + destruct Hwp as (_ & _ & [->|(pk & data & ->)]); [done|].
      by apply jobs_keyed_insert.
  - pose proof (delete_ingest_job_outcome env (λ _, True) ingest_job_id s
                (tile_store_raises_True env) (cleanup_raises_True env)) as Hwp. unfold wp in Hwp.
    destruct (delete_ingest_job env ingest_job_id s) as [[r|e] s']; cbn [fst snd] in *.
    + destruct Hwp as (_ & _ & _ & job & _ & ->). by apply jobs_keyed_insert.
    + destruct Hwp as (_ & _ & _ & [->|(job & _ & ->)]); [done|].
      by apply jobs_keyed_insert.
Qed.

Lemma jobs_stay_keyed_witness :
  jobs_keyed (ingest_jobs (snd (setup_ingest (sim_env NoFault) "alice" config_A
                                  (state_with job_A)))) ∧
  jobs_keyed (ingest_jobs (snd (delete_run NoFault 1))).
Proof.
  apply (jobs_stay_keyed (sim_env NoFault) "alice" config_A 1 (state_with job_A)
           (state_with_keyed job_A)).
Defined.

(** X23.  When [setup_ingest] returns a job whose lookup key is found and
    whose tile sizes in x and y are not 0, the messages it has added to the
    upload queue are exactly the task messages of the returned job, in
    order, built with the configuration the manager holds: they carry the
    job's new queue references. *)
Theorem setup_ingest_publishes_job_tasks {E} (env : Env E)
    user config_data project_info s job s' :
  setup_ingest env user config_data s = (Ok (Some job), s') →
  lookup_gives env job project_info →
  tile_size_x job ≠ 0 → tile_size_y job ≠ 0 →
  published s' =
    (published s ++
     map (task_message env)
       (upload_tasks env (self_config (self s')) job project_info))%list.
Proof.
  intros Hrun.
  exact (wp_run _ _ _ _ _ (setup_ingest_publishes env user config_data project_info s) Hrun
           job eq_refl).
Qed.

Lemma setup_ingest_publishes_job_tasks_witness :
  fst (setup_run NoFault) = Ok (Some job_A) ∧
  length (published (snd (setup_run NoFault))) = 32%nat ∧
  published (snd (setup_run NoFault)) =
    (published state_empty ++
     map (task_message (sim_env NoFault))
       (upload_tasks (sim_env NoFault) (self_config (self (snd (setup_run NoFault))))
          job_A ["1"; "2"; "3"]))%list.
Proof.
  assert (fst (setup_run NoFault) = Ok (Some job_A)) as Hfst by (vm_compute; reflexivity).
  split; [exact Hfst|]. split; [vm_compute; reflexivity|].
  apply (setup_ingest_publishes_job_tasks (sim_env NoFault) "alice" config_A
           ["1"; "2"; "3"] state_empty job_A _ (run_eq _ _ Hfst)
           (sim_lookup_gives job_A)); simpl; lia.
Defined.


